(** * Bug-tracker backend: access control, ticket lifecycle and notifications

    A shallow embedding of the controllers and models of the bug-tracker
    backend (models/Project.js, models/Ticket.js, controllers/*.js,
    utils/emailService.js), and the properties of its access-control and
    ticket-lifecycle logic.

    Conventions of the embedding.
    - An ObjectId is the string its [toString()] returns; two references are
      compared through that string, as the controllers do.
    - A [Date] is the millisecond reading of the clock; each request carries
      the reading its [new Date()] calls return.
    - A collection is the list of its documents in insertion order;
      [findOne] returns the first match.
    - A controller is a computation over the database and the log of the
      requests made to the email service; [throw] leaves both as they are at
      the point of the throw, as an exception in the handler does.
    - Schema enums are inductive types and the hours of a ticket are
      integers.  Of the schema validators run by
      [save], the numeric ranges of the ticket are kept; the string setters
      and validators ([trim], [maxlength]) and the bookkeeping fields that
      Mongoose maintains itself ([createdAt], [updatedAt], [__v]) are
      outside the model. *)

From Stdlib Require Import ZArith List String Bool Lia.
Import ListNotations.
Open Scope string_scope.
Open Scope list_scope.
Open Scope Z_scope.

Definition ObjectId := string.
Definition Date := Z.

(** ** Schema enums *)

Inductive UserRole := USER | ADMIN.
Inductive MemberRole := VIEWER | CONTRIBUTOR | MANAGER.
Inductive ProjectStatus := PLANNING | ACTIVE | ON_HOLD | COMPLETED | ARCHIVED.
Inductive ProjectPriority := PP_LOW | PP_MEDIUM | PP_HIGH | PP_CRITICAL.
Inductive TicketStatus := OPEN | IN_PROGRESS | RESOLVED | CLOSED.
Inductive TicketPriority := LOW | MEDIUM | HIGH.
Inductive TicketType := BUG | FEATURE | ENHANCEMENT | TASK.

Definition UserRole_eqb (a b : UserRole) : bool :=
  match a, b with
  | USER, USER | ADMIN, ADMIN => true
  | _, _ => false
  end.

Definition TicketStatus_eqb (a b : TicketStatus) : bool :=
  match a, b with
  | OPEN, OPEN | IN_PROGRESS, IN_PROGRESS
  | RESOLVED, RESOLVED | CLOSED, CLOSED => true
  | _, _ => false
  end.

(** JavaScript's [a || b] on an optional value. *)
Definition or_else {A} (a : option A) (b : A) : A :=
  match a with Some x => x | None => b end.

Definition is_some {A} (a : option A) : bool :=
  match a with Some _ => true | None => false end.

(** [a?.toString() !== b?.toString()] on optional references. *)
Definition ref_neqb (a b : option ObjectId) : bool :=
  match a, b with
  | None, None => false
  | Some x, Some y => negb (String.eqb x y)
  | _, _ => true
  end.

(** ** models/User.js (the fields the controllers read and write) *)

Module User.
Record doc := {
  _id : ObjectId;
  name : string;
  email : string;
  role : UserRole;
  isActive : bool
}.

Definition set_role (v : UserRole) (u : doc) : doc :=
  {| _id := _id u; name := name u; email := email u;
     role := v; isActive := isActive u |}.

Definition set_isActive (v : bool) (u : doc) : doc :=
  {| _id := _id u; name := name u; email := email u;
     role := role u; isActive := v |}.
End User.

(** ** models/Project.js *)

Module Project.
Record member := {
  user : ObjectId;
  role : MemberRole;
  joinedAt : Date
}.

Record doc := {
  _id : ObjectId;
  name : string;
  description : string;
  createdBy : ObjectId;
  isActive : bool;
  status : ProjectStatus;
  priority : ProjectPriority;
  startDate : Date;
  endDate : option Date;
  members : list member
}.

Definition set_isActive (v : bool) (p : doc) : doc :=
  {| _id := _id p; name := name p; description := description p;
     createdBy := createdBy p; isActive := v; status := status p;
     priority := priority p; startDate := startDate p;
     endDate := endDate p; members := members p |}.

Definition set_status (v : ProjectStatus) (p : doc) : doc :=
  {| _id := _id p; name := name p; description := description p;
     createdBy := createdBy p; isActive := isActive p; status := v;
     priority := priority p; startDate := startDate p;
     endDate := endDate p; members := members p |}.

Definition set_members (v : list member) (p : doc) : doc :=
  {| _id := _id p; name := name p; description := description p;
     createdBy := createdBy p; isActive := isActive p; status := status p;
     priority := priority p; startDate := startDate p;
     endDate := endDate p; members := v |}.

(** [const roleHierarchy = { VIEWER: 1, CONTRIBUTOR: 2, MANAGER: 3 }] *)
Definition roleHierarchy (r : MemberRole) : Z :=
  match r with
  | VIEWER => 1
  | CONTRIBUTOR => 2
  | MANAGER => 3
  end.

(** [projectSchema.methods.hasAccess = function(userId, requiredRole = 'VIEWER')] *)
Definition hasAccess (this : doc) (userId : ObjectId)
    (requiredRole : MemberRole) : bool :=
  if String.eqb (createdBy this) userId then true
  else
    match find (fun m => String.eqb (user m) userId) (members this) with
    | None => false
    | Some member =>
        roleHierarchy (role member) >=? roleHierarchy requiredRole
    end.
End Project.

(** ** models/Ticket.js *)

Module Ticket.
Record historyEntry := {
  h_status : TicketStatus;
  changedBy : ObjectId;
  changedAt : Date;
  comment : option string
}.

Record attachment := {
  fileName : string;
  fileUrl : string;
  uploadedBy : ObjectId;
  uploadedAt : Date
}.

Record doc := {
  _id : ObjectId;
  title : string;
  description : string;
  status : TicketStatus;
  priority : TicketPriority;
  type : TicketType;
  assignedTo : option ObjectId;
  project : ObjectId;
  createdBy : ObjectId;
  dueDate : option Date;
  estimatedHours : option Z;
  actualHours : Z;
  tags : list string;
  statusHistory : list historyEntry;
  attachments : list attachment;
  resolvedAt : option Date;
  closedAt : option Date
}.

Definition set_title (v : string) (t : doc) : doc :=
  {| _id := _id t; title := v; description := description t;
     status := status t; priority := priority t; type := type t;
     assignedTo := assignedTo t; project := project t;
     createdBy := createdBy t; dueDate := dueDate t;
     estimatedHours := estimatedHours t; actualHours := actualHours t;
     tags := tags t; statusHistory := statusHistory t;
     attachments := attachments t; resolvedAt := resolvedAt t;
     closedAt := closedAt t |}.

Definition set_description (v : string) (t : doc) : doc :=
  {| _id := _id t; title := title t; description := v; status := status t;
     priority := priority t; type := type t; assignedTo := assignedTo t;
     project := project t; createdBy := createdBy t; dueDate := dueDate t;
     estimatedHours := estimatedHours t; actualHours := actualHours t;
     tags := tags t; statusHistory := statusHistory t;
     attachments := attachments t; resolvedAt := resolvedAt t;
     closedAt := closedAt t |}.

Definition set_status (v : TicketStatus) (t : doc) : doc :=
  {| _id := _id t; title := title t; description := description t;
     status := v; priority := priority t; type := type t;
     assignedTo := assignedTo t; project := project t;
     createdBy := createdBy t; dueDate := dueDate t;
     estimatedHours := estimatedHours t; actualHours := actualHours t;
     tags := tags t; statusHistory := statusHistory t;
     attachments := attachments t; resolvedAt := resolvedAt t;
     closedAt := closedAt t |}.

Definition set_priority (v : TicketPriority) (t : doc) : doc :=
  {| _id := _id t; title := title t; description := description t;
     status := status t; priority := v; type := type t;
     assignedTo := assignedTo t; project := project t;
     createdBy := createdBy t; dueDate := dueDate t;
     estimatedHours := estimatedHours t; actualHours := actualHours t;
     tags := tags t; statusHistory := statusHistory t;
     attachments := attachments t; resolvedAt := resolvedAt t;
     closedAt := closedAt t |}.

Definition set_type (v : TicketType) (t : doc) : doc :=
  {| _id := _id t; title := title t; description := description t;
     status := status t; priority := priority t; type := v;
     assignedTo := assignedTo t; project := project t;
     createdBy := createdBy t; dueDate := dueDate t;
     estimatedHours := estimatedHours t; actualHours := actualHours t;
     tags := tags t; statusHistory := statusHistory t;
     attachments := attachments t; resolvedAt := resolvedAt t;
     closedAt := closedAt t |}.

Definition set_assignedTo (v : option ObjectId) (t : doc) : doc :=
  {| _id := _id t; title := title t; description := description t;
     status := status t; priority := priority t; type := type t;
     assignedTo := v; project := project t; createdBy := createdBy t;
     dueDate := dueDate t; estimatedHours := estimatedHours t;
     actualHours := actualHours t; tags := tags t;
     statusHistory := statusHistory t; attachments := attachments t;
     resolvedAt := resolvedAt t; closedAt := closedAt t |}.

Definition set_dueDate (v : option Date) (t : doc) : doc :=
  {| _id := _id t; title := title t; description := description t;
     status := status t; priority := priority t; type := type t;
     assignedTo := assignedTo t; project := project t;
     createdBy := createdBy t; dueDate := v;
     estimatedHours := estimatedHours t; actualHours := actualHours t;
     tags := tags t; statusHistory := statusHistory t;
     attachments := attachments t; resolvedAt := resolvedAt t;
     closedAt := closedAt t |}.

Definition set_estimatedHours (v : option Z) (t : doc) : doc :=
  {| _id := _id t; title := title t; description := description t;
     status := status t; priority := priority t; type := type t;
     assignedTo := assignedTo t; project := project t;
     createdBy := createdBy t; dueDate := dueDate t; estimatedHours := v;
     actualHours := actualHours t; tags := tags t;
     statusHistory := statusHistory t; attachments := attachments t;
     resolvedAt := resolvedAt t; closedAt := closedAt t |}.

Definition set_actualHours (v : Z) (t : doc) : doc :=
  {| _id := _id t; title := title t; description := description t;
     status := status t; priority := priority t; type := type t;
     assignedTo := assignedTo t; project := project t;
     createdBy := createdBy t; dueDate := dueDate t;
     estimatedHours := estimatedHours t; actualHours := v; tags := tags t;
     statusHistory := statusHistory t; attachments := attachments t;
     resolvedAt := resolvedAt t; closedAt := closedAt t |}.

Definition set_tags (v : list string) (t : doc) : doc :=
  {| _id := _id t; title := title t; description := description t;
     status := status t; priority := priority t; type := type t;
     assignedTo := assignedTo t; project := project t;
     createdBy := createdBy t; dueDate := dueDate t;
     estimatedHours := estimatedHours t; actualHours := actualHours t;
     tags := v; statusHistory := statusHistory t;
     attachments := attachments t; resolvedAt := resolvedAt t;
     closedAt := closedAt t |}.

Definition set_statusHistory (v : list historyEntry) (t : doc) : doc :=
  {| _id := _id t; title := title t; description := description t;
     status := status t; priority := priority t; type := type t;
     assignedTo := assignedTo t; project := project t;
     createdBy := createdBy t; dueDate := dueDate t;
     estimatedHours := estimatedHours t; actualHours := actualHours t;
     tags := tags t; statusHistory := v; attachments := attachments t;
     resolvedAt := resolvedAt t; closedAt := closedAt t |}.

Definition set_resolvedAt (v : option Date) (t : doc) : doc :=
  {| _id := _id t; title := title t; description := description t;
     status := status t; priority := priority t; type := type t;
     assignedTo := assignedTo t; project := project t;
     createdBy := createdBy t; dueDate := dueDate t;
     estimatedHours := estimatedHours t; actualHours := actualHours t;
     tags := tags t; statusHistory := statusHistory t;
     attachments := attachments t; resolvedAt := v;
     closedAt := closedAt t |}.

Definition set_closedAt (v : option Date) (t : doc) : doc :=
  {| _id := _id t; title := title t; description := description t;
     status := status t; priority := priority t; type := type t;
     assignedTo := assignedTo t; project := project t;
     createdBy := createdBy t; dueDate := dueDate t;
     estimatedHours := estimatedHours t; actualHours := actualHours t;
     tags := tags t; statusHistory := statusHistory t;
     attachments := attachments t; resolvedAt := resolvedAt t;
     closedAt := v |}.

(** A document as a handler holds it: the schema fields together with what
    Mongoose tracks beside them, [isNew], whether the path [status] is
    marked modified, and the ad-hoc property [modifiedBy] the controllers
    set for the hook. *)
Record instance := {
  fields : doc;
  isNew : bool;
  statusModified : bool;
  modifiedBy : option ObjectId
}.

(** A document read from the collection: nothing is modified yet. *)
Definition loaded (t : doc) : instance :=
  {| fields := t; isNew := false; statusModified := false;
     modifiedBy := None |}.

(** [ticket[field] = value] for a path other than [status]. *)
Definition assign (f : doc -> doc) (this : instance) : instance :=
  {| fields := f (fields this); isNew := isNew this;
     statusModified := statusModified this;
     modifiedBy := modifiedBy this |}.

(** [ticket.status = value]: the path is marked modified when the document
    is new or the value differs from the one it holds. *)
Definition assign_status (v : TicketStatus) (this : instance) : instance :=
  {| fields := set_status v (fields this); isNew := isNew this;
     statusModified :=
       statusModified this || isNew this
       || negb (TicketStatus_eqb (status (fields this)) v);
     modifiedBy := modifiedBy this |}.

(** [ticket.modifiedBy = req.user._id] *)
Definition assign_modifiedBy (v : ObjectId) (this : instance) : instance :=
  {| fields := fields this; isNew := isNew this;
     statusModified := statusModified this; modifiedBy := Some v |}.

(** [ticketSchema.pre('save', function(next) { ... })] *)
Definition preSave (now : Date) (this : instance) : doc :=
  let t := fields this in
  (* Track status history *)
  let t :=
    if statusModified this && negb (isNew this) then
      set_statusHistory
        (statusHistory t ++
         [{| h_status := status t;
             changedBy := or_else (modifiedBy this) (createdBy t);
             changedAt := now;
             comment := None |}]) t
    else t in
  (* Set resolved/closed timestamps *)
  if statusModified this then
    let t :=
      if TicketStatus_eqb (status t) RESOLVED && negb (is_some (resolvedAt t))
      then set_resolvedAt (Some now) t else t in
    let t :=
      if TicketStatus_eqb (status t) CLOSED && negb (is_some (closedAt t))
      then set_closedAt (Some now) t else t in
    (* Clear timestamps if status is reverted *)
    let t :=
      if negb (TicketStatus_eqb (status t) RESOLVED)
         && negb (TicketStatus_eqb (status t) CLOSED)
      then set_resolvedAt None t else t in
    let t :=
      if negb (TicketStatus_eqb (status t) CLOSED)
      then set_closedAt None t else t in
    t
  else t.

(** The [min: 0, max: 1000] validators of [estimatedHours] and
    [actualHours]. *)
Definition hours_ok (h : Z) : bool := (0 <=? h) && (h <=? 1000).

Definition validate (t : doc) : bool :=
  match estimatedHours t with
  | Some h => hours_ok h
  | None => true
  end && hours_ok (actualHours t).

(** A ticket with its references resolved by [populate]; a reference whose
    user is gone populates to [null]. *)
Record populated := {
  p_ticket : doc;
  p_assignedTo : option User.doc;
  p_createdBy : option User.doc
}.
(** [ticketSchema.methods.isOverdue]: [this.dueDate && this.dueDate < new
    Date() && !['RESOLVED', 'CLOSED'].includes(this.status)], as a truth
    value. *)
Definition isOverdue (now : Date) (this : doc) : bool :=
  match dueDate this with
  | Some due =>
      (due <? now)
      && negb (existsb (TicketStatus_eqb (status this)) [RESOLVED; CLOSED])
  | None => false
  end.
End Ticket.

(** ** The database, and the requests made to the email service *)

Record Database := {
  users : list User.doc;
  projects : list Project.doc;
  tickets : list Ticket.doc
}.

Definition set_users (v : list User.doc) (d : Database) : Database :=
  {| users := v; projects := projects d; tickets := tickets d |}.

Definition set_projects (v : list Project.doc) (d : Database) : Database :=
  {| users := users d; projects := v; tickets := tickets d |}.

Definition set_tickets (v : list Ticket.doc) (d : Database) : Database :=
  {| users := users d; projects := projects d; tickets := v |}.

Section Collection.
Context {A : Type} (id_of : A -> ObjectId).

Definition findById (coll : list A) (id : ObjectId) : option A :=
  find (fun d => String.eqb (id_of d) id) coll.

(** [doc.save()] of a document that is in the collection.  The unique
    index on [_id] leaves at most one document with a given identifier, so
    this and [deleteById] concern one document. *)
Definition replaceById (x : A) (coll : list A) : list A :=
  map (fun d => if String.eqb (id_of d) (id_of x) then x else d) coll.

(** [Model.findByIdAndDelete(id)] *)
Definition deleteById (id : ObjectId) (coll : list A) : list A :=
  filter (fun d => negb (String.eqb (id_of d) id)) coll.
End Collection.

(** ** utils/emailService.js *)

Module EmailService.
(** The calls the controllers make; delivery itself is the transport's. *)
Inductive request :=
| sendTicketAssignmentEmail
    (ticket : Ticket.populated) (assignedUser assignedBy : User.doc)
| sendTicketStatusUpdateEmail
    (ticket : Ticket.populated) (updatedBy : User.doc)
| sendProjectInvitationEmail
    (project : Project.doc) (invitedUser invitedBy : User.doc).

(** The [recipients] array built by [sendTicketStatusUpdateEmail]:
    [ticket.createdBy.email !== ticket.assignedTo?.email] compares with
    [undefined] when there is no assignee. *)
Definition statusUpdateRecipients (ticket : Ticket.populated) : list string :=
  let recipients :=
    match Ticket.p_assignedTo ticket with
    | Some a => [User.email a]
    | None => []
    end in
  match Ticket.p_createdBy ticket with
  | Some c =>
      let differs :=
        match Ticket.p_assignedTo ticket with
        | Some a => negb (String.eqb (User.email c) (User.email a))
        | None => true
        end in
      if differs then recipients ++ [User.email c] else recipients
  | None => recipients
  end.

(** The addresses a request is delivered to, one [sendEmail] each. *)
Definition recipientsOf (r : request) : list string :=
  match r with
  | sendTicketAssignmentEmail _ assignedUser _ => [User.email assignedUser]
  | sendTicketStatusUpdateEmail ticket _ => statusUpdateRecipients ticket
  | sendProjectInvitationEmail _ invitedUser _ => [User.email invitedUser]
  end.
End EmailService.

(** ** Handlers: state, exceptions and the response *)

Record World := {
  db : Database;
  outbox : list EmailService.request
}.

(** [class ApiError extends Error] *)
Record ApiError := {
  message : string;
  statusCode : Z
}.

Inductive Outcome (A : Type) :=
| Ok (a : A)
| Throw (e : ApiError).
Arguments Ok {A} a.
Arguments Throw {A} e.

Definition Handler (A : Type) := World -> Outcome A * World.

Definition ret {A} (a : A) : Handler A := fun w => (Ok a, w).

Definition throw {A} (e : ApiError) : Handler A := fun w => (Throw e, w).

Definition bind {A B} (m : Handler A) (k : A -> Handler B) : Handler B :=
  fun w =>
    match m w with
    | (Ok a, w') => k a w'
    | (Throw e, w') => (Throw e, w')
    end.

Notation "x <- m ;; k" := (bind m (fun x => k))
  (at level 61, m at next level, right associativity).
Notation "m ;;; k" := (bind m (fun _ => k))
  (at level 61, right associativity).

Definition query {A} (f : Database -> A) : Handler A :=
  fun w => (Ok (f (db w)), w).

Definition write (f : Database -> Database) : Handler unit :=
  fun w => (Ok tt, {| db := f (db w); outbox := outbox w |}).

(** A call to the email service whose promise is not awaited:
    [emailService.send...(...).catch(() => {})]. *)
Definition emit (r : EmailService.request) : Handler unit :=
  fun w => (Ok tt, {| db := db w; outbox := outbox w ++ [r] |}).

(** [if (cond) { throw new ApiError(message, statusCode); }] *)
Definition throwIf (cond : bool) (msg : string) (code : Z) : Handler unit :=
  if cond then throw {| message := msg; statusCode := code |} else ret tt.

(** [const x = await ...; if (!x) { throw new ApiError(...) }] *)
Definition orThrow {A} (x : option A) (msg : string) (code : Z) : Handler A :=
  match x with
  | Some a => ret a
  | None => throw {| message := msg; statusCode := code |}
  end.

(** Reading a property of [null] raises a [TypeError], which the error
    handler answers with its default status 500. *)
Definition deref {A} (x : option A) : Handler A :=
  orThrow x "TypeError: Cannot read properties of null" 500.

(** What a handler is called with: [req.user], set by [authenticate], the
    reading of the clock, and the [_id] a document created now receives. *)
Record Request := {
  user : User.doc;
  now : Date;
  freshId : ObjectId
}.

Definition isAdmin (req : Request) : bool :=
  UserRole_eqb (User.role (user req)) ADMIN.

(** [Model.findOne({ _id: id, isActive: true })] on users and projects. *)
Definition findActiveUser (d : Database) (id : ObjectId) : option User.doc :=
  find (fun u => String.eqb (User._id u) id && User.isActive u) (users d).

Definition findActiveProject (d : Database) (id : ObjectId)
  : option Project.doc :=
  find (fun p => String.eqb (Project._id p) id && Project.isActive p)
       (projects d).

(** [req.user.role !== 'ADMIN' && !project.hasAccess(userId, level)]; the
    project is only looked into when the caller is not an admin. *)
Definition denies (req : Request) (project : option Project.doc)
    (userId : ObjectId) (level : MemberRole) : Handler bool :=
  if isAdmin req then ret false
  else
    p <- deref project ;;
    ret (negb (Project.hasAccess p userId level)).

(** [ticket.save()] on a document read from the collection: the schema
    validators, the pre-save hook, then the write. *)
Definition Ticket_save (now : Date) (this : Ticket.instance)
  : Handler Ticket.doc :=
  throwIf (negb (Ticket.validate (Ticket.fields this)))
          "ValidationError" 400 ;;;
  let t := Ticket.preSave now this in
  write (fun d => set_tickets (replaceById Ticket._id t (tickets d)) d) ;;;
  ret t.

(** [Ticket.create({ ... })]: a new document, whose [status] comes from
    the schema default and is therefore not marked modified; the unique
    index on [_id] refuses an identifier that is taken. *)
Definition Ticket_create (now : Date) (t : Ticket.doc) : Handler Ticket.doc :=
  let this :=
    {| Ticket.fields := t; Ticket.isNew := true;
       Ticket.statusModified := false; Ticket.modifiedBy := None |} in
  throwIf (negb (Ticket.validate t)) "ValidationError" 400 ;;;
  taken <- query (fun d => findById Ticket._id (tickets d) (Ticket._id t)) ;;
  throwIf (is_some taken)
    "_id already exists. Please use a different _id." 400 ;;;
  let t := Ticket.preSave now this in
  write (fun d => set_tickets (tickets d ++ [t]) d) ;;;
  ret t.

(** [ticket.populate([{ path: 'assignedTo' }, { path: 'createdBy' }, ...])] *)
Definition populateIn (d : Database) (t : Ticket.doc) : Ticket.populated :=
  {| Ticket.p_ticket := t;
     Ticket.p_assignedTo :=
       match Ticket.assignedTo t with
       | Some u => findById User._id (users d) u
       | None => None
       end;
     Ticket.p_createdBy := findById User._id (users d) (Ticket.createdBy t)
  |}.

Definition populate (t : Ticket.doc) : Handler Ticket.populated :=
  query (fun d => populateIn d t).

(** ** Queries the controllers share *)

(** [Model.countDocuments(filter)] *)
Definition countDocuments {A} (f : A -> bool) (coll : list A) : Z :=
  Z.of_nat (List.length (filter f coll)).

(** [Project.find({ $or: [{ createdBy: userId }, { 'members.user': userId }],
    isActive: true }).select('_id')] followed by [.map(p => p._id)]. *)
Definition accessibleProjects (d : Database) (userId : ObjectId)
  : list ObjectId :=
  map Project._id
    (filter (fun p =>
               (String.eqb (Project.createdBy p) userId
                || existsb (fun m => String.eqb (Project.user m) userId)
                           (Project.members p))
               && Project.isActive p)
            (projects d)).

(** A string of the query is used when it is truthy, that is not empty. *)
Definition truthy (s : option string) : option string :=
  match s with
  | Some x => if String.eqb x "" then None else Some x
  | None => None
  end.

Definition TicketPriority_eqb (a b : TicketPriority) : bool :=
  match a, b with
  | LOW, LOW | MEDIUM, MEDIUM | HIGH, HIGH => true
  | _, _ => false
  end.

Definition TicketType_eqb (a b : TicketType) : bool :=
  match a, b with
  | BUG, BUG | FEATURE, FEATURE | ENHANCEMENT, ENHANCEMENT
  | TASK, TASK => true
  | _, _ => false
  end.

(** The object [aggregate([{ $match }, { $group: { _id: '$key', count: {
    $sum: 1 } } }])] is reduced to: a key for each value that some ticket
    carries, with the number of those tickets. *)
Definition countBy {K} (eqb : K -> K -> bool) (key : Ticket.doc -> K)
    (coll : list Ticket.doc) (k : K) : option Z :=
  let count := countDocuments (fun t => eqb (key t) k) coll in
  if count =? 0 then None else Some count.

(** ** controllers/ticketController.js *)

Module TicketController.

(** [req.body] of [POST /api/tickets]. *)
Record createBody := {
  title : string;
  description : string;
  priority : TicketPriority;
  type : option TicketType;
  project : ObjectId;
  assignedTo : option ObjectId;
  dueDate : option Date;
  estimatedHours : option Z;
  tags : option (list string)
}.

(** [req.body] of [PUT /api/tickets/:id]: [None] is a field that is not
    supplied ([undefined]); [u_assignedTo = Some None] is [null]. *)
Record updates := {
  u_title : option string;
  u_description : option string;
  u_status : option TicketStatus;
  u_priority : option TicketPriority;
  u_type : option TicketType;
  u_assignedTo : option (option ObjectId);
  u_dueDate : option (option Date);
  u_estimatedHours : option (option Z);
  u_actualHours : option Z;
  u_tags : option (list string)
}.

(** The object [createTicket] passes to [Ticket.create]; [status] and
    [actualHours] take their schema defaults. *)
Definition newTicket (req : Request) (body : createBody) : Ticket.doc :=
  {| Ticket._id := freshId req;
     Ticket.title := title body;
     Ticket.description := description body;
     Ticket.status := OPEN;
     Ticket.priority := priority body;
     Ticket.type := or_else (type body) BUG;
     Ticket.assignedTo := assignedTo body;
     Ticket.project := project body;
     Ticket.createdBy := User._id (user req);
     Ticket.dueDate := dueDate body;
     Ticket.estimatedHours := estimatedHours body;
     Ticket.actualHours := 0;
     Ticket.tags := or_else (tags body) [];
     Ticket.statusHistory :=
       [{| Ticket.h_status := OPEN;
           Ticket.changedBy := User._id (user req);
           Ticket.changedAt := now req;
           Ticket.comment := Some "Ticket created" |}];
     Ticket.attachments := [];
     Ticket.resolvedAt := None;
     Ticket.closedAt := None |}.

Definition createTicket (req : Request) (body : createBody)
  : Handler Ticket.populated :=
  (* Verify project exists and user has access *)
  found <- query (fun d => findActiveProject d (project body)) ;;
  projectDoc <- orThrow found "Project not found" 404 ;;
  denied <- denies req (Some projectDoc) (User._id (user req)) CONTRIBUTOR ;;
  throwIf denied "Access denied to this project" 403 ;;;
  (* Verify assigned user exists and has access to project (if provided) *)
  assignedUser <-
    match assignedTo body with
    | Some a =>
        found <- query (fun d => findActiveUser d a) ;;
        u <- orThrow found "Assigned user not found or inactive" 404 ;;
        denied <- denies req (Some projectDoc) a VIEWER ;;
        throwIf denied
          "Assigned user does not have access to this project" 403 ;;;
        ret (Some u)
    | None => ret None
    end ;;
  ticket <- Ticket_create (now req) (newTicket req body) ;;
  ticket <- populate ticket ;;
  (* Send assignment email if ticket is assigned *)
  match assignedUser, assignedTo body with
  | Some u, Some a =>
      if negb (String.eqb a (User._id (user req)))
      then emit (EmailService.sendTicketAssignmentEmail ticket u (user req))
      else ret tt
  | _, _ => ret tt
  end ;;;
  ret ticket.

(** [if (updates[field] !== undefined) { ticket[field] = updates[field]; }] *)
Definition setIfDefined {V} (v : option V)
    (set : V -> Ticket.instance -> Ticket.instance) (this : Ticket.instance)
  : Ticket.instance :=
  match v with
  | Some x => set x this
  | None => this
  end.

(** [allowedUpdates.forEach(field => ...)], in the order of the array. *)
Definition applyUpdates (u : updates) (this : Ticket.instance)
  : Ticket.instance :=
  let this := setIfDefined (u_title u)
                (fun v => Ticket.assign (Ticket.set_title v)) this in
  let this := setIfDefined (u_description u)
                (fun v => Ticket.assign (Ticket.set_description v)) this in
  let this := setIfDefined (u_status u) Ticket.assign_status this in
  let this := setIfDefined (u_priority u)
                (fun v => Ticket.assign (Ticket.set_priority v)) this in
  let this := setIfDefined (u_type u)
                (fun v => Ticket.assign (Ticket.set_type v)) this in
  let this := setIfDefined (u_assignedTo u)
                (fun v => Ticket.assign (Ticket.set_assignedTo v)) this in
  let this := setIfDefined (u_dueDate u)
                (fun v => Ticket.assign (Ticket.set_dueDate v)) this in
  let this := setIfDefined (u_estimatedHours u)
                (fun v => Ticket.assign (Ticket.set_estimatedHours v)) this in
  let this := setIfDefined (u_actualHours u)
                (fun v => Ticket.assign (Ticket.set_actualHours v)) this in
  let this := setIfDefined (u_tags u)
                (fun v => Ticket.assign (Ticket.set_tags v)) this in
  this.

(** [Ticket.findById(id).populate('project ...')] followed by
    [Project.findById(ticket.project._id)]: the ticket, or 404, and the
    project its handler checks access on. *)
Definition loadTicket (id : ObjectId) (notFound : string)
  : Handler (Ticket.doc * option Project.doc) :=
  found <- query (fun d => findById Ticket._id (tickets d) id) ;;
  ticket <- orThrow found notFound 404 ;;
  populatedProject <-
    query (fun d => findById Project._id (projects d) (Ticket.project ticket)) ;;
  p <- deref populatedProject ;;
  project <- query (fun d => findById Project._id (projects d) (Project._id p)) ;;
  ret (ticket, project).

Definition updateTicket (req : Request) (id : ObjectId) (updates : updates)
  : Handler Ticket.populated :=
  loadedTicket <- loadTicket id "Ticket not found" ;;
  let (ticket, project) := loadedTicket in
  (* Check access permissions *)
  denied <- denies req project (User._id (user req)) CONTRIBUTOR ;;
  throwIf denied "Access denied to update this ticket" 403 ;;;
  (* Store previous values for comparison *)
  let previousStatus := Ticket.status ticket in
  before <- populate ticket ;;
  let previousAssignedTo := Ticket.p_assignedTo before in
  (* Handle assignment changes *)
  match u_assignedTo updates with
  | Some (Some a) =>
      found <- query (fun d => findActiveUser d a) ;;
      orThrow found "Assigned user not found or inactive" 404 ;;;
      denied <- denies req project a VIEWER ;;
      throwIf denied "Assigned user does not have access to this project" 403
  | _ => ret tt
  end ;;;
  (* Update allowed fields *)
  let this := applyUpdates updates (Ticket.loaded ticket) in
  (* Set who modified the ticket for status history *)
  let this := Ticket.assign_modifiedBy (User._id (user req)) this in
  saved <- Ticket_save (now req) this ;;
  (* Repopulate after save *)
  ticket <- populate saved ;;
  (* Send notifications for significant changes *)
  let shouldNotifyStatusChange :=
    negb (TicketStatus_eqb previousStatus (Ticket.status saved)) in
  (* both sides are populated users here; they are compared through
     their identifiers *)
  let shouldNotifyAssignment :=
    is_some (u_assignedTo updates)
    && ref_neqb (option_map User._id previousAssignedTo)
                (option_map User._id (Ticket.p_assignedTo ticket)) in
  (if shouldNotifyStatusChange
   then emit (EmailService.sendTicketStatusUpdateEmail ticket (user req))
   else ret tt) ;;;
  match Ticket.p_assignedTo ticket with
  | Some a =>
      if shouldNotifyAssignment
         && negb (String.eqb (User._id a) (User._id (user req)))
      then emit (EmailService.sendTicketAssignmentEmail ticket a (user req))
      else ret tt
  | None => ret tt
  end ;;;
  ret ticket.

Definition deleteTicket (req : Request) (id : ObjectId) : Handler unit :=
  loadedTicket <- loadTicket id "Ticket not found" ;;
  let (ticket, project) := loadedTicket in
  (* Check permissions (admin, project creator, or ticket creator) *)
  p <- deref project ;;
  let isProjectCreator :=
    String.eqb (Project.createdBy p) (User._id (user req)) in
  let isTicketCreator :=
    String.eqb (Ticket.createdBy ticket) (User._id (user req)) in
  throwIf (negb (isAdmin req) && negb isProjectCreator && negb isTicketCreator)
    "Access denied. Only admin, project creator, or ticket creator can delete tickets"
    403 ;;;
  write (fun d => set_tickets (deleteById Ticket._id id (tickets d)) d).

Definition assignTicket (req : Request) (id userId : ObjectId)
  : Handler Ticket.populated :=
  loadedTicket <- loadTicket id "Ticket not found" ;;
  let (ticket, project) := loadedTicket in
  (* Check access permissions *)
  denied <- denies req project (User._id (user req)) CONTRIBUTOR ;;
  throwIf denied "Access denied to assign this ticket" 403 ;;;
  (* Verify user exists and has project access *)
  found <- query (fun d => findActiveUser d userId) ;;
  assignedUser <- orThrow found "User not found or inactive" 404 ;;
  denied <- denies req project userId VIEWER ;;
  throwIf denied "User does not have access to this project" 403 ;;;
  let previousAssignee := Ticket.assignedTo ticket in
  let this :=
    Ticket.assign (Ticket.set_assignedTo (Some userId)) (Ticket.loaded ticket) in
  let this := Ticket.assign_modifiedBy (User._id (user req)) this in
  saved <- Ticket_save (now req) this ;;
  ticket <- populate saved ;;
  (* Send assignment email if not self-assigning *)
  (if negb (String.eqb userId (User._id (user req)))
   then emit (EmailService.sendTicketAssignmentEmail
                ticket assignedUser (user req))
   else ret tt) ;;;
  ret ticket.

Definition unassignTicket (req : Request) (id : ObjectId)
  : Handler Ticket.populated :=
  loadedTicket <- loadTicket id "Ticket not found" ;;
  let (ticket, project) := loadedTicket in
  (* Check access permissions *)
  denied <- denies req project (User._id (user req)) CONTRIBUTOR ;;
  throwIf denied "Access denied to unassign this ticket" 403 ;;;
  let this := Ticket.assign (Ticket.set_assignedTo None) (Ticket.loaded ticket) in
  let this := Ticket.assign_modifiedBy (User._id (user req)) this in
  saved <- Ticket_save (now req) this ;;
  populate saved.
(** *** Reading tickets *)

(** [req.query] of [GET /api/tickets]; [page] and [limit] are what
    [parseInt] returns ([validateTicketQuery] admits [page >= 1] and
    [1 <= limit <= 100]; they default to 1 and 10). *)
Record listQuery := {
  q_page : nat;
  q_limit : nat;
  q_status : option TicketStatus;
  q_priority : option TicketPriority;
  q_type : option TicketType;
  q_assignedTo : option ObjectId;
  q_project : option ObjectId;
  q_search : option string
}.

(** The [project] key of the filter: absent, [{ $in: ids }] or an id. *)
Inductive projectFilter :=
| AnyProject
| ProjectIn (ids : list ObjectId)
| ProjectIs (id : ObjectId).

(** The filter [getAllTickets] builds in [query]. *)
Record ticketFilter := {
  f_project : projectFilter;
  f_status : option TicketStatus;
  f_priority : option TicketPriority;
  f_type : option TicketType;
  f_assignedTo : option ObjectId;
  f_search : option string
}.

Definition buildFilter (req : Request) (d : Database) (q : listQuery)
  : ticketFilter :=
  (* Filter by project access for non-admin users *)
  let project :=
    if isAdmin req then AnyProject
    else ProjectIn (accessibleProjects d (User._id (user req))) in
  (* Apply filters *)
  let project :=
    match truthy (q_project q) with
    | Some p =>
        match project with
        | AnyProject => ProjectIs p
        | _ => ProjectIn [p]
        end
    | None => project
    end in
  {| f_project := project;
     f_status := q_status q;
     f_priority := q_priority q;
     f_type := q_type q;
     f_assignedTo := truthy (q_assignedTo q);
     f_search := truthy (q_search q) |}.

Definition whenSet {V} (v : option V) (test : V -> bool) : bool :=
  match v with
  | Some x => test x
  | None => true
  end.

(** Whether a stored ticket satisfies the filter.  [regexTest s text] is
    the store's [{ $regex: s, $options: 'i' }] on [text]. *)
Definition matchesFilter (regexTest : string -> string -> bool)
    (f : ticketFilter) (t : Ticket.doc) : bool :=
  match f_project f with
  | AnyProject => true
  | ProjectIn ids => existsb (String.eqb (Ticket.project t)) ids
  | ProjectIs id => String.eqb (Ticket.project t) id
  end
  && whenSet (f_status f) (TicketStatus_eqb (Ticket.status t))
  && whenSet (f_priority f) (TicketPriority_eqb (Ticket.priority t))
  && whenSet (f_type f) (TicketType_eqb (Ticket.type t))
  && whenSet (f_assignedTo f)
       (fun a => match Ticket.assignedTo t with
                 | Some x => String.eqb x a
                 | None => false
                 end)
  && whenSet (f_search f)
       (fun s => regexTest s (Ticket.title t)
                 || regexTest s (Ticket.description t)).

(** [Math.ceil(total / limit)] on natural numbers, [limit >= 1]. *)
Definition ceilDiv (total limit : nat) : nat :=
  Nat.div (total + limit - 1) limit.

(** The [data] of the response of [getAllTickets]. *)
Record ticketPage := {
  page_tickets : list Ticket.populated;
  page_total : nat;
  page_page : nat;
  page_pages : nat;
  page_limit : nat
}.

(** [getAllTickets]; [sortDocs] is the store's [.sort(sort)] for the
    [sortBy] and [sortOrder] of the request.  [validateTicketQuery] lets
    through a [page] of 1 or more and a [limit] from 1 to 100, and the
    page is described for those. *)
Definition getAllTickets (regexTest : string -> string -> bool)
    (sortDocs : list Ticket.doc -> list Ticket.doc)
    (req : Request) (q : listQuery) : Handler ticketPage :=
  let skip := ((q_page q - 1) * q_limit q)%nat in
  filter_ <- query (fun d => buildFilter req d q) ;;
  (* Get total count for pagination *)
  matching <-
    query (fun d => filter (matchesFilter regexTest filter_) (tickets d)) ;;
  let total := List.length matching in
  (* Get tickets *)
  let found := firstn (q_limit q) (skipn skip (sortDocs matching)) in
  populated <- query (fun d => map (populateIn d) found) ;;
  ret {| page_tickets := populated;
         page_total := total;
         page_page := q_page q;
         page_pages := ceilDiv total (q_limit q);
         page_limit := q_limit q |}.

Definition getTicketById (req : Request) (id : ObjectId)
  : Handler Ticket.populated :=
  loadedTicket <- loadTicket id "Ticket not found" ;;
  let (ticket, project) := loadedTicket in
  (* Check access permissions *)
  denied <- denies req project (User._id (user req)) VIEWER ;;
  throwIf denied "Access denied to this ticket" 403 ;;;
  populate ticket.

Record ticketStats := {
  s_total : Z;
  s_assigned : Z;
  s_created : Z;
  s_overdue : Z;
  s_byStatus : TicketStatus -> option Z;
  s_byPriority : TicketPriority -> option Z
}.

(** [projectFilter] of [getTicketStats], as a test on tickets. *)
Definition inProjectFilter (req : Request) (d : Database) (t : Ticket.doc)
  : bool :=
  if isAdmin req then true
  else existsb (String.eqb (Ticket.project t))
               (accessibleProjects d (User._id (user req))).

Definition getTicketStats (req : Request) : Handler ticketStats :=
  query (fun d =>
    let me := User._id (user req) in
    let scope := inProjectFilter req d in
    {| s_total := countDocuments scope (tickets d);
       s_assigned :=
         countDocuments
           (fun t => scope t
                     && match Ticket.assignedTo t with
                        | Some a => String.eqb a me
                        | None => false
                        end)
           (tickets d);
       s_created :=
         countDocuments
           (fun t => scope t && String.eqb (Ticket.createdBy t) me)
           (tickets d);
       s_overdue :=
         countDocuments
           (fun t => scope t
                     && match Ticket.dueDate t with
                        | Some due => due <? now req
                        | None => false
                        end
                     && negb (existsb (TicketStatus_eqb (Ticket.status t))
                                      [RESOLVED; CLOSED]))
           (tickets d);
       s_byStatus :=
         countBy TicketStatus_eqb Ticket.status (filter scope (tickets d));
       s_byPriority :=
         countBy TicketPriority_eqb Ticket.priority
                 (filter scope (tickets d)) |}).
(** *** The caller's own tickets *)

(** [req.query] of [GET /api/tickets/my/assigned] and [.../my/created]. *)
Record myQuery := {
  m_page : nat;
  m_limit : nat;
  m_status : option TicketStatus;
  m_priority : option TicketPriority
}.

(** A page of tickets with its [pagination]. *)
Record listing (T : Type) := {
  l_items : list T;
  l_total : nat;
  l_page : nat;
  l_pages : nat;
  l_limit : nat
}.
Arguments l_items {T}.
Arguments l_total {T}.
Arguments l_page {T}.
Arguments l_pages {T}.
Arguments l_limit {T}.

(** A ticket with [createdBy] populated, and one with [assignedTo]
    populated; the other reference stays an identifier. *)
Record withCreator := {
  c_ticket : Ticket.doc;
  c_createdBy : option User.doc
}.

Record withAssignee := {
  a_ticket : Ticket.doc;
  a_assignedTo : option User.doc
}.

(** [getMyAssignedTickets]; [newestFirst] is the store's
    [.sort({ createdAt: -1 })]. *)
Definition getMyAssignedTickets
    (newestFirst : list Ticket.doc -> list Ticket.doc)
    (req : Request) (q : myQuery) : Handler (listing withCreator) :=
  let skip := ((m_page q - 1) * m_limit q)%nat in
  matching <-
    query (fun d =>
      filter (fun t =>
                match Ticket.assignedTo t with
                | Some a => String.eqb a (User._id (user req))
                | None => false
                end
                && whenSet (m_status q) (TicketStatus_eqb (Ticket.status t))
                && whenSet (m_priority q)
                     (TicketPriority_eqb (Ticket.priority t)))
             (tickets d)) ;;
  let total := List.length matching in
  let found := firstn (m_limit q) (skipn skip (newestFirst matching)) in
  populated <-
    query (fun d =>
      map (fun t => {| c_ticket := t;
                       c_createdBy :=
                         findById User._id (users d) (Ticket.createdBy t) |})
          found) ;;
  ret {| l_items := populated;
         l_total := total;
         l_page := m_page q;
         l_pages := ceilDiv total (m_limit q);
         l_limit := m_limit q |}.

(** [getMyCreatedTickets] *)
Definition getMyCreatedTickets
    (newestFirst : list Ticket.doc -> list Ticket.doc)
    (req : Request) (q : myQuery) : Handler (listing withAssignee) :=
  let skip := ((m_page q - 1) * m_limit q)%nat in
  matching <-
    query (fun d =>
      filter (fun t =>
                String.eqb (Ticket.createdBy t) (User._id (user req))
                && whenSet (m_status q) (TicketStatus_eqb (Ticket.status t))
                && whenSet (m_priority q)
                     (TicketPriority_eqb (Ticket.priority t)))
             (tickets d)) ;;
  let total := List.length matching in
  let found := firstn (m_limit q) (skipn skip (newestFirst matching)) in
  populated <-
    query (fun d =>
      map (fun t => {| a_ticket := t;
                       a_assignedTo :=
                         match Ticket.assignedTo t with
                         | Some u => findById User._id (users d) u
                         | None => None
                         end |})
          found) ;;
  ret {| l_items := populated;
         l_total := total;
         l_page := m_page q;
         l_pages := ceilDiv total (m_limit q);
         l_limit := m_limit q |}.
End TicketController.

(** ** controllers/projectController.js *)

Module ProjectController.

(** The response carries the archived project, or nothing after a hard
    delete. *)
Definition deleteProject (req : Request) (id : ObjectId)
  : Handler (option Project.doc) :=
  found <- query (fun d => findActiveProject d id) ;;
  project <- orThrow found "Project not found" 404 ;;
  (* Check if project has associated tickets *)
  hasTickets <-
    query (fun d => find (fun t => String.eqb (Ticket.project t) id)
                         (tickets d)) ;;
  if is_some hasTickets then
    (* Soft delete to maintain data integrity *)
    let project := Project.set_isActive false project in
    let project := Project.set_status ARCHIVED project in
    write (fun d =>
      set_projects (replaceById Project._id project (projects d)) d) ;;;
    ret (Some project)
  else
    (* Hard delete if no tickets *)
    write (fun d => set_projects (deleteById Project._id id (projects d)) d) ;;;
    ret None.

Definition addProjectMember (req : Request) (id userId : ObjectId)
    (role : option MemberRole) : Handler Project.doc :=
  let role := or_else role CONTRIBUTOR in
  found <- query (fun d => findActiveProject d id) ;;
  project <- orThrow found "Project not found" 404 ;;
  (* Check permissions *)
  throwIf (negb (isAdmin req)
           && negb (String.eqb (Project.createdBy project)
                               (User._id (user req))))
    "Access denied. Only admin or project creator can add members" 403 ;;;
  (* Check if user exists *)
  found <- query (fun d => findActiveUser d userId) ;;
  invited <- orThrow found "User not found or inactive" 404 ;;
  (* Check if user is already a member *)
  let existingMember :=
    find (fun member => String.eqb (Project.user member) userId)
         (Project.members project) in
  throwIf (is_some existingMember)
    "User is already a member of this project" 400 ;;;
  (* Add member *)
  let project :=
    Project.set_members
      (Project.members project ++
       [{| Project.user := userId; Project.role := role;
           Project.joinedAt := now req |}]) project in
  write (fun d =>
    set_projects (replaceById Project._id project (projects d)) d) ;;;
  (* Send invitation email *)
  emit (EmailService.sendProjectInvitationEmail project invited (user req)) ;;;
  ret project.
(** *** Members and statistics *)

(** [Array.prototype.findIndex]; [None] is the index -1. *)
Fixpoint findIndex {A} (f : A -> bool) (l : list A) : option nat :=
  match l with
  | [] => None
  | a :: l' => if f a then Some 0%nat else option_map S (findIndex f l')
  end.

(** [array.splice(index, 1)] *)
Definition splice1 {A} (index : nat) (l : list A) : list A :=
  firstn index l ++ skipn (S index) l.

Definition removeProjectMember (req : Request) (id userId : ObjectId)
  : Handler unit :=
  found <- query (fun d => findActiveProject d id) ;;
  project <- orThrow found "Project not found" 404 ;;
  (* Check permissions *)
  throwIf (negb (isAdmin req)
           && negb (String.eqb (Project.createdBy project)
                               (User._id (user req))))
    "Access denied. Only admin or project creator can remove members" 403 ;;;
  (* Find and remove member *)
  let memberIndex :=
    findIndex (fun member => String.eqb (Project.user member) userId)
              (Project.members project) in
  memberIndex <- orThrow memberIndex
                   "User is not a member of this project" 404 ;;
  let project :=
    Project.set_members (splice1 memberIndex (Project.members project))
                        project in
  write (fun d =>
    set_projects (replaceById Project._id project (projects d)) d).

(** [member.role = role] on the element [Array.find] returned: the first
    entry that satisfies the test is the one written. *)
Fixpoint writeFirst {A} (f : A -> bool) (g : A -> A) (l : list A) : list A :=
  match l with
  | [] => []
  | a :: l' => if f a then g a :: l' else a :: writeFirst f g l'
  end.

Definition set_member_role (v : MemberRole) (m : Project.member)
  : Project.member :=
  {| Project.user := Project.user m; Project.role := v;
     Project.joinedAt := Project.joinedAt m |}.

(** [role] ranges over the enum, so the handler's first test,
    [!['VIEWER', 'CONTRIBUTOR', 'MANAGER'].includes(role)], never fires. *)
Definition updateMemberRole (req : Request) (id userId : ObjectId)
    (role : MemberRole) : Handler Project.doc :=
  found <- query (fun d => findActiveProject d id) ;;
  project <- orThrow found "Project not found" 404 ;;
  (* Check permissions *)
  throwIf (negb (isAdmin req)
           && negb (String.eqb (Project.createdBy project)
                               (User._id (user req))))
    "Access denied. Only admin or project creator can update member roles"
    403 ;;;
  (* Find and update member *)
  let isMember := fun member => String.eqb (Project.user member) userId in
  orThrow (find isMember (Project.members project))
    "User is not a member of this project" 404 ;;;
  let project :=
    Project.set_members
      (writeFirst isMember (set_member_role role) (Project.members project))
      project in
  write (fun d =>
    set_projects (replaceById Project._id project (projects d)) d) ;;;
  ret project.

(** [stats] of [getProjectStats]. *)
Record projectStats := {
  ps_id : ObjectId;
  ps_name : string;
  ps_status : ProjectStatus;
  ps_memberCount : Z;
  ps_total : Z;
  ps_open : Z;
  ps_inProgress : Z;
  ps_resolved : Z;
  ps_closed : Z;
  ps_highPriority : Z;
  ps_byPriority : TicketPriority -> option Z;
  ps_recent : list Ticket.populated
}.

(** [getProjectStats]; [newestFirst] is the store's
    [.sort({ createdAt: -1 })]. *)
Definition getProjectStats
    (newestFirst : list Ticket.doc -> list Ticket.doc)
    (req : Request) (id : ObjectId) : Handler projectStats :=
  found <- query (fun d => findActiveProject d id) ;;
  project <- orThrow found "Project not found" 404 ;;
  (* Check access permissions *)
  denied <- denies req (Some project) (User._id (user req)) VIEWER ;;
  throwIf denied "Access denied to this project" 403 ;;;
  (* Get ticket statistics *)
  query (fun d =>
    let ofProject := fun t => String.eqb (Ticket.project t) id in
    let inStatus :=
      fun s t => ofProject t && TicketStatus_eqb (Ticket.status t) s in
    {| ps_id := Project._id project;
       ps_name := Project.name project;
       ps_status := Project.status project;
       ps_memberCount := Z.of_nat (List.length (Project.members project));
       ps_total := countDocuments ofProject (tickets d);
       ps_open := countDocuments (inStatus OPEN) (tickets d);
       ps_inProgress := countDocuments (inStatus IN_PROGRESS) (tickets d);
       ps_resolved := countDocuments (inStatus RESOLVED) (tickets d);
       ps_closed := countDocuments (inStatus CLOSED) (tickets d);
       ps_highPriority :=
         countDocuments
           (fun t => ofProject t
                     && match Ticket.priority t with
                        | HIGH => true
                        | _ => false
                        end)
           (tickets d);
       ps_byPriority :=
         countBy TicketPriority_eqb Ticket.priority
           (filter (fun t => String.eqb (Ticket.project t)
                                        (Project._id project))
                   (tickets d));
       ps_recent :=
         map (populateIn d)
             (firstn 5 (newestFirst (filter ofProject (tickets d)))) |}).
(** *** Creating and updating projects *)

(** The validators of the schema on [name] and [description]: required,
    and at most 100 and 500 characters.  The strings of a request are as
    the route's validators leave them, trimmed, so that the [trim] of the
    schema keeps them as they are. *)
Definition Project_validate (p : Project.doc) : bool :=
  negb (String.eqb (Project.name p) "")
  && (String.length (Project.name p) <=? 100)%nat
  && negb (String.eqb (Project.description p) "")
  && (String.length (Project.description p) <=? 500)%nat.

(** The unique index on [name]: another document carries the name. *)
Definition nameTaken (d : Database) (p : Project.doc) : bool :=
  existsb (fun q => String.eqb (Project.name q) (Project.name p)
                    && negb (String.eqb (Project._id q) (Project._id p)))
          (projects d).

(** [req.body] of [POST /api/projects]. *)
Record projectBody := {
  pb_name : string;
  pb_description : string;
  pb_status : option ProjectStatus;
  pb_priority : option ProjectPriority;
  pb_endDate : option Date
}.

(** The object [createProject] passes to [Project.create]; [isActive],
    [startDate] and [members] take their schema defaults. *)
Definition newProject (req : Request) (body : projectBody) : Project.doc :=
  {| Project._id := freshId req;
     Project.name := pb_name body;
     Project.description := pb_description body;
     Project.createdBy := User._id (user req);
     Project.isActive := true;
     Project.status := or_else (pb_status body) ACTIVE;
     Project.priority := or_else (pb_priority body) PP_MEDIUM;
     Project.startDate := now req;
     Project.endDate := pb_endDate body;
     Project.members := [] |}.

(** [Project.create({ ... })]: the validators, then the unique indexes on
    [_id] and [name]. *)
Definition Project_create (p : Project.doc) : Handler Project.doc :=
  throwIf (negb (Project_validate p)) "ValidationError" 400 ;;;
  taken <- query (fun d => findById Project._id (projects d) (Project._id p)) ;;
  throwIf (is_some taken)
    "_id already exists. Please use a different _id." 400 ;;;
  taken <- query (fun d => nameTaken d p) ;;
  throwIf taken "name already exists. Please use a different name." 400 ;;;
  write (fun d => set_projects (projects d ++ [p]) d) ;;;
  ret p.

(** [project.save()] of the stored project [old], changed into [p]: the
    validators, and the unique index on [name] when the name is written. *)
Definition Project_save (old p : Project.doc) : Handler Project.doc :=
  throwIf (negb (Project_validate p)) "ValidationError" 400 ;;;
  taken <- query (fun d => nameTaken d p) ;;
  throwIf (negb (String.eqb (Project.name p) (Project.name old)) && taken)
    "name already exists. Please use a different name." 400 ;;;
  write (fun d => set_projects (replaceById Project._id p (projects d)) d) ;;;
  ret p.

Definition createProject (req : Request) (body : projectBody)
  : Handler Project.doc :=
  (* Check if project name already exists *)
  existingProject <-
    query (fun d => find (fun q => String.eqb (Project.name q) (pb_name body))
                         (projects d)) ;;
  throwIf (is_some existingProject)
    "Project with this name already exists" 400 ;;;
  Project_create (newProject req body).

(** [req.body] of [PUT /api/projects/:id]: [None] is a field that is not
    supplied; [pu_endDate = Some None] is [null]. *)
Record projectUpdates := {
  pu_name : option string;
  pu_description : option string;
  pu_status : option ProjectStatus;
  pu_priority : option ProjectPriority;
  pu_endDate : option (option Date)
}.

(** [allowedUpdates.forEach(field => ...)] *)
Definition applyProjectUpdates (u : projectUpdates) (p : Project.doc)
  : Project.doc :=
  {| Project._id := Project._id p;
     Project.name := or_else (pu_name u) (Project.name p);
     Project.description := or_else (pu_description u) (Project.description p);
     Project.createdBy := Project.createdBy p;
     Project.isActive := Project.isActive p;
     Project.status := or_else (pu_status u) (Project.status p);
     Project.priority := or_else (pu_priority u) (Project.priority p);
     Project.startDate := Project.startDate p;
     Project.endDate := or_else (pu_endDate u) (Project.endDate p);
     Project.members := Project.members p |}.

Definition updateProject (req : Request) (id : ObjectId)
    (updates : projectUpdates) : Handler Project.doc :=
  found <- query (fun d => findActiveProject d id) ;;
  project <- orThrow found "Project not found" 404 ;;
  (* Check permissions (admin or creator) *)
  throwIf (negb (isAdmin req)
           && negb (String.eqb (Project.createdBy project)
                               (User._id (user req))))
    "Access denied. Only admin or project creator can update project" 403 ;;;
  (* Prevent name conflicts *)
  match truthy (pu_name updates) with
  | Some name =>
      if negb (String.eqb name (Project.name project)) then
        existingProject <-
          query (fun d =>
            find (fun q => String.eqb (Project.name q) name
                           && negb (String.eqb (Project._id q) id))
                 (projects d)) ;;
        throwIf (is_some existingProject)
          "Project with this name already exists" 400
      else ret tt
  | None => ret tt
  end ;;;
  (* Update allowed fields *)
  Project_save project (applyProjectUpdates updates project).
(** *** Listing projects *)

Definition ProjectStatus_eqb (a b : ProjectStatus) : bool :=
  match a, b with
  | PLANNING, PLANNING | ACTIVE, ACTIVE | ON_HOLD, ON_HOLD
  | COMPLETED, COMPLETED | ARCHIVED, ARCHIVED => true
  | _, _ => false
  end.

Definition ProjectPriority_eqb (a b : ProjectPriority) : bool :=
  match a, b with
  | PP_LOW, PP_LOW | PP_MEDIUM, PP_MEDIUM | PP_HIGH, PP_HIGH
  | PP_CRITICAL, PP_CRITICAL => true
  | _, _ => false
  end.

(** [req.query] of [GET /api/projects]. *)
Record projectQuery := {
  pq_page : nat;
  pq_limit : nat;
  pq_search : option string;
  pq_status : option ProjectStatus;
  pq_priority : option ProjectPriority
}.

(** A listed project with its virtual [ticketCount] populated. *)
Record listedProject := {
  lp_project : Project.doc;
  lp_ticketCount : Z
}.

(** The query [getAllProjects] builds, as a test on projects. *)
Definition matchesProjectQuery (regexTest : string -> string -> bool)
    (req : Request) (q : projectQuery) (p : Project.doc) : bool :=
  Project.isActive p
  (* For non-admin users, only show projects they have access to *)
  && (isAdmin req
      || String.eqb (Project.createdBy p) (User._id (user req))
      || existsb (fun m => String.eqb (Project.user m) (User._id (user req)))
                 (Project.members p))
  && match truthy (pq_search q) with
     | Some s => regexTest s (Project.name p)
                 || regexTest s (Project.description p)
     | None => true
     end
  && TicketController.whenSet (pq_status q)
       (ProjectStatus_eqb (Project.status p))
  && TicketController.whenSet (pq_priority q)
       (ProjectPriority_eqb (Project.priority p)).

(** [getAllProjects]; [sortDocs] is the store's [.sort(sort)] for the
    [sortBy] and [sortOrder] of the request. *)
Definition getAllProjects (regexTest : string -> string -> bool)
    (sortDocs : list Project.doc -> list Project.doc)
    (req : Request) (q : projectQuery)
  : Handler (TicketController.listing listedProject) :=
  let skip := ((pq_page q - 1) * pq_limit q)%nat in
  (* Get total count for pagination *)
  matching <-
    query (fun d => filter (matchesProjectQuery regexTest req q)
                           (projects d)) ;;
  let total := List.length matching in
  (* Get projects *)
  let found := firstn (pq_limit q) (skipn skip (sortDocs matching)) in
  populated <-
    query (fun d =>
      map (fun p =>
             {| lp_project := p;
                lp_ticketCount :=
                  countDocuments
                    (fun t => String.eqb (Ticket.project t) (Project._id p))
                    (tickets d) |})
          found) ;;
  ret {| TicketController.l_items := populated;
         TicketController.l_total := total;
         TicketController.l_page := pq_page q;
         TicketController.l_pages := TicketController.ceilDiv total (pq_limit q);
         TicketController.l_limit := pq_limit q |}.
End ProjectController.

(** ** controllers/userController.js *)

Module UserController.

(** [role] ranges over the enum, so the handler's first test,
    [!['USER', 'ADMIN'].includes(role)], never fires. *)
Definition updateUserRole (req : Request) (userId : ObjectId)
    (role : UserRole) : Handler User.doc :=
  found <- query (fun d => findById User._id (users d) userId) ;;
  target <- orThrow found "User not found" 404 ;;
  (* Prevent self-role modification *)
  throwIf (String.eqb (User._id target) (User._id (user req)))
    "Cannot modify your own role" 400 ;;;
  let target := User.set_role role target in
  write (fun d => set_users (replaceById User._id target (users d)) d) ;;;
  ret target.

Definition updateUserStatus (req : Request) (userId : ObjectId)
    (isActive : bool) : Handler User.doc :=
  found <- query (fun d => findById User._id (users d) userId) ;;
  target <- orThrow found "User not found" 404 ;;
  (* Prevent self-status modification *)
  throwIf (String.eqb (User._id target) (User._id (user req)))
    "Cannot modify your own status" 400 ;;;
  let target := User.set_isActive isActive target in
  write (fun d => set_users (replaceById User._id target (users d)) d) ;;;
  ret target.

(** The response carries the deactivated user, or nothing after a hard
    delete. *)
Definition deleteUser (req : Request) (userId : ObjectId)
  : Handler (option User.doc) :=
  found <- query (fun d => findById User._id (users d) userId) ;;
  target <- orThrow found "User not found" 404 ;;
  (* Prevent self-deletion *)
  throwIf (String.eqb (User._id target) (User._id (user req)))
    "Cannot delete your own account" 400 ;;;
  (* Check if user has associated data *)
  hasProjects <-
    query (fun d => find (fun p => String.eqb (Project.createdBy p) userId)
                         (projects d)) ;;
  hasTickets <-
    query (fun d =>
      find (fun t =>
              String.eqb (Ticket.createdBy t) userId
              || match Ticket.assignedTo t with
                 | Some a => String.eqb a userId
                 | None => false
                 end)
           (tickets d)) ;;
  if is_some hasProjects || is_some hasTickets then
    (* Instead of deleting, deactivate the user to maintain data integrity *)
    let target := User.set_isActive false target in
    write (fun d => set_users (replaceById User._id target (users d)) d) ;;;
    ret (Some target)
  else
    write (fun d => set_users (deleteById User._id userId (users d)) d) ;;;
    ret None.
(** *** Users for ticket assignment *)

(** What [.select('name email role')] keeps of a user. *)
Record assignable := {
  a_id : ObjectId;
  a_name : string;
  a_email : string;
  a_role : UserRole
}.

Definition selectAssignable (u : User.doc) : assignable :=
  {| a_id := User._id u; a_name := User.name u;
     a_email := User.email u; a_role := User.role u |}.

(** [getAssignableUsers]; [regexTest s text] is the store's
    [{ $regex: s, $options: 'i' }] and [sortByName] its
    [.sort({ name: 1 })]. *)
Definition getAssignableUsers (regexTest : string -> string -> bool)
    (sortByName : list User.doc -> list User.doc)
    (req : Request) (search projectId : option string)
  : Handler (list assignable) :=
  (* If projectId is provided, filter users who have access to that project *)
  accessibleUserIds <-
    match truthy projectId with
    | Some pid =>
        found <- query (fun d => findById Project._id (projects d) pid) ;;
        project <- orThrow found "Project not found" 404 ;;
        (* Check if current user has access to this project *)
        denied <- denies req (Some project) (User._id (user req)) VIEWER ;;
        throwIf denied "Access denied to this project" 403 ;;;
        (* Get project creator and members *)
        let memberUserIds := map Project.user (Project.members project) in
        ret (Some (Project.createdBy project :: memberUserIds))
    | None => ret None
    end ;;
  query (fun d =>
    map selectAssignable
      (firstn 50
         (sortByName
            (filter
               (fun u =>
                  User.isActive u
                  && match truthy search with
                     | Some s => regexTest s (User.name u)
                                 || regexTest s (User.email u)
                     | None => true
                     end
                  && match accessibleUserIds with
                     | Some ids => existsb (String.eqb (User._id u)) ids
                     | None => true
                     end)
               (users d))))).
End UserController.

(** ** routes/*.js: the handlers behind their [authorize] middleware *)

(** [authorize(...roles)] answers 403 unless [req.user.role] is one of
    [roles]. *)
Definition authorize (roles : list UserRole) (req : Request) : Handler unit :=
  throwIf (negb (existsb (UserRole_eqb (User.role (user req))) roles))
    "Access denied. Insufficient permissions." 403.

Inductive ApiCall :=
| POST_tickets (body : TicketController.createBody)
| PUT_ticket (id : ObjectId) (updates : TicketController.updates)
| DELETE_ticket (id : ObjectId)
| PUT_ticket_assign (id userId : ObjectId)
| PUT_ticket_unassign (id : ObjectId)
| DELETE_project (id : ObjectId)
| POST_project_members (id userId : ObjectId) (role : option MemberRole)
| PUT_user_role (userId : ObjectId) (role : UserRole)
| PUT_user_status (userId : ObjectId) (isActive : bool)
| DELETE_user (userId : ObjectId).

Definition done {A} (h : Handler A) : Handler unit := h ;;; ret tt.

Definition route (req : Request) (call : ApiCall) : Handler unit :=
  match call with
  | POST_tickets body => done (TicketController.createTicket req body)
  | PUT_ticket id updates =>
      done (TicketController.updateTicket req id updates)
  | DELETE_ticket id => TicketController.deleteTicket req id
  | PUT_ticket_assign id userId =>
      done (TicketController.assignTicket req id userId)
  | PUT_ticket_unassign id => done (TicketController.unassignTicket req id)
  | DELETE_project id =>
      authorize [ADMIN] req ;;; done (ProjectController.deleteProject req id)
  | POST_project_members id userId role =>
      done (ProjectController.addProjectMember req id userId role)
  | PUT_user_role userId role =>
      authorize [ADMIN] req ;;;
      done (UserController.updateUserRole req userId role)
  | PUT_user_status userId isActive =>
      authorize [ADMIN] req ;;;
      done (UserController.updateUserStatus req userId isActive)
  | DELETE_user userId =>
      authorize [ADMIN] req ;;; done (UserController.deleteUser req userId)
  end.

(** The server answering one request after another. *)
Definition serve (w : World) (rc : Request * ApiCall) : World :=
  snd (route (fst rc) (snd rc) w).

Definition run (w : World) (calls : list (Request * ApiCall)) : World :=
  fold_left serve calls w.

(** ** middlewares/auth.js *)

Module Auth.

(** What [jwt.verify(token, process.env.JWT_SECRET)] does: it returns the
    payload or throws. *)
Inductive verified :=
| Decoded (id : ObjectId) (iat : Z)
| JsonWebTokenError
| TokenExpiredError
| OtherError.

(** What the middleware does with the request: it calls [next()] with
    [req.user] set, or it answers. *)
Inductive answer :=
| Next (user : User.doc)
| Status (code : Z) (message : string).

(** [authenticate]; [verify] is [jwt.verify] with the server's secret and
    [changedPasswordAfter] the method of the user model. *)
Definition authenticate (verify : string -> verified)
    (changedPasswordAfter : User.doc -> Z -> bool)
    (authHeader : option string) (d : Database) : answer :=
  match authHeader with
  | None =>
      Status 401 "Access denied. No token provided or invalid token format."
  | Some header =>
      if negb (String.prefix "Bearer " header) then
        Status 401 "Access denied. No token provided or invalid token format."
      else
        (* Remove 'Bearer ' prefix *)
        let token := String.substring 7 (String.length header - 7) header in
        (* Verify token *)
        match verify token with
        | Decoded id iat =>
            (* Check if user still exists *)
            match findById User._id (users d) id with
            | None =>
                Status 401 "The user belonging to this token no longer exists."
            | Some user =>
                (* Check if user is active *)
                if negb (User.isActive user) then
                  Status 401 "User account is deactivated."
                (* Check if user changed password after the token was issued *)
                else if changedPasswordAfter user iat then
                  Status 401
                    "User recently changed password. Please log in again."
                else
                  (* Grant access to protected route *)
                  Next user
            end
        | JsonWebTokenError => Status 401 "Invalid token."
        | TokenExpiredError => Status 401 "Token expired. Please log in again."
        | OtherError =>
            Status 500 "Internal server error during authentication."
        end
  end.
End Auth.
(** ** A small installation used to exercise the handlers *)

Module Scenario.
Definition alice : User.doc :=
  {| User._id := "u1"; User.name := "Alice";
     User.email := "alice@example.com"; User.role := ADMIN;
     User.isActive := true |}.

Definition bob : User.doc :=
  {| User._id := "u2"; User.name := "Bob";
     User.email := "bob@example.com"; User.role := USER;
     User.isActive := true |}.

Definition carol : User.doc :=
  {| User._id := "u3"; User.name := "Carol";
     User.email := "carol@example.com"; User.role := USER;
     User.isActive := true |}.

Definition website : Project.doc :=
  {| Project._id := "p1"; Project.name := "Website Redesign";
     Project.description := "New public site";
     Project.createdBy := "u1"; Project.isActive := true;
     Project.status := ACTIVE; Project.priority := PP_MEDIUM;
     Project.startDate := 1000; Project.endDate := None;
     Project.members :=
       [ {| Project.user := "u2"; Project.role := CONTRIBUTOR;
            Project.joinedAt := 1001 |};
         {| Project.user := "u3"; Project.role := MANAGER;
            Project.joinedAt := 1002 |} ] |}.

(** A project archived by an earlier delete, still referenced by a ticket. *)
Definition legacy : Project.doc :=
  {| Project._id := "p2"; Project.name := "Legacy";
     Project.description := "Old site";
     Project.createdBy := "u1"; Project.isActive := false;
     Project.status := ARCHIVED; Project.priority := PP_LOW;
     Project.startDate := 500; Project.endDate := None;
     Project.members := [] |}.

(** A project nobody has filed a ticket in. *)
Definition sandbox : Project.doc :=
  {| Project._id := "p3"; Project.name := "Sandbox";
     Project.description := "Scratch space";
     Project.createdBy := "u1"; Project.isActive := true;
     Project.status := PLANNING; Project.priority := PP_LOW;
     Project.startDate := 900; Project.endDate := None;
     Project.members := [] |}.

Definition ticket (id project : ObjectId) (assignee : option ObjectId)
  : Ticket.doc :=
  {| Ticket._id := id; Ticket.title := "Broken link";
     Ticket.description := "The footer link is dead";
     Ticket.status := OPEN; Ticket.priority := MEDIUM; Ticket.type := BUG;
     Ticket.assignedTo := assignee; Ticket.project := project;
     Ticket.createdBy := "u2"; Ticket.dueDate := None;
     Ticket.estimatedHours := None; Ticket.actualHours := 0;
     Ticket.tags := [];
     Ticket.statusHistory :=
       [{| Ticket.h_status := OPEN; Ticket.changedBy := "u2";
           Ticket.changedAt := 2000;
           Ticket.comment := Some "Ticket created" |}];
     Ticket.attachments := [];
     Ticket.resolvedAt := None; Ticket.closedAt := None |}.

Definition world : World :=
  {| db := {| users := [alice; bob; carol];
              projects := [website; legacy; sandbox];
              tickets := [ticket "t1" "p1" (Some "u3");
                          ticket "t2" "p2" None] |};
     outbox := [] |}.

Definition by_ (u : User.doc) (t : Date) : Request :=
  {| user := u; now := t; freshId := "t9" |}.

(** The body [{ status: s }]. *)
Definition setStatus (s : TicketStatus) : TicketController.updates :=
  {| TicketController.u_title := None;
     TicketController.u_description := None;
     TicketController.u_status := Some s;
     TicketController.u_priority := None;
     TicketController.u_type := None;
     TicketController.u_assignedTo := None;
     TicketController.u_dueDate := None;
     TicketController.u_estimatedHours := None;
     TicketController.u_actualHours := None;
     TicketController.u_tags := None |}.
End Scenario.

(** ** Vocabulary of the properties *)

(** The document [updateTicket] writes back for the stored ticket [t]. *)
Definition updatedTicket (req : Request) (u : TicketController.updates)
    (t : Ticket.doc) : Ticket.doc :=
  Ticket.preSave (now req)
    (Ticket.assign_modifiedBy (User._id (user req))
       (TicketController.applyUpdates u (Ticket.loaded t))).

(** The document [assignTicket] ([a = Some userId]) and [unassignTicket]
    ([a = None]) write back for the stored ticket [t]. *)
Definition reassignedTicket (req : Request) (a : option ObjectId)
    (t : Ticket.doc) : Ticket.doc :=
  Ticket.preSave (now req)
    (Ticket.assign_modifiedBy (User._id (user req))
       (Ticket.assign (Ticket.set_assignedTo a) (Ticket.loaded t))).

Definition saveTicketIn (t : Ticket.doc) (d : Database) : Database :=
  set_tickets (replaceById Ticket._id t (tickets d)) d.

Definition isStatusUpdate (r : EmailService.request) : bool :=
  match r with
  | EmailService.sendTicketStatusUpdateEmail _ _ => true
  | _ => false
  end.

Definition isAssignment (r : EmailService.request) : bool :=
  match r with
  | EmailService.sendTicketAssignmentEmail _ _ _ => true
  | _ => false
  end.

(** The requests [updateTicket] makes after a save, from the ticket as it
    was populated before ([before]) and after ([after]) it. *)
Definition updateNotices (req : Request) (u : TicketController.updates)
    (before after : Ticket.populated) : list EmailService.request :=
  (if negb (TicketStatus_eqb (Ticket.status (Ticket.p_ticket before))
                             (Ticket.status (Ticket.p_ticket after)))
   then [EmailService.sendTicketStatusUpdateEmail after (user req)]
   else [])
  ++
  match Ticket.p_assignedTo after with
  | Some a =>
      if is_some (TicketController.u_assignedTo u)
         && ref_neqb (option_map User._id (Ticket.p_assignedTo before))
                     (option_map User._id (Ticket.p_assignedTo after))
         && negb (String.eqb (User._id a) (User._id (user req)))
      then [EmailService.sendTicketAssignmentEmail after a (user req)]
      else []
  | None => []
  end.

(** The timestamps as the data model words them: each is set exactly in
    its own status. *)
Definition timestamps_exact (t : Ticket.doc) : Prop :=
  (Ticket.resolvedAt t <> None <-> Ticket.status t = RESOLVED)
  /\ (Ticket.closedAt t <> None <-> Ticket.status t = CLOSED).

(** The timestamps as the pre-save hook keeps them: a closed ticket may
    carry the time it was resolved. *)
Definition timestamps_kept (t : Ticket.doc) : Prop :=
  (Ticket.status t = RESOLVED -> Ticket.resolvedAt t <> None)
  /\ (Ticket.status t = OPEN \/ Ticket.status t = IN_PROGRESS ->
      Ticket.resolvedAt t = None)
  /\ (Ticket.closedAt t <> None <-> Ticket.status t = CLOSED).

(** The request [createTicket] makes once the ticket is stored. *)
Definition createNotices (req : Request) (body : TicketController.createBody)
    (d : Database) (created : Ticket.populated) : list EmailService.request :=
  match TicketController.assignedTo body with
  | Some a =>
      match findActiveUser d a with
      | Some assignedUser =>
          if negb (String.eqb a (User._id (user req)))
          then [EmailService.sendTicketAssignmentEmail
                  created assignedUser (user req)]
          else []
      | None => []
      end
  | None => []
  end.

(** The request [assignTicket] makes once the ticket is stored. *)
Definition assignNotices (req : Request) (userId : ObjectId)
    (d : Database) (assigned : Ticket.populated) : list EmailService.request :=
  match findActiveUser d userId with
  | Some assignedUser =>
      if negb (String.eqb userId (User._id (user req)))
      then [EmailService.sendTicketAssignmentEmail
              assigned assignedUser (user req)]
      else []
  | None => []
  end.

(** The ticket [t] with the supplied fields of [u] written over it and
    every other field as it was. *)
Definition patched (u : TicketController.updates) (t : Ticket.doc)
  : Ticket.doc :=
  {| Ticket._id := Ticket._id t;
     Ticket.title := or_else (TicketController.u_title u) (Ticket.title t);
     Ticket.description :=
       or_else (TicketController.u_description u) (Ticket.description t);
     Ticket.status := or_else (TicketController.u_status u) (Ticket.status t);
     Ticket.priority :=
       or_else (TicketController.u_priority u) (Ticket.priority t);
     Ticket.type := or_else (TicketController.u_type u) (Ticket.type t);
     Ticket.assignedTo :=
       or_else (TicketController.u_assignedTo u) (Ticket.assignedTo t);
     Ticket.project := Ticket.project t;
     Ticket.createdBy := Ticket.createdBy t;
     Ticket.dueDate := or_else (TicketController.u_dueDate u) (Ticket.dueDate t);
     Ticket.estimatedHours :=
       or_else (TicketController.u_estimatedHours u) (Ticket.estimatedHours t);
     Ticket.actualHours :=
       or_else (TicketController.u_actualHours u) (Ticket.actualHours t);
     Ticket.tags := or_else (TicketController.u_tags u) (Ticket.tags t);
     Ticket.statusHistory := Ticket.statusHistory t;
     Ticket.attachments := Ticket.attachments t;
     Ticket.resolvedAt := Ticket.resolvedAt t;
     Ticket.closedAt := Ticket.closedAt t |}.

(** The entry the pre-save hook appends for a change of status made by
    [req.user]. *)
Definition historyEntryFor (req : Request) (s : TicketStatus)
  : Ticket.historyEntry :=
  {| Ticket.h_status := s;
     Ticket.changedBy := User._id (user req);
     Ticket.changedAt := now req;
     Ticket.comment := None |}.

(** Two tickets that agree on every field the pre-save hook does not
    derive. *)
Definition same_but_derived (t t' : Ticket.doc) : Prop :=
  Ticket._id t' = Ticket._id t
  /\ Ticket.title t' = Ticket.title t
  /\ Ticket.description t' = Ticket.description t
  /\ Ticket.status t' = Ticket.status t
  /\ Ticket.priority t' = Ticket.priority t
  /\ Ticket.type t' = Ticket.type t
  /\ Ticket.assignedTo t' = Ticket.assignedTo t
  /\ Ticket.project t' = Ticket.project t
  /\ Ticket.createdBy t' = Ticket.createdBy t
  /\ Ticket.dueDate t' = Ticket.dueDate t
  /\ Ticket.estimatedHours t' = Ticket.estimatedHours t
  /\ Ticket.actualHours t' = Ticket.actualHours t
  /\ Ticket.tags t' = Ticket.tags t
  /\ Ticket.attachments t' = Ticket.attachments t.

(** [project.isActive = false; project.status = 'ARCHIVED'] *)
Definition archived (p : Project.doc) : Project.doc :=
  Project.set_status ARCHIVED (Project.set_isActive false p).

(** Some ticket refers to the project. *)
Definition projectReferenced (d : Database) (id : ObjectId) : Prop :=
  exists t, In t (tickets d) /\ Ticket.project t = id.

(** The user created a project, or created or is assigned a ticket. *)
Definition userReferenced (d : Database) (userId : ObjectId) : Prop :=
  (exists p, In p (projects d) /\ Project.createdBy p = userId)
  \/ (exists t, In t (tickets d)
                /\ (Ticket.createdBy t = userId
                    \/ Ticket.assignedTo t = Some userId)).

(** The test [deleteUser] makes: [hasProjects || hasTickets]. *)
Definition hasAssociatedData (d : Database) (userId : ObjectId) : bool :=
  is_some (find (fun p => String.eqb (Project.createdBy p) userId)
                (projects d))
  || is_some (find (fun t =>
                      String.eqb (Ticket.createdBy t) userId
                      || match Ticket.assignedTo t with
                         | Some a => String.eqb a userId
                         | None => false
                         end)
                   (tickets d)).

(** How one request may change the collection of tickets. *)
Inductive ticketsStep (l : list Ticket.doc) : list Ticket.doc -> Prop :=
| step_same : ticketsStep l l
| step_update req u id t :
    findById Ticket._id l id = Some t ->
    ticketsStep l (replaceById Ticket._id (updatedTicket req u t) l)
| step_reassign req a id t :
    findById Ticket._id l id = Some t ->
    ticketsStep l (replaceById Ticket._id (reassignedTicket req a t) l)
| step_create req body :
    findById Ticket._id l (freshId req) = None ->
    ticketsStep l (l ++ [TicketController.newTicket req body])
| step_delete id :
    ticketsStep l (deleteById Ticket._id id l).

(** Two tickets that agree on every field but [assignedTo]. *)
Definition same_but_assignee (t t' : Ticket.doc) : Prop :=
  Ticket._id t' = Ticket._id t
  /\ Ticket.title t' = Ticket.title t
  /\ Ticket.description t' = Ticket.description t
  /\ Ticket.status t' = Ticket.status t
  /\ Ticket.priority t' = Ticket.priority t
  /\ Ticket.type t' = Ticket.type t
  /\ Ticket.project t' = Ticket.project t
  /\ Ticket.createdBy t' = Ticket.createdBy t
  /\ Ticket.dueDate t' = Ticket.dueDate t
  /\ Ticket.estimatedHours t' = Ticket.estimatedHours t
  /\ Ticket.actualHours t' = Ticket.actualHours t
  /\ Ticket.tags t' = Ticket.tags t
  /\ Ticket.statusHistory t' = Ticket.statusHistory t
  /\ Ticket.attachments t' = Ticket.attachments t
  /\ Ticket.resolvedAt t' = Ticket.resolvedAt t
  /\ Ticket.closedAt t' = Ticket.closedAt t.

(** ** Vocabulary of the further properties *)

(** No user is listed twice among the members of the project. *)
Definition uniqueMembers (p : Project.doc) : Prop :=
  NoDup (map Project.user (Project.members p)).

(** The documents of a collection carry distinct identifiers (the unique
    index on [_id]). *)
Definition uniqueIds {A} (id_of : A -> ObjectId) (coll : list A) : Prop :=
  NoDup (map id_of coll).

(** The access [hasAccess] grants to a member holding [role]. *)
Definition roleGrants (role level : MemberRole) : bool :=
  Project.roleHierarchy role >=? Project.roleHierarchy level.

(** [throw new ApiError('Project not found', 404)] *)
Definition projectNotFound {A} : Outcome A :=
  Throw {| message := "Project not found"; statusCode := 404 |}.

(** The query [?page=..&limit=..], with [&project=..] when one is given,
    and the same query for another page. *)
Definition pageQuery (project : option ObjectId) (page limit : nat)
  : TicketController.listQuery :=
  {| TicketController.q_page := page;
     TicketController.q_limit := limit;
     TicketController.q_status := None;
     TicketController.q_priority := None;
     TicketController.q_type := None;
     TicketController.q_assignedTo := None;
     TicketController.q_project := project;
     TicketController.q_search := None |}.

Definition withPage (page : nat) (q : TicketController.listQuery)
  : TicketController.listQuery :=
  {| TicketController.q_page := page;
     TicketController.q_limit := TicketController.q_limit q;
     TicketController.q_status := TicketController.q_status q;
     TicketController.q_priority := TicketController.q_priority q;
     TicketController.q_type := TicketController.q_type q;
     TicketController.q_assignedTo := TicketController.q_assignedTo q;
     TicketController.q_project := TicketController.q_project q;
     TicketController.q_search := TicketController.q_search q |}.

(** The tickets the filter of [getAllTickets] selects. *)
Definition matchingTickets (regexTest : string -> string -> bool)
    (req : Request) (q : TicketController.listQuery) (d : Database)
  : list Ticket.doc :=
  filter (TicketController.matchesFilter regexTest
            (TicketController.buildFilter req d q))
         (tickets d).

(** A project the user sees: active, and created by the user or with the
    user among its members. *)
Definition accessibleTo (userId : ObjectId) (p : Project.doc) : Prop :=
  Project.isActive p = true /\ Project.hasAccess p userId VIEWER = true.

(** A project without its list of members. *)
Definition withoutMembers (p : Project.doc) : Project.doc :=
  Project.set_members [] p.

(** The calls whose routes sit behind [authorize('ADMIN')]. *)
Definition adminOnly (call : ApiCall) : bool :=
  match call with
  | DELETE_project _ | PUT_user_role _ _ | PUT_user_status _ _
  | DELETE_user _ => true
  | _ => false
  end.

Definition validTicket (t : Ticket.doc) : Prop := Ticket.validate t = true.

(** The references of a ticket lead somewhere: its project is stored, and
    so is its assignee when it has one. *)
Definition refsOf (d : Database) (t : Ticket.doc) : Prop :=
  findById Project._id (projects d) (Ticket.project t) <> None
  /\ forall a, Ticket.assignedTo t = Some a ->
               findById User._id (users d) a <> None.

Definition refsResolve (d : Database) : Prop :=
  Forall (refsOf d) (tickets d).

(** The statuses with which a handler refuses a request. *)
Definition refusal (code : Z) : Prop :=
  code = 400 \/ code = 403 \/ code = 404.

(** The query of the caller's own tickets without filters. *)
Definition myPageQuery (page limit : nat) : TicketController.myQuery :=
  {| TicketController.m_page := page;
     TicketController.m_limit := limit;
     TicketController.m_status := None;
     TicketController.m_priority := None |}.

Definition assignedToUser (userId : ObjectId) (t : Ticket.doc) : bool :=
  match Ticket.assignedTo t with
  | Some a => String.eqb a userId
  | None => false
  end.

Definition createdByUser (userId : ObjectId) (t : Ticket.doc) : bool :=
  String.eqb (Ticket.createdBy t) userId.

(** No two projects carry the same name (the unique index on [name]). *)
Definition uniqueNames (d : Database) : Prop :=
  NoDup (map Project.name (projects d)).

(** The unique indexes of the collection of projects. *)
Definition keyedProjects (d : Database) : Prop :=
  uniqueIds Project._id (projects d) /\ uniqueNames d.

(** The body [{ status: s }] of [PUT /api/projects/:id]. *)
Definition setProjectStatus (s : ProjectStatus)
  : ProjectController.projectUpdates :=
  {| ProjectController.pu_name := None;
     ProjectController.pu_description := None;
     ProjectController.pu_status := Some s;
     ProjectController.pu_priority := None;
     ProjectController.pu_endDate := None |}.

(** A body of [POST /api/projects] with the defaults. *)
Definition projectNamed (name description : string)
  : ProjectController.projectBody :=
  {| ProjectController.pb_name := name;
     ProjectController.pb_description := description;
     ProjectController.pb_status := None;
     ProjectController.pb_priority := None;
     ProjectController.pb_endDate := None |}.

(** The query [?page=..&limit=..] of [GET /api/projects]. *)
Definition projectPageQuery (page limit : nat)
  : ProjectController.projectQuery :=
  {| ProjectController.pq_page := page;
     ProjectController.pq_limit := limit;
     ProjectController.pq_search := None;
     ProjectController.pq_status := None;
     ProjectController.pq_priority := None |}.
(** * Properties *)

(** ** Generic facts about the handler combinators *)

Lemma String_eqb_sym (a b : string) : String.eqb a b = String.eqb b a.
Proof.
  destruct (String.eqb_spec a b) as [->|H].
  - symmetry. apply String.eqb_refl.
  - symmetry. apply String.eqb_neq. congruence.
Qed.

Lemma find_none_iff {A} (f : A -> bool) (l : list A) :
  find f l = None <-> (forall x, In x l -> f x = false).
Proof.
  split.
  - apply find_none.
  - induction l as [|a l IH]; simpl; intros H; [reflexivity|].
    rewrite (H a (or_introl eq_refl)). apply IH.
    intros x Hx. apply H. now right.
Qed.

(** [find] returns the first element that satisfies the test. *)
Lemma find_first {A} (f : A -> bool) (l : list A) (x : A) :
  find f l = Some x <->
  exists l1 l2, l = l1 ++ x :: l2 /\ f x = true
                /\ forall y, In y l1 -> f y = false.
Proof.
  split.
  - induction l as [|a l IH]; simpl; [discriminate|].
    destruct (f a) eqn:Ha.
    + intros [= ->]. exists [], l. simpl. repeat split; auto.
      intros y [].
    + intros H. destruct (IH H) as (l1 & l2 & -> & Hx & Hl1).
      exists (a :: l1), l2. simpl. repeat split; auto.
      intros y [<-|Hy]; auto.
  - intros (l1 & l2 & -> & Hx & Hl1).
    induction l1 as [|a l1 IH]; simpl.
    + now rewrite Hx.
    + rewrite (Hl1 a (or_introl eq_refl)). apply IH.
      intros y Hy. apply Hl1. now right.
Qed.

(** ** The access control evaluator *)

(** The access check made inside a handler reads the project it is given
    and nothing else: database and outbox are as before. *)
Lemma denies_state req project userId level w :
  snd (denies req project userId level w) = w.
Proof.
  unfold denies, deref, orThrow, bind, ret, throw.
  destruct (isAdmin req); [reflexivity|].
  destruct project; reflexivity.
Qed.

(** C1. [hasAccess(P, A, L)] is [true] when [A] is the creator of [P];
    otherwise [false] when no entry of [P.members] has [user == A];
    otherwise, for the first such entry [m] (the one [Array.find]
    returns), [true] exactly when the rank of [m.role] is at least the rank
    of [L], with VIEWER = 1 < CONTRIBUTOR = 2 < MANAGER = 3.  The function
    is a total function of its three arguments, and the check a handler
    makes with it leaves database and outbox unchanged. *)
Theorem hasAccess_cases (P : Project.doc) (A : ObjectId) (L : MemberRole) :
  (A = Project.createdBy P -> Project.hasAccess P A L = true)
  /\ (A <> Project.createdBy P ->
      (forall m, In m (Project.members P) -> Project.user m <> A) ->
      Project.hasAccess P A L = false)
  /\ (A <> Project.createdBy P ->
      forall before m after,
        Project.members P = before ++ m :: after ->
        Project.user m = A ->
        (forall m', In m' before -> Project.user m' <> A) ->
        (Project.hasAccess P A L = true <->
         Project.roleHierarchy (Project.role m) >= Project.roleHierarchy L))
  /\ (Project.roleHierarchy VIEWER = 1
      /\ Project.roleHierarchy CONTRIBUTOR = 2
      /\ Project.roleHierarchy MANAGER = 3)
  /\ (forall req w, snd (denies req (Some P) A L w) = w).
Proof.
  unfold Project.hasAccess.
  split; [|split; [|split; [|split]]].
  - intros ->. now rewrite String.eqb_refl.
  - intros Hc Hm.
    destruct (String.eqb_spec (Project.createdBy P) A) as [E|_];
      [congruence|].
    replace (find _ _) with (@None Project.member); [reflexivity|].
    symmetry. apply find_none_iff. intros m Hin.
    apply String.eqb_neq. now apply Hm.
  - intros Hc before m after Hmem Hu Hbefore.
    destruct (String.eqb_spec (Project.createdBy P) A) as [E|_];
      [congruence|].
    assert (Hf : find (fun m0 => String.eqb (Project.user m0) A)
                      (Project.members P) = Some m).
    { apply find_first. exists before, after. repeat split; auto.
      - subst A. apply String.eqb_refl.
      - intros y Hy. apply String.eqb_neq. now apply Hbefore. }
    rewrite Hf. rewrite Z.geb_le. lia.
  - repeat split.
  - intros req w. apply denies_state.
Qed.

Lemma hasAccess_cases_witness :
  Project.hasAccess Scenario.website "u1" MANAGER = true
  /\ Project.hasAccess Scenario.website "u7" VIEWER = false
  /\ (Project.hasAccess Scenario.website "u2" MANAGER = true <-> 2 >= 3).
Proof.
  split; [|split].
  - apply (hasAccess_cases Scenario.website "u1" MANAGER). reflexivity.
  - apply (hasAccess_cases Scenario.website "u7" VIEWER).
    + discriminate.
    + simpl. intros m [<-|[<-|[]]]; discriminate.
  - apply (proj1 (proj2 (proj2
             (hasAccess_cases Scenario.website "u2" MANAGER)))
             ltac:(discriminate) []
             {| Project.user := "u2"; Project.role := CONTRIBUTOR;
                Project.joinedAt := 1001 |}
             [{| Project.user := "u3"; Project.role := MANAGER;
                 Project.joinedAt := 1002 |}]);
      [reflexivity | reflexivity | intros m' []].
Defined.

(** C10. [hasAccess] is antitone in the required level: access at MANAGER
    implies access at CONTRIBUTOR, which implies access at VIEWER. *)
Theorem hasAccess_antitone (P : Project.doc) (U : ObjectId) :
  (Project.hasAccess P U MANAGER = true ->
   Project.hasAccess P U CONTRIBUTOR = true)
  /\ (Project.hasAccess P U CONTRIBUTOR = true ->
      Project.hasAccess P U VIEWER = true).
Proof.
  unfold Project.hasAccess.
  destruct (String.eqb (Project.createdBy P) U); [now split|].
  destruct (find _ _) as [m|]; [|now split].
  destruct (Project.role m); simpl; split; intros H;
    try reflexivity; try discriminate H.
Qed.

Lemma hasAccess_antitone_witness :
  Project.hasAccess Scenario.website "u3" CONTRIBUTOR = true
  /\ Project.hasAccess Scenario.website "u3" VIEWER = true.
Proof.
  pose proof (hasAccess_antitone Scenario.website "u3") as [H1 H2].
  assert (H : Project.hasAccess Scenario.website "u3" CONTRIBUTOR = true)
    by (apply H1; reflexivity).
  split; [exact H | apply H2; exact H].
Defined.

(** ** What each handler does to the database and the outbox *)

Ltac handler_unfold :=
  unfold done, populate, deref, throwIf, orThrow, query, write, emit,
    bind, ret, throw in *.

(** Case analysis on the test a handler branches on next. *)
Ltac handler_step :=
  match goal with
  | |- context [match ?x with _ => _ end] =>
      lazymatch x with
      | context [match _ with _ => _ end] => fail
      | _ => destruct x eqn:?
      end
  end; cbn beta iota in *.

Ltac rewrite_tests :=
  repeat match goal with
         | H : ?x = _ |- context [?x] => rewrite H
         end.

Ltac handler_cases :=
  handler_unfold; cbn beta iota; repeat handler_step; try reflexivity.

Lemma updateTicket_effect req id u w :
  match TicketController.updateTicket req id u w with
  | (Throw _, w') => w' = w
  | (Ok pt, w') =>
      exists t,
        findById Ticket._id (tickets (db w)) id = Some t
        /\ Ticket.validate
             (Ticket.fields (TicketController.applyUpdates u (Ticket.loaded t)))
           = true
        /\ pt = populateIn (saveTicketIn (updatedTicket req u t) (db w))
                           (updatedTicket req u t)
        /\ db w' = saveTicketIn (updatedTicket req u t) (db w)
        /\ outbox w' =
           outbox w ++ updateNotices req u (populateIn (db w) t) pt
  end.
Proof.
  unfold TicketController.updateTicket, TicketController.loadTicket,
    Ticket_save, denies.
  handler_cases.
  all: eexists; split; [reflexivity|].
  all: unfold updateNotices, updatedTicket, saveTicketIn.
  all: cbn [db outbox Ticket.p_ticket Ticket.p_assignedTo populateIn
            Ticket.fields Ticket.assign_modifiedBy] in *.
  all: rewrite_tests.
  all: cbn [app is_some].
  all: repeat split; try reflexivity.
  all: try (apply negb_false_iff; assumption).
  all: rewrite <- ?app_assoc, ?app_nil_r; reflexivity.
Qed.

Lemma assignTicket_effect req id userId w :
  match TicketController.assignTicket req id userId w with
  | (Throw _, w') => w' = w
  | (Ok pt, w') =>
      exists t,
        findById Ticket._id (tickets (db w)) id = Some t
        /\ Ticket.validate (Ticket.set_assignedTo (Some userId) t) = true
        /\ pt = populateIn
                  (saveTicketIn (reassignedTicket req (Some userId) t) (db w))
                  (reassignedTicket req (Some userId) t)
        /\ db w' = saveTicketIn (reassignedTicket req (Some userId) t) (db w)
        /\ outbox w' = outbox w ++ assignNotices req userId (db w) pt
  end.
Proof.
  unfold TicketController.assignTicket, TicketController.loadTicket,
    Ticket_save, denies.
  handler_cases.
  all: eexists; split; [reflexivity|].
  all: unfold assignNotices, reassignedTicket, saveTicketIn.
  all: cbn [db outbox Ticket.fields Ticket.assign_modifiedBy Ticket.assign
            Ticket.loaded] in *.
  all: rewrite_tests.
  all: repeat split; try reflexivity.
  all: try (apply negb_false_iff; assumption).
  all: rewrite ?app_nil_r; reflexivity.
Qed.

Lemma unassignTicket_effect req id w :
  match TicketController.unassignTicket req id w with
  | (Throw _, w') => w' = w
  | (Ok pt, w') =>
      exists t,
        findById Ticket._id (tickets (db w)) id = Some t
        /\ Ticket.validate (Ticket.set_assignedTo None t) = true
        /\ pt = populateIn
                  (saveTicketIn (reassignedTicket req None t) (db w))
                  (reassignedTicket req None t)
        /\ db w' = saveTicketIn (reassignedTicket req None t) (db w)
        /\ outbox w' = outbox w
  end.
Proof.
  unfold TicketController.unassignTicket, TicketController.loadTicket,
    Ticket_save, denies.
  handler_cases.
  all: eexists; split; [reflexivity|].
  all: unfold reassignedTicket, saveTicketIn.
  all: cbn [db outbox Ticket.fields Ticket.assign_modifiedBy Ticket.assign
            Ticket.loaded] in *.
  all: repeat split; try reflexivity.
  all: apply negb_false_iff; assumption.
Qed.

Lemma createTicket_effect req body w :
  match TicketController.createTicket req body w with
  | (Throw _, w') => w' = w
  | (Ok pt, w') =>
      let t := TicketController.newTicket req body in
      findById Ticket._id (tickets (db w)) (freshId req) = None
      /\ pt = populateIn (set_tickets (tickets (db w) ++ [t]) (db w)) t
      /\ db w' = set_tickets (tickets (db w) ++ [t]) (db w)
      /\ outbox w' = outbox w ++ createNotices req body (db w) pt
  end.
Proof.
  unfold TicketController.createTicket, Ticket_create, denies.
  handler_cases.
  all: unfold createNotices.
  all: cbn [db outbox] in *.
  all: rewrite_tests.
  all: repeat match goal with
       | H : Some _ = Some _ |- _ => injection H as ?; subst
       | H : Some _ = None |- _ => discriminate H
       | H : None = Some _ |- _ => discriminate H
       end.
  all: rewrite_tests.
  all: repeat split; try reflexivity.
  all: rewrite ?app_nil_r; try reflexivity.
  all: match goal with
       | H : is_some ?x = false |- _ =>
           change x with (findById Ticket._id (tickets (db w)) (freshId req))
             in H;
           destruct (findById Ticket._id (tickets (db w)) (freshId req));
           [discriminate H|reflexivity]
       end.
Qed.

(** ** Collections *)

Section CollectionFacts.
Context {A : Type} (id_of : A -> ObjectId).

Lemma findById_id (l : list A) (id : ObjectId) (x : A) :
  findById id_of l id = Some x -> id_of x = id /\ In x l.
Proof.
  unfold findById. intros H. apply find_some in H as [Hin Heq].
  split; [now apply String.eqb_eq | exact Hin].
Qed.

Lemma findById_replace_same (x : A) (l : list A) :
  findById id_of l (id_of x) <> None ->
  findById id_of (replaceById id_of x l) (id_of x) = Some x.
Proof.
  unfold findById, replaceById.
  induction l as [|a l IH]; simpl; [congruence|].
  destruct (String.eqb_spec (id_of a) (id_of x)) as [E|N].
  - intros _. now rewrite String.eqb_refl.
  - intros H. destruct (String.eqb_spec (id_of a) (id_of x)); [congruence|].
    now apply IH.
Qed.

Lemma findById_replace_other (x : A) (l : list A) (id : ObjectId) :
  id <> id_of x ->
  findById id_of (replaceById id_of x l) id = findById id_of l id.
Proof.
  unfold findById, replaceById. intros N.
  induction l as [|a l IH]; simpl; [reflexivity|].
  destruct (String.eqb_spec (id_of a) (id_of x)) as [E|N'].
  - destruct (String.eqb_spec (id_of x) id); [congruence|].
    destruct (String.eqb_spec (id_of a) id); [congruence|]. exact IH.
  - destruct (String.eqb_spec (id_of a) id); [reflexivity|]. exact IH.
Qed.

Lemma findById_delete_same (l : list A) (id : ObjectId) :
  findById id_of (deleteById id_of id l) id = None.
Proof.
  unfold findById, deleteById.
  induction l as [|a l IH]; simpl; [reflexivity|].
  destruct (String.eqb_spec (id_of a) id) as [E|N]; simpl; [exact IH|].
  destruct (String.eqb_spec (id_of a) id); [congruence|]. exact IH.
Qed.

Lemma findById_delete_other (l : list A) (id id' : ObjectId) :
  id <> id' ->
  findById id_of (deleteById id_of id' l) id = findById id_of l id.
Proof.
  unfold findById, deleteById. intros N.
  induction l as [|a l IH]; simpl; [reflexivity|].
  destruct (String.eqb_spec (id_of a) id') as [E|N']; simpl.
  - destruct (String.eqb_spec (id_of a) id); [congruence|]. exact IH.
  - destruct (String.eqb_spec (id_of a) id); [reflexivity|]. exact IH.
Qed.

Lemma findById_app (l : list A) (x : A) (id : ObjectId) :
  findById id_of (l ++ [x]) id =
  match findById id_of l id with
  | Some y => Some y
  | None => if String.eqb (id_of x) id then Some x else None
  end.
Proof.
  unfold findById.
  induction l as [|a l IH]; simpl; [reflexivity|].
  destruct (String.eqb (id_of a) id); [reflexivity|exact IH].
Qed.

Lemma Forall_replaceById (P : A -> Prop) (x : A) (l : list A) :
  P x -> Forall P l -> Forall P (replaceById id_of x l).
Proof.
  intros Hx Hl. unfold replaceById. apply Forall_map.
  eapply Forall_impl; [|exact Hl].
  intros a Ha. now destruct (String.eqb (id_of a) (id_of x)).
Qed.

Lemma Forall_deleteById (P : A -> Prop) (id : ObjectId) (l : list A) :
  Forall P l -> Forall P (deleteById id_of id l).
Proof.
  intros Hl. unfold deleteById. apply Forall_forall.
  intros a Ha. apply filter_In in Ha as [Ha _].
  revert a Ha. now apply Forall_forall.
Qed.
End CollectionFacts.

(** ** The update of a ticket, field by field *)

(** One step of [allowedUpdates.forEach] on a path other than [status]. *)
Lemma setIfDefined_assign {V} (v : option V) (set : V -> Ticket.doc -> Ticket.doc)
    (get : Ticket.doc -> V) d n m b :
  (forall D, set (get D) D = D) ->
  TicketController.setIfDefined v (fun x => Ticket.assign (set x))
    {| Ticket.fields := d; Ticket.isNew := n;
       Ticket.statusModified := m; Ticket.modifiedBy := b |} =
  {| Ticket.fields := set (or_else v (get d)) d; Ticket.isNew := n;
     Ticket.statusModified := m; Ticket.modifiedBy := b |}.
Proof.
  intros eta. destruct v as [x|]; cbn.
  - reflexivity.
  - now rewrite eta.
Qed.

Lemma setIfDefined_status (v : option TicketStatus) d n m b :
  TicketController.setIfDefined v Ticket.assign_status
    {| Ticket.fields := d; Ticket.isNew := n;
       Ticket.statusModified := m; Ticket.modifiedBy := b |} =
  {| Ticket.fields := Ticket.set_status (or_else v (Ticket.status d)) d;
     Ticket.isNew := n;
     Ticket.statusModified :=
       match v with
       | Some s => m || n || negb (TicketStatus_eqb (Ticket.status d) s)
       | None => m
       end;
     Ticket.modifiedBy := b |}.
Proof.
  destruct v as [x|]; cbn; [reflexivity|]. now destruct d.
Qed.

(** [applyUpdates] writes the supplied fields and no other, and marks
    [status] modified exactly when the supplied status is a new one. *)
Lemma applyUpdates_loaded u t :
  TicketController.applyUpdates u (Ticket.loaded t) =
  {| Ticket.fields := patched u t;
     Ticket.isNew := false;
     Ticket.statusModified :=
       match TicketController.u_status u with
       | Some s => negb (TicketStatus_eqb (Ticket.status t) s)
       | None => false
       end;
     Ticket.modifiedBy := None |}.
Proof.
  unfold TicketController.applyUpdates, Ticket.loaded. cbv zeta.
  rewrite (setIfDefined_assign _ Ticket.set_title Ticket.title)
    by (now intros []).
  rewrite (setIfDefined_assign _ Ticket.set_description Ticket.description)
    by (now intros []).
  rewrite setIfDefined_status.
  rewrite (setIfDefined_assign _ Ticket.set_priority Ticket.priority)
    by (now intros []).
  rewrite (setIfDefined_assign _ Ticket.set_type Ticket.type)
    by (now intros []).
  rewrite (setIfDefined_assign _ Ticket.set_assignedTo Ticket.assignedTo)
    by (now intros []).
  rewrite (setIfDefined_assign _ Ticket.set_dueDate Ticket.dueDate)
    by (now intros []).
  rewrite (setIfDefined_assign _ Ticket.set_estimatedHours
             Ticket.estimatedHours) by (now intros []).
  rewrite (setIfDefined_assign _ Ticket.set_actualHours Ticket.actualHours)
    by (now intros []).
  rewrite (setIfDefined_assign _ Ticket.set_tags Ticket.tags)
    by (now intros []).
  reflexivity.
Qed.

Lemma same_but_derived_refl t : same_but_derived t t.
Proof. unfold same_but_derived. repeat split. Qed.

Lemma same_but_derived_trans t1 t2 t3 :
  same_but_derived t1 t2 -> same_but_derived t2 t3 -> same_but_derived t1 t3.
Proof.
  unfold same_but_derived. intros H12 H23.
  repeat match goal with H : _ /\ _ |- _ => destruct H end.
  repeat split; congruence.
Qed.

Lemma same_but_derived_if (c : bool) (f : Ticket.doc -> Ticket.doc) t :
  same_but_derived t (f t) -> same_but_derived t (if c then f t else t).
Proof. destruct c; [auto | intros _; apply same_but_derived_refl]. Qed.

Lemma same_but_derived_statusHistory v t :
  same_but_derived t (Ticket.set_statusHistory v t).
Proof. unfold same_but_derived. repeat split. Qed.

Lemma same_but_derived_resolvedAt v t :
  same_but_derived t (Ticket.set_resolvedAt v t).
Proof. unfold same_but_derived. repeat split. Qed.

Lemma same_but_derived_closedAt v t :
  same_but_derived t (Ticket.set_closedAt v t).
Proof. unfold same_but_derived. repeat split. Qed.

(** The pre-save hook touches the derived fields only. *)
Lemma preSave_frame now this :
  same_but_derived (Ticket.fields this) (Ticket.preSave now this).
Proof.
  unfold Ticket.preSave. cbv zeta.
  set (t1 := if Ticket.statusModified this && negb (Ticket.isNew this)
             then Ticket.set_statusHistory _ (Ticket.fields this)
             else Ticket.fields this).
  assert (H1 : same_but_derived (Ticket.fields this) t1)
    by apply same_but_derived_if, same_but_derived_statusHistory.
  destruct (Ticket.statusModified this); [|exact H1].
  match goal with
  | |- context [if ?c then Ticket.set_resolvedAt (Some now) t1 else t1] =>
      set (t2 := if c then Ticket.set_resolvedAt (Some now) t1 else t1)
  end.
  assert (H2 : same_but_derived t1 t2)
    by apply same_but_derived_if, same_but_derived_resolvedAt.
  match goal with
  | |- context [if ?c then Ticket.set_closedAt (Some now) t2 else t2] =>
      set (t3 := if c then Ticket.set_closedAt (Some now) t2 else t2)
  end.
  assert (H3 : same_but_derived t2 t3)
    by apply same_but_derived_if, same_but_derived_closedAt.
  match goal with
  | |- context [if ?c then Ticket.set_resolvedAt None t3 else t3] =>
      set (t4 := if c then Ticket.set_resolvedAt None t3 else t3)
  end.
  assert (H4 : same_but_derived t3 t4)
    by apply same_but_derived_if, same_but_derived_resolvedAt.
  assert (H5 : same_but_derived t4
                 (if negb (TicketStatus_eqb (Ticket.status t4) CLOSED)
                  then Ticket.set_closedAt None t4 else t4))
    by apply same_but_derived_if, same_but_derived_closedAt.
  eauto using same_but_derived_trans.
Qed.

(** Without a modified status the hook is the identity. *)
Lemma preSave_unmodified now this :
  Ticket.statusModified this = false ->
  Ticket.preSave now this = Ticket.fields this.
Proof.
  intros H. unfold Ticket.preSave. rewrite H. reflexivity.
Qed.

(** The history the hook leaves: one more entry for a modified status of a
    stored document, none otherwise. *)
Lemma preSave_history now this :
  Ticket.statusHistory (Ticket.preSave now this) =
  Ticket.statusHistory (Ticket.fields this) ++
  (if Ticket.statusModified this && negb (Ticket.isNew this)
   then [{| Ticket.h_status := Ticket.status (Ticket.fields this);
            Ticket.changedBy :=
              or_else (Ticket.modifiedBy this)
                      (Ticket.createdBy (Ticket.fields this));
            Ticket.changedAt := now;
            Ticket.comment := None |}]
   else []).
Proof.
  destruct this as [t n m by_]. unfold Ticket.preSave.
  cbn [Ticket.fields Ticket.isNew Ticket.statusModified Ticket.modifiedBy].
  destruct m, n, t as [? ? ? s ? ? ? ? ? ? ? ? ? ? ? r c];
    destruct s, r, c; cbn; rewrite ?app_nil_r; reflexivity.
Qed.

(** After a save that modified the status the timestamps are as the hook
    keeps them, whatever they were. *)
Lemma preSave_timestamps now this :
  (Ticket.statusModified this = false -> timestamps_kept (Ticket.fields this)) ->
  timestamps_kept (Ticket.preSave now this).
Proof.
  destruct this as [t n m by_]. unfold Ticket.preSave, timestamps_kept.
  cbn [Ticket.fields Ticket.isNew Ticket.statusModified Ticket.modifiedBy].
  destruct m.
  - intros _.
    destruct n, t as [? ? ? s ? ? ? ? ? ? ? ? ? ? ? r c];
      destruct s, r, c; cbn; repeat split; intros;
      try congruence; try tauto;
      repeat match goal with H : _ \/ _ |- _ => destruct H end;
      congruence.
  - intros H. specialize (H eq_refl). cbn. exact H.
Qed.

Lemma deleteTicket_effect req id w :
  match TicketController.deleteTicket req id w with
  | (Throw _, w') => w' = w
  | (Ok _, w') =>
      db w' = set_tickets (deleteById Ticket._id id (tickets (db w))) (db w)
      /\ outbox w' = outbox w
  end.
Proof.
  unfold TicketController.deleteTicket, TicketController.loadTicket.
  handler_cases. all: split; reflexivity.
Qed.

Lemma deleteProject_effect req id w :
  match ProjectController.deleteProject req id w with
  | (Throw e, w') =>
      w' = w /\ findActiveProject (db w) id = None /\ statusCode e = 404
  | (Ok r, w') =>
      exists p,
        findActiveProject (db w) id = Some p
        /\ outbox w' = outbox w
        /\ match find (fun t => String.eqb (Ticket.project t) id)
                      (tickets (db w)) with
           | Some _ =>
               r = Some (archived p)
               /\ db w' =
                  set_projects
                    (replaceById Project._id (archived p) (projects (db w)))
                    (db w)
           | None =>
               r = None
               /\ db w' =
                  set_projects (deleteById Project._id id (projects (db w)))
                               (db w)
           end
  end.
Proof.
  unfold ProjectController.deleteProject.
  handler_cases.
  all: try (repeat split; reflexivity).
  all: try match goal with
           | H : is_some _ = _ |- _ => cbn in H; discriminate H
           end.
  all: eexists; split; [reflexivity|]; split; [reflexivity|].
  all: rewrite_tests; split; reflexivity.
Qed.

Lemma addProjectMember_effect req id userId role w :
  match ProjectController.addProjectMember req id userId role w with
  | (Throw _, w') => w' = w
  | (Ok p', w') =>
      exists p invited,
        findActiveProject (db w) id = Some p
        /\ findActiveUser (db w) userId = Some invited
        /\ p' = Project.set_members
                  (Project.members p ++
                   [{| Project.user := userId;
                       Project.role := or_else role CONTRIBUTOR;
                       Project.joinedAt := now req |}]) p
        /\ db w' =
           set_projects (replaceById Project._id p' (projects (db w))) (db w)
        /\ outbox w' =
           outbox w ++
           [EmailService.sendProjectInvitationEmail p' invited (user req)]
  end.
Proof.
  unfold ProjectController.addProjectMember.
  handler_cases.
  all: do 2 eexists; repeat split; reflexivity.
Qed.

Lemma updateUserRole_effect req userId role w :
  match UserController.updateUserRole req userId role w with
  | (Throw _, w') => w' = w
  | (Ok u', w') =>
      exists u,
        findById User._id (users (db w)) userId = Some u
        /\ u' = User.set_role role u
        /\ db w' = set_users (replaceById User._id u' (users (db w))) (db w)
        /\ outbox w' = outbox w
  end.
Proof.
  unfold UserController.updateUserRole.
  handler_cases.
  eexists; repeat split; reflexivity.
Qed.

Lemma updateUserStatus_effect req userId isActive w :
  match UserController.updateUserStatus req userId isActive w with
  | (Throw _, w') => w' = w
  | (Ok u', w') =>
      exists u,
        findById User._id (users (db w)) userId = Some u
        /\ u' = User.set_isActive isActive u
        /\ db w' = set_users (replaceById User._id u' (users (db w))) (db w)
        /\ outbox w' = outbox w
  end.
Proof.
  unfold UserController.updateUserStatus.
  handler_cases.
  eexists; repeat split; reflexivity.
Qed.

Lemma deleteUser_effect req userId w :
  match UserController.deleteUser req userId w with
  | (Throw _, w') => w' = w
  | (Ok r, w') =>
      exists u,
        findById User._id (users (db w)) userId = Some u
        /\ User._id u <> User._id (user req)
        /\ outbox w' = outbox w
        /\ if hasAssociatedData (db w) userId
           then r = Some (User.set_isActive false u)
                /\ db w' =
                   set_users
                     (replaceById User._id (User.set_isActive false u)
                                  (users (db w)))
                     (db w)
           else r = None
                /\ db w' =
                   set_users (deleteById User._id userId (users (db w))) (db w)
  end.
Proof.
  unfold UserController.deleteUser, hasAssociatedData.
  handler_cases.
  match goal with
  | |- context [if ?c then _ else _] => destruct c
  end.
  all: eexists; split; [reflexivity|].
  all: split; [now apply String.eqb_neq|].
  all: repeat split; reflexivity.
Qed.

(** ** The server: a failed request changes nothing; tickets move only
    through the ticket handlers *)

Lemma done_world {A} (h : Handler A) w : snd (done h w) = snd (h w).
Proof.
  unfold done, bind, ret. destruct (h w) as [[a|e] w']; reflexivity.
Qed.

Lemma authorize_then {A} roles req (h : Handler A) w :
  snd ((authorize roles req ;;; h) w) = w
  \/ (authorize roles req ;;; h) w = h w.
Proof.
  unfold authorize, throwIf, bind, throw, ret.
  destruct (negb _); [left|right]; reflexivity.
Qed.

Lemma updatedTicket_eq req u t :
  updatedTicket req u t =
  Ticket.preSave (now req)
    {| Ticket.fields := patched u t;
       Ticket.isNew := false;
       Ticket.statusModified :=
         match TicketController.u_status u with
         | Some s => negb (TicketStatus_eqb (Ticket.status t) s)
         | None => false
         end;
       Ticket.modifiedBy := Some (User._id (user req)) |}.
Proof.
  unfold updatedTicket. now rewrite applyUpdates_loaded.
Qed.

Lemma reassignedTicket_eq req a t :
  reassignedTicket req a t = Ticket.set_assignedTo a t.
Proof. reflexivity. Qed.

Lemma TicketStatus_eqb_eq a b : TicketStatus_eqb a b = true <-> a = b.
Proof. destruct a, b; cbn; split; congruence. Qed.

(** The status an update leaves, and whether it differs from the stored
    one. *)
Lemma updatedTicket_status req u t :
  Ticket.status (updatedTicket req u t) =
  or_else (TicketController.u_status u) (Ticket.status t).
Proof.
  rewrite updatedTicket_eq.
  match goal with |- context [Ticket.preSave ?n ?i] =>
    pose proof (preSave_frame n i) as F end.
  unfold same_but_derived in F. cbn [Ticket.fields] in F.
  destruct F as (_ & _ & _ & -> & _). reflexivity.
Qed.

Lemma updatedTicket_id req u t :
  Ticket._id (updatedTicket req u t) = Ticket._id t.
Proof.
  rewrite updatedTicket_eq.
  match goal with |- context [Ticket.preSave ?n ?i] =>
    pose proof (preSave_frame n i) as F end.
  unfold same_but_derived in F. cbn [Ticket.fields] in F.
  destruct F as (-> & _). reflexivity.
Qed.

Lemma updatedTicket_statusHistory req u t :
  Ticket.statusHistory (updatedTicket req u t) =
  Ticket.statusHistory t ++
  (if TicketStatus_eqb (Ticket.status t)
        (Ticket.status (updatedTicket req u t))
   then []
   else [historyEntryFor req (Ticket.status (updatedTicket req u t))]).
Proof.
  rewrite updatedTicket_status. rewrite updatedTicket_eq, preSave_history.
  cbn [Ticket.fields Ticket.isNew Ticket.statusModified Ticket.modifiedBy
       patched Ticket.statusHistory Ticket.status Ticket.createdBy
       or_else negb andb].
  f_equal. rewrite andb_true_r.
  destruct (TicketController.u_status u) as [s|]; cbn [or_else].
  - destruct (TicketStatus_eqb (Ticket.status t) s); reflexivity.
  - replace (TicketStatus_eqb (Ticket.status t) (Ticket.status t)) with true;
      [reflexivity|].
    symmetry. now apply TicketStatus_eqb_eq.
Qed.

Lemma updatedTicket_timestamps req u t :
  timestamps_kept t -> timestamps_kept (updatedTicket req u t).
Proof.
  intros K. rewrite updatedTicket_eq. apply preSave_timestamps.
  cbn [Ticket.fields Ticket.statusModified].
  unfold timestamps_kept, patched in *.
  cbn [Ticket.status Ticket.resolvedAt Ticket.closedAt].
  destruct (TicketController.u_status u) as [s|]; cbn [or_else];
    [|intros _; exact K].
  intros E. apply negb_false_iff, TicketStatus_eqb_eq in E. now subst s.
Qed.

Lemma newTicket_timestamps req body :
  timestamps_kept (TicketController.newTicket req body).
Proof.
  unfold timestamps_kept. cbn. repeat split; intros; congruence.
Qed.

Lemma ticketsStep_timestamps l l' :
  ticketsStep l l' -> Forall timestamps_kept l -> Forall timestamps_kept l'.
Proof.
  intros S K. destruct S as [|req u id t F|req a id t F|req body F|id].
  - exact K.
  - apply Forall_replaceById; [|exact K].
    apply updatedTicket_timestamps.
    apply findById_id in F as [_ Hin].
    revert t Hin. now apply Forall_forall.
  - apply Forall_replaceById; [|exact K].
    rewrite reassignedTicket_eq.
    apply findById_id in F as [_ Hin].
    assert (Kt : timestamps_kept t) by (revert t Hin; now apply Forall_forall).
    exact Kt.
  - apply Forall_app. split; [exact K|].
    constructor; [apply newTicket_timestamps|constructor].
  - now apply Forall_deleteById.
Qed.

(** Every request moves the tickets by one of the steps above. *)
Lemma serve_ticketsStep w rc :
  ticketsStep (tickets (db w)) (tickets (db (serve w rc))).
Proof.
  destruct rc as [req call]. unfold serve, route. cbn [fst snd].
  destruct call.
  - rewrite done_world.
    pose proof (createTicket_effect req body w) as E.
    destruct (TicketController.createTicket req body w) as [[pt|e] w'];
      cbn [snd].
    + destruct E as (F & _ & -> & _). cbn. exact (step_create _ req body F).
    + subst w'. apply step_same.
  - rewrite done_world.
    pose proof (updateTicket_effect req id updates w) as E.
    destruct (TicketController.updateTicket req id updates w) as [[pt|e] w'];
      cbn [snd].
    + destruct E as (t & F & _ & _ & -> & _). cbn.
      exact (step_update _ req updates id t F).
    + subst w'. apply step_same.
  - pose proof (deleteTicket_effect req id w) as E.
    destruct (TicketController.deleteTicket req id w) as [[pt|e] w'];
      cbn [snd].
    + destruct E as (-> & _). cbn. apply step_delete.
    + subst w'. apply step_same.
  - rewrite done_world.
    pose proof (assignTicket_effect req id userId w) as E.
    destruct (TicketController.assignTicket req id userId w) as [[pt|e] w'];
      cbn [snd].
    + destruct E as (t & F & _ & _ & -> & _). cbn.
      exact (step_reassign _ req (Some userId) id t F).
    + subst w'. apply step_same.
  - rewrite done_world.
    pose proof (unassignTicket_effect req id w) as E.
    destruct (TicketController.unassignTicket req id w) as [[pt|e] w'];
      cbn [snd].
    + destruct E as (t & F & _ & _ & -> & _). cbn.
      exact (step_reassign _ req None id t F).
    + subst w'. apply step_same.
  - destruct (authorize_then [ADMIN] req
                (done (ProjectController.deleteProject req id)) w) as [->| ->];
      [apply step_same|].
    rewrite done_world.
    pose proof (deleteProject_effect req id w) as E.
    destruct (ProjectController.deleteProject req id w) as [[r|e] w'];
      cbn [snd].
    + destruct E as (p & _ & _ & E).
      destruct (find _ _); destruct E as (_ & ->); apply step_same.
    + destruct E as (-> & _). apply step_same.
  - rewrite done_world.
    pose proof (addProjectMember_effect req id userId role w) as E.
    destruct (ProjectController.addProjectMember req id userId role w)
      as [[r|e] w']; cbn [snd].
    + destruct E as (p & i & _ & _ & _ & -> & _). apply step_same.
    + subst w'. apply step_same.
  - destruct (authorize_then [ADMIN] req
                (done (UserController.updateUserRole req userId role)) w)
      as [->| ->]; [apply step_same|].
    rewrite done_world.
    pose proof (updateUserRole_effect req userId role w) as E.
    destruct (UserController.updateUserRole req userId role w)
      as [[r|e] w']; cbn [snd].
    + destruct E as (u & _ & _ & -> & _). apply step_same.
    + subst w'. apply step_same.
  - destruct (authorize_then [ADMIN] req
                (done (UserController.updateUserStatus req userId isActive)) w)
      as [->| ->]; [apply step_same|].
    rewrite done_world.
    pose proof (updateUserStatus_effect req userId isActive w) as E.
    destruct (UserController.updateUserStatus req userId isActive w)
      as [[r|e] w']; cbn [snd].
    + destruct E as (u & _ & _ & -> & _). apply step_same.
    + subst w'. apply step_same.
  - destruct (authorize_then [ADMIN] req
                (done (UserController.deleteUser req userId)) w)
      as [->| ->]; [apply step_same|].
    rewrite done_world.
    pose proof (deleteUser_effect req userId w) as E.
    destruct (UserController.deleteUser req userId w)
      as [[r|e] w']; cbn [snd].
    + destruct E as (u & _ & _ & _ & E).
      destruct (hasAssociatedData _ _); destruct E as (_ & ->);
        apply step_same.
    + subst w'. apply step_same.
Qed.

Lemma run_timestamps calls : forall w,
  Forall timestamps_kept (tickets (db w)) ->
  Forall timestamps_kept (tickets (db (run w calls))).
Proof.
  induction calls as [|rc calls IH]; intros w K; [exact K|].
  cbn. apply IH.
  eapply ticketsStep_timestamps; [apply serve_ticketsStep|exact K].
Qed.

(** The timestamps after a save that modified the status. *)
Lemma preSave_modified now this :
  Ticket.statusModified this = true ->
  Ticket.resolvedAt (Ticket.preSave now this) =
    match Ticket.status (Ticket.fields this) with
    | RESOLVED => Some (or_else (Ticket.resolvedAt (Ticket.fields this)) now)
    | CLOSED => Ticket.resolvedAt (Ticket.fields this)
    | _ => None
    end
  /\ Ticket.closedAt (Ticket.preSave now this) =
    match Ticket.status (Ticket.fields this) with
    | CLOSED => Some (or_else (Ticket.closedAt (Ticket.fields this)) now)
    | _ => None
    end.
Proof.
  destruct this as [t n m by_]. cbn [Ticket.statusModified Ticket.fields].
  intros ->. unfold Ticket.preSave.
  cbn [Ticket.fields Ticket.isNew Ticket.statusModified Ticket.modifiedBy].
  destruct n, t as [? ? ? s ? ? ? ? ? ? ? ? ? ? ? r c];
    destruct s, r, c; split; reflexivity.
Qed.

(** A successful update stores, and answers with, [updatedTicket]. *)
Lemma updateTicket_ok req id u w t pt w' :
  findById Ticket._id (tickets (db w)) id = Some t ->
  TicketController.updateTicket req id u w = (Ok pt, w') ->
  Ticket.p_ticket pt = updatedTicket req u t
  /\ findById Ticket._id (tickets (db w')) id = Some (updatedTicket req u t)
  /\ pt = populateIn (db w') (updatedTicket req u t)
  /\ outbox w' = outbox w ++ updateNotices req u (populateIn (db w) t) pt.
Proof.
  intros F R. pose proof (updateTicket_effect req id u w) as E.
  rewrite R in E. destruct E as (t0 & F0 & _ & Hpt & Hdb & Hout).
  rewrite F in F0. injection F0 as <-.
  split; [now rewrite Hpt|]. split; [|split; [now rewrite Hdb|exact Hout]].
  rewrite Hdb. unfold saveTicketIn. cbn [tickets set_tickets].
  apply findById_id in F as F'. destruct F' as [Hid _].
  rewrite <- Hid, <- (updatedTicket_id req u t).
  apply findById_replace_same.
  rewrite updatedTicket_id, Hid, F. discriminate.
Qed.

Lemma reassign_ok (a : option ObjectId) req id w t w' :
  findById Ticket._id (tickets (db w)) id = Some t ->
  db w' = saveTicketIn (reassignedTicket req a t) (db w) ->
  findById Ticket._id (tickets (db w')) id = Some (Ticket.set_assignedTo a t).
Proof.
  intros F ->. unfold saveTicketIn. cbn [tickets set_tickets].
  rewrite reassignedTicket_eq.
  apply findById_id in F as F'. destruct F' as [Hid _].
  rewrite <- Hid.
  change (Ticket._id t) with (Ticket._id (Ticket.set_assignedTo a t)).
  apply findById_replace_same.
  change (Ticket._id (Ticket.set_assignedTo a t)) with (Ticket._id t).
  rewrite Hid, F. discriminate.
Qed.

Lemma assignTicket_ok req id userId w t pt w' :
  findById Ticket._id (tickets (db w)) id = Some t ->
  TicketController.assignTicket req id userId w = (Ok pt, w') ->
  Ticket.p_ticket pt = Ticket.set_assignedTo (Some userId) t
  /\ findById Ticket._id (tickets (db w')) id =
     Some (Ticket.set_assignedTo (Some userId) t)
  /\ outbox w' = outbox w ++ assignNotices req userId (db w) pt.
Proof.
  intros F R. pose proof (assignTicket_effect req id userId w) as E.
  rewrite R in E. destruct E as (t0 & F0 & _ & Hpt & Hdb & Hout).
  rewrite F in F0. injection F0 as <-.
  split; [now rewrite Hpt|]. split; [|exact Hout].
  eapply reassign_ok; eauto.
Qed.

Lemma unassignTicket_ok req id w t pt w' :
  findById Ticket._id (tickets (db w)) id = Some t ->
  TicketController.unassignTicket req id w = (Ok pt, w') ->
  Ticket.p_ticket pt = Ticket.set_assignedTo None t
  /\ findById Ticket._id (tickets (db w')) id =
     Some (Ticket.set_assignedTo None t)
  /\ outbox w' = outbox w.
Proof.
  intros F R. pose proof (unassignTicket_effect req id w) as E.
  rewrite R in E. destruct E as (t0 & F0 & _ & Hpt & Hdb & Hout).
  rewrite F in F0. injection F0 as <-.
  split; [now rewrite Hpt|]. split; [|exact Hout].
  eapply reassign_ok; eauto.
Qed.

(** ** The ticket lifecycle *)

(** Bob resolves ticket t1 at time 3000: one entry more, [resolvedAt] set. *)
Example resolving_t1 :
  let t := updatedTicket (Scenario.by_ Scenario.bob 3000)
             (Scenario.setStatus RESOLVED)
             (Scenario.ticket "t1" "p1" (Some "u3")) in
  Ticket.status t = RESOLVED
  /\ Ticket.resolvedAt t = Some 3000
  /\ Ticket.closedAt t = None
  /\ map Ticket.h_status (Ticket.statusHistory t) = [OPEN; RESOLVED]
  /\ map Ticket.changedBy (Ticket.statusHistory t) = ["u2"; "u2"].
Proof. cbv zeta. repeat split. Qed.

(** Supplying the status the ticket already has is no change. *)
Example reopening_open_t1 :
  updatedTicket (Scenario.by_ Scenario.alice 3000) (Scenario.setStatus OPEN)
    (Scenario.ticket "t1" "p1" (Some "u3"))
  = Scenario.ticket "t1" "p1" (Some "u3").
Proof. reflexivity. Qed.

(** C2, as the code has it.  Over every sequence of requests the server
    answers, each stored ticket keeps: [closedAt] is set exactly when the
    status is CLOSED; [resolvedAt] is set when the status is RESOLVED and
    cleared when it is OPEN or IN_PROGRESS; a CLOSED ticket keeps the
    [resolvedAt] it had.  In particular an update RESOLVED -> CLOSED keeps
    [resolvedAt] (set) and sets [closedAt], and an update RESOLVED -> OPEN
    clears both. *)
Theorem timestamps_kept_invariant (w : World) :
  Forall timestamps_kept (tickets (db w)) ->
  (forall calls, Forall timestamps_kept (tickets (db (run w calls))))
  /\ (forall req id u t pt w',
        findById Ticket._id (tickets (db w)) id = Some t ->
        Ticket.status t = RESOLVED ->
        TicketController.updateTicket req id u w = (Ok pt, w') ->
        (TicketController.u_status u = Some CLOSED ->
         Ticket.status (Ticket.p_ticket pt) = CLOSED
         /\ Ticket.resolvedAt (Ticket.p_ticket pt) = Ticket.resolvedAt t
         /\ Ticket.resolvedAt (Ticket.p_ticket pt) <> None
         /\ Ticket.closedAt (Ticket.p_ticket pt) = Some (now req))
        /\ (TicketController.u_status u = Some OPEN ->
            Ticket.status (Ticket.p_ticket pt) = OPEN
            /\ Ticket.resolvedAt (Ticket.p_ticket pt) = None
            /\ Ticket.closedAt (Ticket.p_ticket pt) = None)).
Proof.
  intros K. split; [intros calls; now apply run_timestamps|].
  intros req id u t pt w' F S R.
  destruct (updateTicket_ok _ _ _ _ _ _ _ F R) as (-> & _).
  assert (Kt : timestamps_kept t).
  { apply findById_id in F as [_ Hin].
    exact (proj1 (Forall_forall _ _) K t Hin). }
  destruct Kt as (Kr & _ & Kc).
  split; intros U.
  - split; [now rewrite updatedTicket_status, U|].
    rewrite updatedTicket_eq, U, S.
    match goal with |- context [Ticket.preSave ?n ?i] =>
      destruct (preSave_modified n i eq_refl) as [-> ->] end.
    cbn [Ticket.fields patched Ticket.status Ticket.resolvedAt
         Ticket.closedAt]. rewrite U. cbn [or_else].
    split; [reflexivity|]. split; [now apply Kr|].
    destruct (Ticket.closedAt t) eqn:C; [|reflexivity].
    assert (Ticket.status t = CLOSED) by (apply Kc; discriminate).
    congruence.
  - split; [now rewrite updatedTicket_status, U|].
    rewrite updatedTicket_eq, U, S.
    match goal with |- context [Ticket.preSave ?n ?i] =>
      destruct (preSave_modified n i eq_refl) as [-> ->] end.
    cbn [Ticket.fields patched Ticket.status]. rewrite U. cbn [or_else].
    split; reflexivity.
Qed.

Lemma scenario_timestamps_kept :
  Forall timestamps_kept (tickets (db Scenario.world)).
Proof.
  repeat constructor; cbn; try discriminate; try tauto.
  all: intros H; try (destruct H; discriminate).
Defined.

Lemma timestamps_kept_invariant_witness :
  Forall timestamps_kept
    (tickets (db (run Scenario.world
       [(Scenario.by_ Scenario.bob 3000,
         PUT_ticket "t1" (Scenario.setStatus RESOLVED));
        (Scenario.by_ Scenario.bob 4000,
         PUT_ticket "t1" (Scenario.setStatus CLOSED));
        (Scenario.by_ Scenario.alice 5000,
         PUT_ticket "t1" (Scenario.setStatus OPEN))]))).
Proof.
  apply (timestamps_kept_invariant Scenario.world scenario_timestamps_kept).
Defined.

(** The data model's wording of C2 fails: after RESOLVED -> CLOSED the
    ticket is CLOSED and still carries its [resolvedAt]. *)
Lemma resolvedAt_survives_close :
  Forall timestamps_exact (tickets (db Scenario.world))
  /\ exists t,
       findById Ticket._id
         (tickets (db (run Scenario.world
            [(Scenario.by_ Scenario.bob 3000,
              PUT_ticket "t1" (Scenario.setStatus RESOLVED));
             (Scenario.by_ Scenario.bob 4000,
              PUT_ticket "t1" (Scenario.setStatus CLOSED))]))) "t1"
       = Some t
       /\ Ticket.status t = CLOSED
       /\ Ticket.resolvedAt t = Some 3000
       /\ ~ timestamps_exact t.
Proof.
  split.
  - repeat constructor; cbn; intros H; try discriminate H; now elim H.
  - eexists. split; [vm_compute; reflexivity|].
    split; [reflexivity|]. split; [reflexivity|].
    intros [H _]. cbn in H.
    assert (E : CLOSED = RESOLVED) by (apply H; discriminate).
    discriminate E.
Qed.

Lemma ticketsStep_history l l' id t t' :
  ticketsStep l l' ->
  findById Ticket._id l id = Some t ->
  findById Ticket._id l' id = Some t' ->
  exists more, Ticket.statusHistory t' = Ticket.statusHistory t ++ more.
Proof.
  intros S F F'.
  destruct S as [|req u id0 t0 F0|req a id0 t0 F0|req body F0|id0].
  - rewrite F in F'. injection F' as <-. exists []. now rewrite app_nil_r.
  - apply findById_id in F0 as Hid0. destruct Hid0 as [Hid0 _].
    destruct (String.eqb_spec id id0) as [->|N].
    + rewrite F in F0. injection F0 as <-.
      rewrite <- Hid0, <- (updatedTicket_id req u t) in F'.
      rewrite findById_replace_same in F'.
      * injection F' as <-. rewrite updatedTicket_statusHistory. eauto.
      * rewrite updatedTicket_id, Hid0, F. discriminate.
    + rewrite findById_replace_other in F'
        by (rewrite updatedTicket_id, Hid0; exact N).
      rewrite F in F'. injection F' as <-. exists []. now rewrite app_nil_r.
  - apply findById_id in F0 as Hid0. destruct Hid0 as [Hid0 _].
    rewrite reassignedTicket_eq in F'.
    destruct (String.eqb_spec id id0) as [->|N].
    + rewrite F in F0. injection F0 as <-.
      rewrite <- Hid0 in F'.
      change (Ticket._id t) with (Ticket._id (Ticket.set_assignedTo a t))
        in F'.
      rewrite findById_replace_same in F'.
      * injection F' as <-. exists []. now rewrite app_nil_r.
      * change (Ticket._id (Ticket.set_assignedTo a t)) with (Ticket._id t).
        rewrite Hid0, F. discriminate.
    + rewrite findById_replace_other in F'
        by (change (Ticket._id (Ticket.set_assignedTo a t0))
              with (Ticket._id t0); rewrite Hid0; exact N).
      rewrite F in F'. injection F' as <-. exists []. now rewrite app_nil_r.
  - rewrite findById_app, F in F'. injection F' as <-.
    exists []. now rewrite app_nil_r.
  - destruct (String.eqb_spec id id0) as [->|N].
    + rewrite findById_delete_same in F'. discriminate.
    + rewrite findById_delete_other in F' by exact N.
      rewrite F in F'. injection F' as <-. exists []. now rewrite app_nil_r.
Qed.



(** C9. A successful update leaves [project], [createdBy] (and [_id],
    [attachments]) as they were, and every field of the allowed list that
    the request does not supply; when it supplies no status the derived
    [statusHistory], [resolvedAt] and [closedAt] stay too.  A successful
    assignment or unassignment changes [assignedTo] and nothing else. *)
Theorem ticket_update_frame (req : Request) (w : World) (id : ObjectId)
    (t : Ticket.doc) :
  findById Ticket._id (tickets (db w)) id = Some t ->
  (forall u pt w',
     TicketController.updateTicket req id u w = (Ok pt, w') ->
     let t' := Ticket.p_ticket pt in
     findById Ticket._id (tickets (db w')) id = Some t'
     /\ Ticket.project t' = Ticket.project t
     /\ Ticket.createdBy t' = Ticket.createdBy t
     /\ Ticket._id t' = Ticket._id t
     /\ Ticket.attachments t' = Ticket.attachments t
     /\ (TicketController.u_title u = None -> Ticket.title t' = Ticket.title t)
     /\ (TicketController.u_description u = None ->
         Ticket.description t' = Ticket.description t)
     /\ (TicketController.u_status u = None ->
         Ticket.status t' = Ticket.status t
         /\ Ticket.statusHistory t' = Ticket.statusHistory t
         /\ Ticket.resolvedAt t' = Ticket.resolvedAt t
         /\ Ticket.closedAt t' = Ticket.closedAt t)
     /\ (TicketController.u_priority u = None ->
         Ticket.priority t' = Ticket.priority t)
     /\ (TicketController.u_type u = None -> Ticket.type t' = Ticket.type t)
     /\ (TicketController.u_assignedTo u = None ->
         Ticket.assignedTo t' = Ticket.assignedTo t)
     /\ (TicketController.u_dueDate u = None ->
         Ticket.dueDate t' = Ticket.dueDate t)
     /\ (TicketController.u_estimatedHours u = None ->
         Ticket.estimatedHours t' = Ticket.estimatedHours t)
     /\ (TicketController.u_actualHours u = None ->
         Ticket.actualHours t' = Ticket.actualHours t)
     /\ (TicketController.u_tags u = None -> Ticket.tags t' = Ticket.tags t))
  /\ (forall userId pt w',
        TicketController.assignTicket req id userId w = (Ok pt, w') ->
        findById Ticket._id (tickets (db w')) id = Some (Ticket.p_ticket pt)
        /\ Ticket.assignedTo (Ticket.p_ticket pt) = Some userId
        /\ same_but_assignee t (Ticket.p_ticket pt))
  /\ (forall pt w',
        TicketController.unassignTicket req id w = (Ok pt, w') ->
        findById Ticket._id (tickets (db w')) id = Some (Ticket.p_ticket pt)
        /\ Ticket.assignedTo (Ticket.p_ticket pt) = None
        /\ same_but_assignee t (Ticket.p_ticket pt)).
Proof.
  intros F. split; [|split].
  - intros u pt w' R t'. subst t'.
    destruct (updateTicket_ok _ _ _ _ _ _ _ F R) as (-> & F' & _).
    split; [exact F'|].
    rewrite updatedTicket_eq.
    match goal with |- context [Ticket.preSave ?n ?i] =>
      pose proof (preSave_frame n i) as Fr;
      pose proof (preSave_unmodified n i) as Un;
      set (saved := Ticket.preSave n i) in *
    end.
    unfold same_but_derived in Fr.
    cbn [Ticket.fields Ticket.statusModified patched Ticket._id Ticket.title
         Ticket.description Ticket.status Ticket.priority Ticket.type
         Ticket.assignedTo Ticket.project Ticket.createdBy Ticket.dueDate
         Ticket.estimatedHours Ticket.actualHours Ticket.tags
         Ticket.attachments] in Fr, Un.
    destruct Fr as (Hid & Hti & Hde & Hst & Hpr & Hty & Has & Hpj & Hcb
                    & Hdu & Hes & Hac & Hta & Hat).
    repeat match goal with |- _ /\ _ => split end; try assumption.
    all: intros U; rewrite U in *; cbn [or_else] in *; try assumption.
    rewrite (Un eq_refl). unfold patched. cbn. rewrite U. now repeat split.
  - intros userId pt w' R.
    destruct (assignTicket_ok _ _ _ _ _ _ _ F R) as (-> & F' & _).
    split; [exact F'|]. split; [reflexivity|].
    unfold same_but_assignee. repeat split.
  - intros pt w' R.
    destruct (unassignTicket_ok _ _ _ _ _ _ F R) as (-> & F' & _).
    split; [exact F'|]. split; [reflexivity|].
    unfold same_but_assignee. repeat split.
Qed.

Lemma ticket_update_frame_witness :
  match TicketController.updateTicket (Scenario.by_ Scenario.bob 3000) "t1"
          (Scenario.setStatus RESOLVED) Scenario.world with
  | (Ok pt, _) =>
      Ticket.project (Ticket.p_ticket pt) = "p1"
      /\ Ticket.createdBy (Ticket.p_ticket pt) = "u2"
  | (Throw _, _) => False
  end.
Proof.
  destruct (TicketController.updateTicket _ _ _ _) as [[pt|e] w'] eqn:R.
  - pose proof (proj1 (ticket_update_frame (Scenario.by_ Scenario.bob 3000)
                  Scenario.world "t1" (Scenario.ticket "t1" "p1" (Some "u3"))
                  eq_refl) _ _ _ R) as H.
    cbv zeta in H. destruct H as (_ & Hp & Hc & _).
    split; [exact Hp|exact Hc].
  - vm_compute in R. discriminate R.
Defined.

(** ** Errors precede writes *)

Lemma find_exists {A} (f : A -> bool) (l : list A) :
  find f l <> None <-> exists x, In x l /\ f x = true.
Proof.
  split.
  - destruct (find f l) as [x|] eqn:E; [|congruence].
    intros _. exists x. now apply find_some in E.
  - intros (x & Hin & Hx) E.
    pose proof (find_none _ _ E x Hin). congruence.
Qed.

Lemma loadTicket_found id msg w t p :
  findById Ticket._id (tickets (db w)) id = Some t ->
  findById Project._id (projects (db w)) (Ticket.project t) = Some p ->
  TicketController.loadTicket id msg w = (Ok (t, Some p), w).
Proof.
  intros Ft Fp. unfold TicketController.loadTicket.
  handler_unfold. cbn beta iota. rewrite Ft. cbn beta iota.
  rewrite Fp. cbn beta iota.
  destruct (findById_id _ _ _ _ Fp) as [E _]. now rewrite E, Fp.
Qed.

Ltac reject_with H :=
  handler_unfold; cbn beta iota;
  repeat (first [rewrite H | progress rewrite_tests];
          cbn beta iota delta [negb andb orb is_some]);
  try reflexivity.

Lemma updateTicket_rejects req id u w :
  (findById Ticket._id (tickets (db w)) id = None ->
   fst (TicketController.updateTicket req id u w) =
   Throw {| message := "Ticket not found"; statusCode := 404 |})
  /\ (forall t p,
        findById Ticket._id (tickets (db w)) id = Some t ->
        findById Project._id (projects (db w)) (Ticket.project t) = Some p ->
        (isAdmin req = false ->
         Project.hasAccess p (User._id (user req)) CONTRIBUTOR = false ->
         fst (TicketController.updateTicket req id u w) =
         Throw {| message := "Access denied to update this ticket";
                  statusCode := 403 |})
        /\ (forall a,
              TicketController.u_assignedTo u = Some (Some a) ->
              isAdmin req = true
              \/ Project.hasAccess p (User._id (user req)) CONTRIBUTOR = true ->
              (findActiveUser (db w) a = None ->
               fst (TicketController.updateTicket req id u w) =
               Throw {| message := "Assigned user not found or inactive";
                        statusCode := 404 |})
              /\ (findActiveUser (db w) a <> None ->
                  isAdmin req = false ->
                  Project.hasAccess p a VIEWER = false ->
                  fst (TicketController.updateTicket req id u w) =
                  Throw {| message :=
                             "Assigned user does not have access to this project";
                           statusCode := 403 |}))).
Proof.
  split.
  - intros F. unfold TicketController.updateTicket, TicketController.loadTicket.
    reject_with F.
  - intros t p Ft Fp.
    assert (L : forall A (k : _ -> Handler A),
              bind (TicketController.loadTicket id "Ticket not found") k w
              = k (t, Some p) w).
    { intros A k. unfold bind.
      now rewrite (loadTicket_found _ _ _ _ _ Ft Fp). }
    unfold TicketController.updateTicket. rewrite !L. clear L.
    unfold denies. split.
    + intros A D. reject_with A.
    + intros a U G. split.
      * intros N. destruct G as [A|D].
        -- reject_with A.
        -- destruct (isAdmin req); reject_with D.
      * intros N A D.
        destruct G as [A'|D']; [congruence|].
        destruct (findActiveUser (db w) a) eqn:Fa; [|congruence].
        reject_with A.
Qed.

Lemma assignTicket_rejects req id userId w :
  (findById Ticket._id (tickets (db w)) id = None ->
   fst (TicketController.assignTicket req id userId w) =
   Throw {| message := "Ticket not found"; statusCode := 404 |})
  /\ (forall t p,
        findById Ticket._id (tickets (db w)) id = Some t ->
        findById Project._id (projects (db w)) (Ticket.project t) = Some p ->
        (isAdmin req = false ->
         Project.hasAccess p (User._id (user req)) CONTRIBUTOR = false ->
         fst (TicketController.assignTicket req id userId w) =
         Throw {| message := "Access denied to assign this ticket";
                  statusCode := 403 |})
        /\ (isAdmin req = true
            \/ Project.hasAccess p (User._id (user req)) CONTRIBUTOR = true ->
            (findActiveUser (db w) userId = None ->
             fst (TicketController.assignTicket req id userId w) =
             Throw {| message := "User not found or inactive";
                      statusCode := 404 |})
            /\ (findActiveUser (db w) userId <> None ->
                isAdmin req = false ->
                Project.hasAccess p userId VIEWER = false ->
                fst (TicketController.assignTicket req id userId w) =
                Throw {| message :=
                           "User does not have access to this project";
                         statusCode := 403 |}))).
Proof.
  split.
  - intros F. unfold TicketController.assignTicket, TicketController.loadTicket.
    reject_with F.
  - intros t p Ft Fp.
    assert (L : forall A (k : _ -> Handler A),
              bind (TicketController.loadTicket id "Ticket not found") k w
              = k (t, Some p) w).
    { intros A k. unfold bind.
      now rewrite (loadTicket_found _ _ _ _ _ Ft Fp). }
    unfold TicketController.assignTicket. rewrite !L. clear L.
    unfold denies. split.
    + intros A D. reject_with A.
    + intros G. split.
      * intros N. destruct G as [A|D].
        -- reject_with A.
        -- destruct (isAdmin req); reject_with D.
      * intros N A D.
        destruct G as [A'|D']; [congruence|].
        destruct (findActiveUser (db w) userId) eqn:Fa; [|congruence].
        reject_with A.
Qed.

Lemma createTicket_rejects req body w :
  (findActiveProject (db w) (TicketController.project body) = None ->
   fst (TicketController.createTicket req body w) =
   Throw {| message := "Project not found"; statusCode := 404 |})
  /\ (forall p,
        findActiveProject (db w) (TicketController.project body) = Some p ->
        (isAdmin req = false ->
         Project.hasAccess p (User._id (user req)) CONTRIBUTOR = false ->
         fst (TicketController.createTicket req body w) =
         Throw {| message := "Access denied to this project";
                  statusCode := 403 |})
        /\ (forall a,
              TicketController.assignedTo body = Some a ->
              isAdmin req = true
              \/ Project.hasAccess p (User._id (user req)) CONTRIBUTOR = true ->
              (findActiveUser (db w) a = None ->
               fst (TicketController.createTicket req body w) =
               Throw {| message := "Assigned user not found or inactive";
                        statusCode := 404 |})
              /\ (findActiveUser (db w) a <> None ->
                  isAdmin req = false ->
                  Project.hasAccess p a VIEWER = false ->
                  fst (TicketController.createTicket req body w) =
                  Throw {| message :=
                             "Assigned user does not have access to this project";
                           statusCode := 403 |}))).
Proof.
  unfold TicketController.createTicket, denies. split.
  - intros F. reject_with F.
  - intros p Fp. split.
    + intros A D. reject_with A.
    + intros a U G. split.
      * intros N. destruct G as [A|D].
        -- reject_with A.
        -- destruct (isAdmin req); reject_with D.
      * intros N A D.
        destruct G as [A'|D']; [congruence|].
        destruct (findActiveUser (db w) a) eqn:Fa; [|congruence].
        reject_with A.
Qed.

Lemma addProjectMember_rejects req id userId role w :
  (findActiveProject (db w) id = None ->
   fst (ProjectController.addProjectMember req id userId role w) =
   Throw {| message := "Project not found"; statusCode := 404 |})
  /\ (forall p,
        findActiveProject (db w) id = Some p ->
        (isAdmin req = false ->
         Project.createdBy p <> User._id (user req) ->
         fst (ProjectController.addProjectMember req id userId role w) =
         Throw {| message :=
                    "Access denied. Only admin or project creator can add members";
                  statusCode := 403 |})
        /\ (isAdmin req = true \/ Project.createdBy p = User._id (user req) ->
            (findActiveUser (db w) userId = None ->
             fst (ProjectController.addProjectMember req id userId role w) =
             Throw {| message := "User not found or inactive";
                      statusCode := 404 |})
            /\ (findActiveUser (db w) userId <> None ->
                (exists m, In m (Project.members p)
                           /\ Project.user m = userId) ->
                fst (ProjectController.addProjectMember req id userId role w) =
                Throw {| message := "User is already a member of this project";
                         statusCode := 400 |}))).
Proof.
  unfold ProjectController.addProjectMember. split.
  - intros F. reject_with F.
  - intros p Fp. split.
    + intros A C. apply String.eqb_neq in C. reject_with A.
    + intros G.
      assert (G' : negb (isAdmin req)
                   && negb (String.eqb (Project.createdBy p)
                                       (User._id (user req))) = false).
      { destruct G as [->| ->]; [reflexivity|].
        rewrite String.eqb_refl. apply andb_false_r. }
      split.
      * intros N. reject_with G'.
      * intros N (m & Hin & Hm).
        destruct (findActiveUser (db w) userId) eqn:Fa; [|congruence].
        assert (M : is_some
                      (find (fun member =>
                               String.eqb (Project.user member) userId)
                            (Project.members p)) = true).
        { destruct (find _ _) eqn:E; [reflexivity|].
          pose proof (find_none _ _ E m Hin) as X. cbn in X.
          rewrite Hm, String.eqb_refl in X. discriminate X. }
        reject_with G'.
Qed.



(** ** Notifications *)

Lemma updateNotices_status req u before after :
  filter isStatusUpdate (updateNotices req u before after) =
  if TicketStatus_eqb (Ticket.status (Ticket.p_ticket before))
                      (Ticket.status (Ticket.p_ticket after))
  then []
  else [EmailService.sendTicketStatusUpdateEmail after (user req)].
Proof.
  unfold updateNotices.
  destruct (TicketStatus_eqb _ _); cbn [negb app filter isStatusUpdate];
    destruct (Ticket.p_assignedTo after) as [a|]; try reflexivity;
    match goal with |- context [if ?c then _ else _] => destruct c end;
    reflexivity.
Qed.

Lemma statusUpdateRecipients_spec (pt : Ticket.populated) :
  NoDup (EmailService.statusUpdateRecipients pt)
  /\ (forall e,
        In e (EmailService.statusUpdateRecipients pt) <->
        (exists a, Ticket.p_assignedTo pt = Some a /\ User.email a = e)
        \/ (exists c, Ticket.p_createdBy pt = Some c /\ User.email c = e)).
Proof.
  unfold EmailService.statusUpdateRecipients.
  destruct (Ticket.p_assignedTo pt) as [a|], (Ticket.p_createdBy pt) as [c|];
    cbn [app].
  - destruct (String.eqb_spec (User.email c) (User.email a)) as [E|N];
      cbn [negb].
    + split.
      * repeat constructor. intros [].
      * intros e. cbn. split.
        -- intros [<-|[]]. left. eauto.
        -- intros [(a' & [= <-] & <-)|(c' & [= <-] & <-)]; auto.
    + split.
      * repeat constructor; cbn; intuition congruence.
      * intros e. cbn. split.
        -- intros [<-|[<-|[]]]; [left|right]; eauto.
        -- intros [(a' & [= <-] & <-)|(c' & [= <-] & <-)]; auto.
  - split.
    + repeat constructor. intros [].
    + intros e. cbn. split.
      * intros [<-|[]]. left. eauto.
      * intros [(a' & [= <-] & <-)|(c' & [=] & _)]; auto.
  - split.
    + repeat constructor. intros [].
    + intros e. cbn. split.
      * intros [<-|[]]. right. eauto.
      * intros [(a' & [=] & _)|(c' & [= <-] & <-)]; auto.
  - split.
    + constructor.
    + intros e. cbn. split.
      * intros [].
      * intros [(a' & [=] & _)|(c' & [=] & _)].
Qed.



(** C5 at the input where the code leaves it: an admin assigns ticket t1,
    already assigned to Carol, to Carol again through [assignTicket].  The
    stored assignee is the same before and after, and an assignment
    notification to Carol is requested all the same. *)
Lemma assignTicket_renotifies_same_assignee :
  Ticket.assignedTo (Scenario.ticket "t1" "p1" (Some "u3")) = Some "u3"
  /\ match TicketController.assignTicket
             (Scenario.by_ Scenario.alice 3000) "t1" "u3" Scenario.world with
     | (Ok pt, w') =>
         findById Ticket._id (tickets (db w')) "t1"
         = Some (Scenario.ticket "t1" "p1" (Some "u3"))
         /\ outbox w' =
            [EmailService.sendTicketAssignmentEmail
               pt Scenario.carol Scenario.alice]
     | (Throw _, _) => False
     end.
Proof.
  split; [reflexivity|]. vm_compute. split; reflexivity.
Qed.

(** ** Deleting projects and users *)

Lemma projectReferenced_find d id :
  projectReferenced d id <->
  find (fun t => String.eqb (Ticket.project t) id) (tickets d) <> None.
Proof.
  unfold projectReferenced. rewrite find_exists.
  split; intros (t & Hin & H); exists t; (split; [exact Hin|]).
  - subst id. apply String.eqb_refl.
  - now apply String.eqb_eq.
Qed.

Lemma userReferenced_test d userId :
  userReferenced d userId <-> hasAssociatedData d userId = true.
Proof.
  unfold userReferenced, hasAssociatedData.
  rewrite orb_true_iff.
  assert (S : forall A (o : option A), is_some o = true <-> o <> None).
  { intros A [x|]; cbn; split; congruence. }
  rewrite !S, !find_exists. split.
  - intros [(p & Hin & H)|(t & Hin & H)]; [left|right].
    + exists p. split; [exact Hin|]. subst userId. apply String.eqb_refl.
    + exists t. split; [exact Hin|]. apply orb_true_iff.
      destruct H as [H|H]; [left|right].
      * subst userId. apply String.eqb_refl.
      * rewrite H. apply String.eqb_refl.
  - intros [(p & Hin & H)|(t & Hin & H)]; [left|right].
    + exists p. split; [exact Hin|]. now apply String.eqb_eq.
    + exists t. split; [exact Hin|]. apply orb_true_iff in H.
      destruct H as [H|H]; [left; now apply String.eqb_eq|right].
      destruct (Ticket.assignedTo t) as [a|]; [|discriminate H].
      apply String.eqb_eq in H. now subst a.
Qed.

Lemma findActiveProject_id d id p :
  findActiveProject d id = Some p ->
  Project._id p = id /\ Project.isActive p = true
  /\ findById Project._id (projects d) id <> None.
Proof.
  unfold findActiveProject. intros F.
  apply find_some in F as [Hin H]. apply andb_true_iff in H as [Hid Hact].
  apply String.eqb_eq in Hid. repeat split; auto.
  unfold findById. apply find_exists. exists p. split; [exact Hin|].
  subst id. apply String.eqb_refl.
Qed.

(** C4, as the code has it.  Deleting an active project never fails: with
    a ticket that refers to it the project stays, archived and inactive
    and otherwise as it was; with none it is removed.  Deleting a user
    other than oneself never fails: a user who created a project, or
    created or is assigned a ticket, stays, deactivated and otherwise as
    they were; any other user is removed. *)
Theorem delete_degrades_to_soft_delete (req : Request) (w : World) :
  (forall id p,
     findActiveProject (db w) id = Some p ->
     (projectReferenced (db w) id ->
      exists w',
        ProjectController.deleteProject req id w = (Ok (Some (archived p)), w')
        /\ findById Project._id (projects (db w')) id = Some (archived p)
        /\ Project.isActive (archived p) = false
        /\ Project.status (archived p) = ARCHIVED
        /\ archived p =
           Project.set_status ARCHIVED (Project.set_isActive false p))
     /\ (~ projectReferenced (db w) id ->
         exists w',
           ProjectController.deleteProject req id w = (Ok None, w')
           /\ findById Project._id (projects (db w')) id = None))
  /\ (forall userId u,
        findById User._id (users (db w)) userId = Some u ->
        userId <> User._id (user req) ->
        (userReferenced (db w) userId ->
         exists w',
           UserController.deleteUser req userId w
           = (Ok (Some (User.set_isActive false u)), w')
           /\ findById User._id (users (db w')) userId
              = Some (User.set_isActive false u)
           /\ User.isActive (User.set_isActive false u) = false)
        /\ (~ userReferenced (db w) userId ->
            exists w',
              UserController.deleteUser req userId w = (Ok None, w')
              /\ findById User._id (users (db w')) userId = None)).
Proof.
  split.
  - intros id p F.
    destruct (findActiveProject_id _ _ _ F) as (Hid & _ & Hex).
    pose proof (deleteProject_effect req id w) as E.
    destruct (ProjectController.deleteProject req id w) as [[r|e] w'].
    2: { destruct E as (_ & N & _). congruence. }
    destruct E as (p0 & F0 & _ & E). rewrite F in F0. injection F0 as <-.
    split; intros Ref.
    + apply projectReferenced_find in Ref.
      destruct (find _ (tickets (db w))); [|congruence].
      destruct E as (-> & Hdb). exists w'. split; [reflexivity|].
      split; [|repeat split].
      rewrite Hdb. cbn [projects set_projects].
      rewrite <- Hid.
      change (Project._id p) with (Project._id (archived p)).
      apply findById_replace_same.
      change (Project._id (archived p)) with (Project._id p).
      now rewrite Hid.
    + destruct (find _ (tickets (db w))) eqn:T.
      * exfalso. apply Ref. apply projectReferenced_find. congruence.
      * destruct E as (-> & Hdb). exists w'. split; [reflexivity|].
        rewrite Hdb. cbn [projects set_projects].
        apply findById_delete_same.
  - intros userId u F Self.
    destruct (findById_id _ _ _ _ F) as [Hid _].
    pose proof (deleteUser_effect req userId w) as E.
    destruct (UserController.deleteUser req userId w) as [[r|e] w'] eqn:R.
    2: { exfalso. subst w'. revert R.
         unfold UserController.deleteUser. handler_unfold. cbn beta iota.
         rewrite F. cbn beta iota.
         replace (String.eqb (User._id u) (User._id (user req))) with false
           by (symmetry; apply String.eqb_neq; congruence).
         cbn beta iota.
         match goal with |- context [if ?c then _ else _] => destruct c end;
           discriminate. }
    destruct E as (u0 & F0 & _ & _ & E). rewrite F in F0. injection F0 as <-.
    split; intros Ref.
    + apply userReferenced_test in Ref. rewrite Ref in E.
      destruct E as (-> & Hdb). exists w'. split; [reflexivity|].
      split; [|reflexivity].
      rewrite Hdb. cbn [users set_users]. rewrite <- Hid.
      change (User._id u) with (User._id (User.set_isActive false u)).
      apply findById_replace_same.
      change (User._id (User.set_isActive false u)) with (User._id u).
      rewrite Hid, F. discriminate.
    + destruct (hasAssociatedData (db w) userId) eqn:T.
      * exfalso. apply Ref. now apply userReferenced_test.
      * destruct E as (-> & Hdb). exists w'. split; [reflexivity|].
        rewrite Hdb. cbn [users set_users]. apply findById_delete_same.
Qed.

Lemma delete_degrades_to_soft_delete_witness :
  exists w',
    ProjectController.deleteProject (Scenario.by_ Scenario.alice 3000) "p1"
      Scenario.world = (Ok (Some (archived Scenario.website)), w')
    /\ findById Project._id (projects (db w')) "p1"
       = Some (archived Scenario.website).
Proof.
  destruct (proj1 (proj1 (delete_degrades_to_soft_delete
              (Scenario.by_ Scenario.alice 3000) Scenario.world)
              "p1" Scenario.website eq_refl))
    as (w' & R & F & _).
  - exists (Scenario.ticket "t1" "p1" (Some "u3")).
    split; [left; reflexivity|reflexivity].
  - exists w'. split; [exact R|exact F].
Defined.

(** C4 as stated fails at two referenced records: the archived project p2,
    which a ticket still refers to, cannot be deleted again (404), and
    Alice, who created projects, cannot delete her own account (400). *)
Lemma delete_of_referenced_can_fail :
  projectReferenced (db Scenario.world) "p2"
  /\ findById Project._id (projects (db Scenario.world)) "p2"
     = Some Scenario.legacy
  /\ route (Scenario.by_ Scenario.alice 3000) (DELETE_project "p2")
       Scenario.world
     = (Throw {| message := "Project not found"; statusCode := 404 |},
        Scenario.world)
  /\ userReferenced (db Scenario.world) "u1"
  /\ findById User._id (users (db Scenario.world)) "u1" = Some Scenario.alice
  /\ route (Scenario.by_ Scenario.alice 3000) (DELETE_user "u1")
       Scenario.world
     = (Throw {| message := "Cannot delete your own account";
                 statusCode := 400 |},
        Scenario.world).
Proof.
  split; [|split; [|split; [|split; [|split]]]]; try reflexivity.
  - exists (Scenario.ticket "t2" "p2" None).
    split; [right; left; reflexivity|reflexivity].
  - left. exists Scenario.website. split; [left; reflexivity|reflexivity].
Qed.

(** ** Administration of users *)

(** C7, as the code has it.  Changing the role or the active flag of
    one's own account, or deleting it, is refused with status 400, whatever
    the role of the caller, and leaves the database and the outbox as they
    were. *)
Theorem self_administration_refused (req : Request) (w : World)
    (userId : ObjectId) (u : User.doc) :
  findById User._id (users (db w)) userId = Some u ->
  userId = User._id (user req) ->
  (forall role,
     UserController.updateUserRole req userId role w =
     (Throw {| message := "Cannot modify your own role"; statusCode := 400 |},
      w))
  /\ (forall isActive,
        UserController.updateUserStatus req userId isActive w =
        (Throw {| message := "Cannot modify your own status";
                  statusCode := 400 |}, w))
  /\ UserController.deleteUser req userId w =
     (Throw {| message := "Cannot delete your own account";
               statusCode := 400 |}, w)
  /\ findById User._id (users (db w)) userId = Some u.
Proof.
  intros F Self.
  destruct (findById_id _ _ _ _ F) as [Hid _].
  assert (E : String.eqb (User._id u) (User._id (user req)) = true)
    by (apply String.eqb_eq; congruence).
  unfold UserController.updateUserRole, UserController.updateUserStatus,
    UserController.deleteUser.
  handler_unfold. cbn beta iota. rewrite F. cbn beta iota.
  rewrite E. cbn beta iota. repeat split; auto.
Qed.

Lemma self_administration_refused_witness :
  UserController.deleteUser (Scenario.by_ Scenario.alice 3000) "u1"
    Scenario.world =
  (Throw {| message := "Cannot delete your own account"; statusCode := 400 |},
   Scenario.world).
Proof.
  apply (self_administration_refused (Scenario.by_ Scenario.alice 3000)
           Scenario.world "u1" Scenario.alice eq_refl eq_refl).
Defined.

(** C7 as stated fails: the refusal carries status 400, not the 403 that
    the access checks answer with; this for an ADMIN acting on herself,
    behind the route's [authorize('ADMIN')]. *)
Lemma self_administration_is_not_forbidden :
  User.role Scenario.alice = ADMIN
  /\ exists e,
       fst (route (Scenario.by_ Scenario.alice 3000)
              (PUT_user_role "u1" USER) Scenario.world) = Throw e
       /\ statusCode e = 400
       /\ statusCode e <> 403.
Proof.
  split; [reflexivity|]. eexists. split; [reflexivity|].
  split; [reflexivity|discriminate].
Qed.

(** * Further properties of the controllers *)

(** ** Project members *)

Lemma findIndex_split {A} (f : A -> bool) (l : list A) (i : nat) :
  ProjectController.findIndex f l = Some i ->
  exists l1 x l2,
    l = l1 ++ x :: l2 /\ List.length l1 = i /\ f x = true
    /\ (forall y, In y l1 -> f y = false).
Proof.
  revert i. induction l as [|a l IH]; cbn; intros i H; [discriminate|].
  destruct (f a) eqn:Fa.
  - injection H as <-. exists [], a, l. repeat split; auto. intros y [].
  - destruct (ProjectController.findIndex f l) as [j|]; [|discriminate].
    injection H as <-.
    destruct (IH j eq_refl) as (l1 & x & l2 & -> & <- & Fx & Hl1).
    exists (a :: l1), x, l2. repeat split; auto.
    intros y [<-|Hy]; auto.
Qed.

Lemma findIndex_find {A} (f : A -> bool) (l : list A) :
  ProjectController.findIndex f l = None <-> find f l = None.
Proof.
  induction l as [|a l IH]; cbn; [tauto|].
  destruct (f a); [split; discriminate|].
  destruct (ProjectController.findIndex f l); cbn; split; intros H;
    try discriminate; try (now apply IH); auto.
  destruct IH as [_ IH]. specialize (IH H). discriminate.
Qed.

Lemma splice1_split {A} (l1 l2 : list A) (x : A) :
  ProjectController.splice1 (List.length l1) (l1 ++ x :: l2) = l1 ++ l2.
Proof.
  unfold ProjectController.splice1.
  rewrite firstn_app, Nat.sub_diag, firstn_all, app_nil_r. cbn [firstn].
  replace (S (List.length l1)) with (List.length (l1 ++ [x]))
    by (rewrite length_app; cbn; lia).
  replace (l1 ++ x :: l2) with ((l1 ++ [x]) ++ l2)
    by (now rewrite <- app_assoc).
  rewrite skipn_app, Nat.sub_diag, skipn_all. reflexivity.
Qed.

Lemma find_app_none {A} (f : A -> bool) (l1 l2 : list A) :
  find f l1 = None -> find f (l1 ++ l2) = find f l2.
Proof.
  induction l1 as [|a l1 IH]; cbn; [reflexivity|].
  destruct (f a); [discriminate|exact IH].
Qed.

Lemma find_app_some {A} (f : A -> bool) (l1 l2 : list A) (x : A) :
  find f l1 = Some x -> find f (l1 ++ l2) = Some x.
Proof.
  induction l1 as [|a l1 IH]; cbn; [discriminate|].
  destruct (f a); [auto|exact IH].
Qed.

(** [hasAccess] reads the creator and the members only. *)
Lemma hasAccess_set_members (l : list Project.member) (p : Project.doc)
    (u : ObjectId) (level : MemberRole) :
  Project.hasAccess (Project.set_members l p) u level =
  if String.eqb (Project.createdBy p) u then true
  else match find (fun m => String.eqb (Project.user m) u) l with
       | Some m => roleGrants (Project.role m) level
       | None => false
       end.
Proof. reflexivity. Qed.

Lemma hasAccess_members (p : Project.doc) (u : ObjectId)
    (level : MemberRole) :
  Project.hasAccess p u level =
  if String.eqb (Project.createdBy p) u then true
  else match find (fun m => String.eqb (Project.user m) u)
                  (Project.members p) with
       | Some m => roleGrants (Project.role m) level
       | None => false
       end.
Proof. reflexivity. Qed.

Lemma mayManageMembers req p :
  negb (isAdmin req)
  && negb (String.eqb (Project.createdBy p) (User._id (user req))) = false ->
  isAdmin req = true \/ Project.createdBy p = User._id (user req).
Proof.
  intros H. apply andb_false_iff in H.
  destruct H as [H|H]; apply negb_false_iff in H; [now left|right].
  now apply String.eqb_eq.
Qed.

Lemma removeProjectMember_effect req id userId w :
  match ProjectController.removeProjectMember req id userId w with
  | (Throw _, w') => w' = w
  | (Ok _, w') =>
      exists p i,
        findActiveProject (db w) id = Some p
        /\ (isAdmin req = true
            \/ Project.createdBy p = User._id (user req))
        /\ ProjectController.findIndex
             (fun m => String.eqb (Project.user m) userId)
             (Project.members p) = Some i
        /\ db w' =
           set_projects
             (replaceById Project._id
                (Project.set_members
                   (ProjectController.splice1 i (Project.members p)) p)
                (projects (db w)))
             (db w)
        /\ outbox w' = outbox w
  end.
Proof.
  unfold ProjectController.removeProjectMember.
  handler_cases.
  do 2 eexists. split; [reflexivity|].
  split; [now apply mayManageMembers|]. repeat split; eauto.
Qed.

Lemma updateMemberRole_effect req id userId role w :
  match ProjectController.updateMemberRole req id userId role w with
  | (Throw _, w') => w' = w
  | (Ok p', w') =>
      exists p m,
        findActiveProject (db w) id = Some p
        /\ (isAdmin req = true
            \/ Project.createdBy p = User._id (user req))
        /\ find (fun m => String.eqb (Project.user m) userId)
                (Project.members p) = Some m
        /\ p' = Project.set_members
                  (ProjectController.writeFirst
                     (fun m => String.eqb (Project.user m) userId)
                     (ProjectController.set_member_role role)
                     (Project.members p)) p
        /\ db w' =
           set_projects (replaceById Project._id p' (projects (db w))) (db w)
        /\ outbox w' = outbox w
  end.
Proof.
  unfold ProjectController.updateMemberRole.
  handler_cases.
  do 2 eexists. split; [reflexivity|].
  split; [now apply mayManageMembers|]. repeat split; eauto.
Qed.

Lemma findActiveProject_in d id p :
  findActiveProject d id = Some p ->
  In p (projects d) /\ Project._id p = id /\ Project.isActive p = true.
Proof.
  unfold findActiveProject. intros F. apply find_some in F as [Hin H].
  apply andb_true_iff in H as [Hid Hact]. apply String.eqb_eq in Hid. auto.
Qed.

(** A successful [addProjectMember], with what it checked. *)
Lemma addProjectMember_ok req id userId role w p' w' :
  ProjectController.addProjectMember req id userId role w = (Ok p', w') ->
  exists p invited,
    findActiveProject (db w) id = Some p
    /\ (isAdmin req = true \/ Project.createdBy p = User._id (user req))
    /\ findActiveUser (db w) userId = Some invited
    /\ find (fun m => String.eqb (Project.user m) userId)
            (Project.members p) = None
    /\ p' = Project.set_members
              (Project.members p ++
               [{| Project.user := userId;
                   Project.role := or_else role CONTRIBUTOR;
                   Project.joinedAt := now req |}]) p
    /\ db w' =
       set_projects (replaceById Project._id p' (projects (db w))) (db w)
    /\ outbox w' =
       outbox w ++
       [EmailService.sendProjectInvitationEmail p' invited (user req)].
Proof.
  unfold ProjectController.addProjectMember.
  handler_cases; intros R; try discriminate R.
  injection R as <- <-.
  do 2 eexists. split; [reflexivity|].
  split; [now apply mayManageMembers|].
  split; [reflexivity|]. split; [|repeat split].
  match goal with H : is_some ?x = false |- _ =>
    destruct x; [discriminate H|reflexivity] end.
Qed.

Lemma not_member_iff (l : list Project.member) (u : ObjectId) :
  find (fun m => String.eqb (Project.user m) u) l = None <->
  ~ In u (map Project.user l).
Proof.
  rewrite find_none_iff. split.
  - intros H Hin. apply in_map_iff in Hin as (m & <- & Hm).
    specialize (H m Hm). cbn in H. now rewrite String.eqb_refl in H.
  - intros H m Hm. apply String.eqb_neq. intros E. apply H.
    apply in_map_iff. eauto.
Qed.

Lemma writeFirst_users (f : Project.member -> bool) (role : MemberRole)
    (l : list Project.member) :
  map Project.user
      (ProjectController.writeFirst f
         (ProjectController.set_member_role role) l)
  = map Project.user l.
Proof.
  induction l as [|a l IH]; cbn; [reflexivity|].
  destruct (f a); cbn; [reflexivity|now rewrite IH].
Qed.

Lemma uniqueMembers_added p userId role at_ :
  uniqueMembers p ->
  find (fun m => String.eqb (Project.user m) userId) (Project.members p)
  = None ->
  uniqueMembers
    (Project.set_members
       (Project.members p ++
        [{| Project.user := userId; Project.role := role;
            Project.joinedAt := at_ |}]) p).
Proof.
  unfold uniqueMembers. cbn [Project.members Project.set_members].
  intros U N. rewrite map_app. cbn [map Project.user].
  apply not_member_iff in N.
  apply NoDup_app; [exact U|repeat constructor; intros []|].
  intros x Hx [<-|[]]. now apply N.
Qed.

Lemma uniqueMembers_removed p i userId :
  uniqueMembers p ->
  ProjectController.findIndex (fun m => String.eqb (Project.user m) userId)
    (Project.members p) = Some i ->
  uniqueMembers
    (Project.set_members (ProjectController.splice1 i (Project.members p)) p).
Proof.
  unfold uniqueMembers. cbn [Project.members Project.set_members].
  intros U F. apply findIndex_split in F as (l1 & x & l2 & E & <- & _).
  rewrite E in *. rewrite splice1_split.
  rewrite map_app in *. cbn [map] in U.
  now apply NoDup_remove_1 in U.
Qed.

Lemma serve_uniqueMembers w rc :
  Forall uniqueMembers (projects (db w)) ->
  Forall uniqueMembers (projects (db (serve w rc))).
Proof.
  intros U. destruct rc as [req call]. unfold serve, route. cbn [fst snd].
  destruct call.
  - rewrite done_world.
    pose proof (createTicket_effect req body w) as E.
    destruct (TicketController.createTicket req body w) as [[pt|e] w'];
      cbn [snd]; [destruct E as (_ & _ & -> & _)|subst w']; exact U.
  - rewrite done_world.
    pose proof (updateTicket_effect req id updates w) as E.
    destruct (TicketController.updateTicket req id updates w) as [[pt|e] w'];
      cbn [snd]; [destruct E as (t & _ & _ & _ & -> & _)|subst w']; exact U.
  - pose proof (deleteTicket_effect req id w) as E.
    destruct (TicketController.deleteTicket req id w) as [[pt|e] w'];
      cbn [snd]; [destruct E as (-> & _)|subst w']; exact U.
  - rewrite done_world.
    pose proof (assignTicket_effect req id userId w) as E.
    destruct (TicketController.assignTicket req id userId w) as [[pt|e] w'];
      cbn [snd]; [destruct E as (t & _ & _ & _ & -> & _)|subst w']; exact U.
  - rewrite done_world.
    pose proof (unassignTicket_effect req id w) as E.
    destruct (TicketController.unassignTicket req id w) as [[pt|e] w'];
      cbn [snd]; [destruct E as (t & _ & _ & _ & -> & _)|subst w']; exact U.
  - destruct (authorize_then [ADMIN] req
                (done (ProjectController.deleteProject req id)) w) as [->| ->];
      [exact U|].
    rewrite done_world.
    pose proof (deleteProject_effect req id w) as E.
    destruct (ProjectController.deleteProject req id w) as [[r|e] w'];
      cbn [snd]; [|destruct E as (-> & _); exact U].
    destruct E as (p & F & _ & E).
    apply findActiveProject_in in F as (Hin & _).
    assert (Up : uniqueMembers p)
      by exact (proj1 (Forall_forall _ _) U p Hin).
    destruct (find _ _); destruct E as (_ & ->); cbn [projects set_projects].
    + apply Forall_replaceById; [exact Up|exact U].
    + now apply Forall_deleteById.
  - rewrite done_world.
    destruct (ProjectController.addProjectMember req id userId role w)
      as [[r|e] w'] eqn:R; cbn [snd].
    + destruct (addProjectMember_ok _ _ _ _ _ _ _ R)
        as (p & i & F & _ & _ & N & -> & -> & _).
      apply findActiveProject_in in F as (Hin & _).
      cbn [projects set_projects].
      apply Forall_replaceById; [|exact U].
      apply uniqueMembers_added; [|exact N].
      exact (proj1 (Forall_forall _ _) U p Hin).
    + pose proof (addProjectMember_effect req id userId role w) as E.
      rewrite R in E. subst w'. exact U.
  - destruct (authorize_then [ADMIN] req
                (done (UserController.updateUserRole req userId role)) w)
      as [->| ->]; [exact U|].
    rewrite done_world.
    pose proof (updateUserRole_effect req userId role w) as E.
    destruct (UserController.updateUserRole req userId role w)
      as [[r|e] w']; cbn [snd];
      [destruct E as (u & _ & _ & -> & _)|subst w']; exact U.
  - destruct (authorize_then [ADMIN] req
                (done (UserController.updateUserStatus req userId isActive)) w)
      as [->| ->]; [exact U|].
    rewrite done_world.
    pose proof (updateUserStatus_effect req userId isActive w) as E.
    destruct (UserController.updateUserStatus req userId isActive w)
      as [[r|e] w']; cbn [snd];
      [destruct E as (u & _ & _ & -> & _)|subst w']; exact U.
  - destruct (authorize_then [ADMIN] req
                (done (UserController.deleteUser req userId)) w)
      as [->| ->]; [exact U|].
    rewrite done_world.
    pose proof (deleteUser_effect req userId w) as E.
    destruct (UserController.deleteUser req userId w)
      as [[r|e] w']; cbn [snd]; [|subst w'; exact U].
    destruct E as (u & _ & _ & _ & E).
    destruct (hasAssociatedData _ _); destruct E as (_ & ->); exact U.
Qed.


Lemma scenario_uniqueMembers :
  Forall uniqueMembers (projects (db Scenario.world)).
Proof.
  repeat constructor; cbn; intuition discriminate.
Defined.


Lemma find_skip_middle {A} (f : A -> bool) (l1 l2 : list A) (x : A) :
  f x = false -> find f (l1 ++ x :: l2) = find f (l1 ++ l2).
Proof.
  intros Fx. induction l1 as [|a l1 IH]; cbn.
  - now rewrite Fx.
  - destruct (f a); [reflexivity|exact IH].
Qed.

Lemma findActiveProject_replaced d id p p' :
  findActiveProject d id = Some p ->
  Project._id p' = id ->
  Project.isActive p' = true ->
  findActiveProject
    (set_projects (replaceById Project._id p' (projects d)) d) id = Some p'.
Proof.
  unfold findActiveProject, replaceById. cbn [projects set_projects].
  intros F Hid Hact.
  induction (projects d) as [|a l IH]; cbn in *; [discriminate|].
  destruct (String.eqb_spec (Project._id a) (Project._id p')) as [E|N].
  - now rewrite Hid, String.eqb_refl, Hact.
  - rewrite Hid in N. destruct (String.eqb_spec (Project._id a) id) as [E'|_];
      [congruence|]. cbn in *. now apply IH.
Qed.

Lemma findById_project_replaced d id p p' :
  findActiveProject d id = Some p ->
  Project._id p' = id ->
  findById Project._id (replaceById Project._id p' (projects d)) id = Some p'.
Proof.
  intros F Hid. rewrite <- Hid. apply findById_replace_same.
  rewrite Hid. now apply findActiveProject_id in F as (_ & _ & F).
Qed.



(** X3. Removing a member takes out the first entry of that user and
    nothing else: the access of every other user is what it was, and when
    the project listed the user once, the removed user, unless the creator,
    has no access left at any level.  The caller is an admin or the creator;
    a user who is not a member is answered 404 and nothing changes. *)
Theorem removed_member_loses_access (req : Request) (id userId : ObjectId)
    (w : World) :
  (forall r w',
     ProjectController.removeProjectMember req id userId w = (Ok r, w') ->
     exists p p',
       findActiveProject (db w) id = Some p
       /\ findById Project._id (projects (db w')) id = Some p'
       /\ (isAdmin req = true \/ Project.createdBy p = User._id (user req))
       /\ Project.createdBy p' = Project.createdBy p
       /\ (exists before m after,
             Project.members p = before ++ m :: after
             /\ Project.user m = userId
             /\ ~ In userId (map Project.user before)
             /\ Project.members p' = before ++ after)
       /\ (forall u level,
             u <> userId ->
             Project.hasAccess p' u level = Project.hasAccess p u level)
       /\ (uniqueMembers p ->
           userId <> Project.createdBy p ->
           forall level, Project.hasAccess p' userId level = false))
  /\ (forall p,
        findActiveProject (db w) id = Some p ->
        isAdmin req = true \/ Project.createdBy p = User._id (user req) ->
        ~ In userId (map Project.user (Project.members p)) ->
        ProjectController.removeProjectMember req id userId w =
        (Throw {| message := "User is not a member of this project";
                  statusCode := 404 |}, w)).
Proof.
  split.
  - intros r w' R.
    pose proof (removeProjectMember_effect req id userId w) as E.
    rewrite R in E. destruct E as (p & i & F & G & Fi & -> & _).
    exists p. eexists. split; [exact F|]. cbn [projects set_projects].
    split; [apply (findById_project_replaced _ _ p); auto;
            now apply findActiveProject_in in F|].
    split; [exact G|]. split; [reflexivity|].
    apply findIndex_split in Fi as (l1 & m & l2 & E & <- & Fm & Hl1).
    apply String.eqb_eq in Fm.
    assert (N1 : ~ In userId (map Project.user l1)).
    { apply not_member_iff, find_none_iff. exact Hl1. }
    cbn [Project.members Project.set_members]. rewrite E, splice1_split.
    split; [exists l1, m, l2; auto|]. split.
    + intros u level Hu. rewrite hasAccess_set_members, hasAccess_members, E.
      destruct (String.eqb (Project.createdBy p) u); [reflexivity|].
      rewrite find_skip_middle; [reflexivity|].
      apply String.eqb_neq. congruence.
    + intros U Hc level. rewrite hasAccess_set_members.
      destruct (String.eqb_spec (Project.createdBy p) userId); [congruence|].
      replace (find _ (l1 ++ l2)) with (@None Project.member); [reflexivity|].
      symmetry. apply not_member_iff. rewrite map_app. intros Hin.
      unfold uniqueMembers in U. rewrite E, map_app in U. cbn [map] in U.
      apply NoDup_remove_2 in U. rewrite Fm in U. now apply U.
  - intros p F G N.
    apply not_member_iff, findIndex_find in N.
    assert (G' : negb (isAdmin req)
                 && negb (String.eqb (Project.createdBy p)
                                     (User._id (user req))) = false).
    { destruct G as [->| ->]; [reflexivity|].
      rewrite String.eqb_refl. apply andb_false_r. }
    unfold ProjectController.removeProjectMember.
    handler_unfold. cbn beta iota. rewrite F. cbn beta iota.
    rewrite G'. cbn beta iota. rewrite N. reflexivity.
Qed.

Lemma removed_member_loses_access_witness :
  match ProjectController.removeProjectMember
          (Scenario.by_ Scenario.alice 3000) "p1" "u2" Scenario.world with
  | (Ok _, w') =>
      exists p',
        findById Project._id (projects (db w')) "p1" = Some p'
        /\ Project.hasAccess p' "u3" MANAGER = true
  | (Throw _, _) => False
  end.
Proof.
  destruct (ProjectController.removeProjectMember _ _ _ _)
    as [[r|e] w'] eqn:R.
  - destruct (proj1 (removed_member_loses_access _ _ _ _) _ _ R)
      as (p & p' & F & F' & _ & _ & _ & H & _).
    vm_compute in F. injection F as <-.
    exists p'. split; [exact F'|].
    now rewrite (H "u3" MANAGER ltac:(discriminate)).
  - vm_compute in R. discriminate R.
Defined.

Lemma replaceById_back {A} (id_of : A -> ObjectId) (x y : A) (l : list A) :
  uniqueIds id_of l -> In x l -> id_of y = id_of x ->
  replaceById id_of x (replaceById id_of y l) = l.
Proof.
  unfold uniqueIds, replaceById. intros U Hin E.
  rewrite map_map. rewrite <- (map_id l) at 2.
  apply map_ext_in. intros a Ha.
  destruct (String.eqb_spec (id_of a) (id_of y)) as [Ea|Na].
  - rewrite E, String.eqb_refl.
    (* two documents of [l] with one identifier are one document *)
    rewrite E in Ea. clear - U Hin Ha Ea.
    induction l as [|b l IH]; [destruct Hin|].
    cbn in U. inversion U as [|? ? Hnot U']; subst.
    destruct Hin as [<-|Hin], Ha as [<-|Ha]; auto.
    + exfalso. apply Hnot. rewrite <- Ea. now apply in_map.
    + exfalso. apply Hnot. rewrite Ea. now apply in_map.
  - rewrite <- E. destruct (String.eqb_spec (id_of a) (id_of y)); congruence.
Qed.

Lemma findIndex_last {A} (f : A -> bool) (l : list A) (x : A) :
  find f l = None -> f x = true ->
  ProjectController.findIndex f (l ++ [x]) = Some (List.length l).
Proof.
  intros N Fx. induction l as [|a l IH]; cbn in *.
  - now rewrite Fx.
  - destruct (f a); [discriminate|]. now rewrite (IH N).
Qed.


Lemma scenario_uniqueIds :
  uniqueIds Project._id (projects (db Scenario.world)).
Proof.
  unfold uniqueIds. cbn. repeat constructor; cbn; intuition discriminate.
Defined.


Lemma find_writeFirst_same (userId : ObjectId) (role : MemberRole)
    (l : list Project.member) :
  find (fun m => String.eqb (Project.user m) userId)
       (ProjectController.writeFirst
          (fun m => String.eqb (Project.user m) userId)
          (ProjectController.set_member_role role) l)
  = option_map (ProjectController.set_member_role role)
      (find (fun m => String.eqb (Project.user m) userId) l).
Proof.
  induction l as [|a l IH]; cbn; [reflexivity|].
  destruct (String.eqb (Project.user a) userId) eqn:E; cbn.
  - now rewrite E.
  - now rewrite E, IH.
Qed.

Lemma find_writeFirst_other (userId u : ObjectId) (role : MemberRole)
    (l : list Project.member) :
  u <> userId ->
  find (fun m => String.eqb (Project.user m) u)
       (ProjectController.writeFirst
          (fun m => String.eqb (Project.user m) userId)
          (ProjectController.set_member_role role) l)
  = find (fun m => String.eqb (Project.user m) u) l.
Proof.
  intros Hu. induction l as [|a l IH]; cbn; [reflexivity|].
  destruct (String.eqb_spec (Project.user a) userId) as [E|N]; cbn.
  - destruct (String.eqb_spec (Project.user a) u); [congruence|reflexivity].
  - destruct (String.eqb (Project.user a) u); [reflexivity|exact IH].
Qed.

(** X5. Changing a member's role rewrites the role of that user's first
    entry in place: afterwards the stored project grants the user a level
    exactly when the new role reaches it (unless the user is the creator,
    who keeps full access), the list of members names the same users in the
    same order, and every other user's access is what it was.  The caller
    is an admin or the creator; for a user who is not a member the answer
    is 404 and nothing changes. *)
Theorem member_role_update (req : Request) (id userId : ObjectId)
    (role : MemberRole) (w : World) :
  (forall p' w',
     ProjectController.updateMemberRole req id userId role w = (Ok p', w') ->
     exists p,
       findActiveProject (db w) id = Some p
       /\ findById Project._id (projects (db w')) id = Some p'
       /\ (isAdmin req = true \/ Project.createdBy p = User._id (user req))
       /\ Project.createdBy p' = Project.createdBy p
       /\ map Project.user (Project.members p')
          = map Project.user (Project.members p)
       /\ (userId <> Project.createdBy p ->
           forall level,
             Project.hasAccess p' userId level = roleGrants role level)
       /\ (forall u level,
             u <> userId ->
             Project.hasAccess p' u level = Project.hasAccess p u level))
  /\ (forall p,
        findActiveProject (db w) id = Some p ->
        isAdmin req = true \/ Project.createdBy p = User._id (user req) ->
        ~ In userId (map Project.user (Project.members p)) ->
        ProjectController.updateMemberRole req id userId role w =
        (Throw {| message := "User is not a member of this project";
                  statusCode := 404 |}, w)).
Proof.
  split.
  - intros p' w' R.
    pose proof (updateMemberRole_effect req id userId role w) as E.
    rewrite R in E. destruct E as (p & m & F & G & Fm & -> & -> & _).
    exists p. split; [exact F|]. cbn [projects set_projects].
    split; [apply (findById_project_replaced _ _ p); auto;
            now apply findActiveProject_in in F|].
    split; [exact G|]. split; [reflexivity|].
    cbn [Project.members Project.set_members].
    split; [apply writeFirst_users|]. split.
    + intros Hc level. rewrite hasAccess_set_members.
      destruct (String.eqb_spec (Project.createdBy p) userId); [congruence|].
      now rewrite find_writeFirst_same, Fm.
    + intros u level Hu. rewrite hasAccess_set_members, hasAccess_members.
      now rewrite find_writeFirst_other.
  - intros p F G N. apply not_member_iff in N.
    assert (G' : negb (isAdmin req)
                 && negb (String.eqb (Project.createdBy p)
                                     (User._id (user req))) = false).
    { destruct G as [->| ->]; [reflexivity|].
      rewrite String.eqb_refl. apply andb_false_r. }
    unfold ProjectController.updateMemberRole.
    handler_unfold. cbn beta iota. rewrite F. cbn beta iota.
    rewrite G'. cbn beta iota. rewrite N. reflexivity.
Qed.

Lemma member_role_update_witness :
  match ProjectController.updateMemberRole
          (Scenario.by_ Scenario.alice 3000) "p1" "u2" VIEWER
          Scenario.world with
  | (Ok p', _) =>
      Project.hasAccess p' "u2" VIEWER = true
      /\ Project.hasAccess p' "u2" CONTRIBUTOR = false
  | (Throw _, _) => False
  end.
Proof.
  destruct (ProjectController.updateMemberRole _ _ _ _ _)
    as [[p'|e] w'] eqn:R.
  - destruct (proj1 (member_role_update _ _ _ _ _) _ _ R)
      as (p & F & _ & _ & _ & _ & H & _).
    vm_compute in F. injection F as <-.
    split; [apply (H ltac:(discriminate) VIEWER)
           |apply (H ltac:(discriminate) CONTRIBUTOR)].
  - vm_compute in R. discriminate R.
Defined.

(** ** Who may write and delete tickets *)

Ltac note_access :=
  repeat match goal with
         | H : negb (Project.hasAccess _ _ _) = false |- _ =>
             apply negb_false_iff in H
         | H : negb (String.eqb _ _) = false |- _ =>
             apply negb_false_iff in H
         | H : negb (Ticket.validate _) = false |- _ =>
             apply negb_false_iff in H
         end.

Lemma loadTicket_ok id msg w t po w' :
  TicketController.loadTicket id msg w = (Ok (t, po), w') ->
  w' = w
  /\ findById Ticket._id (tickets (db w)) id = Some t
  /\ exists p,
       po = Some p
       /\ findById Project._id (projects (db w)) (Ticket.project t) = Some p.
Proof.
  unfold TicketController.loadTicket. handler_cases; intros R;
    try discriminate R.
  injection R as <- <- <-. split; [reflexivity|]. split; [reflexivity|].
  match goal with
  | H : findById Project._id _ (Ticket.project _) = Some ?p |- _ =>
      exists p; split; [|exact H];
      destruct (findById_id _ _ _ _ H) as [E _]; rewrite E; exact H
  end.
Qed.

Lemma bind_loadTicket {A} id msg (k : _ -> Handler A) w r w' :
  bind (TicketController.loadTicket id msg) k w = (Ok r, w') ->
  exists t p,
    findById Ticket._id (tickets (db w)) id = Some t
    /\ findById Project._id (projects (db w)) (Ticket.project t) = Some p
    /\ k (t, Some p) w = (Ok r, w').
Proof.
  unfold bind at 1.
  destruct (TicketController.loadTicket id msg w) as [[[t po]|e] w0] eqn:L;
    [|discriminate].
  destruct (loadTicket_ok _ _ _ _ _ _ L) as (-> & Ft & p & -> & Fp).
  intros R. eauto.
Qed.

(** A successful [updateTicket], with what it checked. *)
Lemma updateTicket_checked req id u w pt w' :
  TicketController.updateTicket req id u w = (Ok pt, w') ->
  exists t p,
    findById Ticket._id (tickets (db w)) id = Some t
    /\ findById Project._id (projects (db w)) (Ticket.project t) = Some p
    /\ (isAdmin req = true
        \/ Project.hasAccess p (User._id (user req)) CONTRIBUTOR = true)
    /\ (forall a,
          TicketController.u_assignedTo u = Some (Some a) ->
          findActiveUser (db w) a <> None
          /\ (isAdmin req = true \/ Project.hasAccess p a VIEWER = true))
    /\ Ticket.validate (patched u t) = true.
Proof.
  unfold TicketController.updateTicket. intros R.
  apply bind_loadTicket in R as (t & p & Ft & Fp & R).
  exists t, p. split; [exact Ft|]. split; [exact Fp|].
  pose proof (applyUpdates_loaded u t) as AU.
  revert R. unfold Ticket_save, denies. handler_cases; intros R;
    try discriminate R; note_access.
  all: rewrite AU in *;
       cbn [Ticket.fields Ticket.assign_modifiedBy] in *.
  all: (split; [now auto|]); (split; [|assumption]).
  all: intros a' Ha;
       match goal with
       | H : TicketController.u_assignedTo _ = Some (Some ?b) |- _ =>
           assert (a' = b) as -> by congruence; split; [congruence|now auto]
       | _ => congruence
       end.
Qed.

Lemma assignTicket_checked req id userId w pt w' :
  TicketController.assignTicket req id userId w = (Ok pt, w') ->
  exists t p,
    findById Ticket._id (tickets (db w)) id = Some t
    /\ findById Project._id (projects (db w)) (Ticket.project t) = Some p
    /\ (isAdmin req = true
        \/ Project.hasAccess p (User._id (user req)) CONTRIBUTOR = true)
    /\ findActiveUser (db w) userId <> None
    /\ (isAdmin req = true \/ Project.hasAccess p userId VIEWER = true).
Proof.
  unfold TicketController.assignTicket. intros R.
  apply bind_loadTicket in R as (t & p & Ft & Fp & R).
  exists t, p. split; [exact Ft|]. split; [exact Fp|].
  revert R. unfold Ticket_save, denies. handler_cases; intros R;
    try discriminate R; note_access.
  all: repeat split; auto; congruence.
Qed.

Lemma unassignTicket_checked req id w pt w' :
  TicketController.unassignTicket req id w = (Ok pt, w') ->
  exists t p,
    findById Ticket._id (tickets (db w)) id = Some t
    /\ findById Project._id (projects (db w)) (Ticket.project t) = Some p
    /\ (isAdmin req = true
        \/ Project.hasAccess p (User._id (user req)) CONTRIBUTOR = true).
Proof.
  unfold TicketController.unassignTicket. intros R.
  apply bind_loadTicket in R as (t & p & Ft & Fp & R).
  exists t, p. split; [exact Ft|]. split; [exact Fp|].
  revert R. unfold Ticket_save, denies. handler_cases; intros R;
    try discriminate R; note_access; auto.
Qed.

Lemma createTicket_checked req body w pt w' :
  TicketController.createTicket req body w = (Ok pt, w') ->
  exists p,
    findActiveProject (db w) (TicketController.project body) = Some p
    /\ (isAdmin req = true
        \/ Project.hasAccess p (User._id (user req)) CONTRIBUTOR = true)
    /\ (forall a,
          TicketController.assignedTo body = Some a ->
          findActiveUser (db w) a <> None
          /\ (isAdmin req = true \/ Project.hasAccess p a VIEWER = true)).
Proof.
  unfold TicketController.createTicket, Ticket_create, denies.
  handler_cases; intros R; try discriminate R; note_access.
  all: eexists; split; [reflexivity|].
  all: split; [now auto|].
  all: intros a' Ha;
       match goal with
       | H : TicketController.assignedTo _ = Some ?b |- _ =>
           assert (a' = b) as -> by congruence; split; [congruence|now auto]
       | _ => congruence
       end.
Qed.

(** X6. Tickets are written by admins and contributors only.  When
    [createTicket], [updateTicket], [assignTicket] or [unassignTicket]
    succeeds, the caller is an admin or has CONTRIBUTOR access to the
    ticket's project (for a new ticket an active project); and an assignee
    it accepts is an active user who, unless the caller is an admin, has
    access to that project. *)
Theorem ticket_writes_are_authorised (req : Request) (w : World) :
  (forall body pt w',
     TicketController.createTicket req body w = (Ok pt, w') ->
     exists p,
       findActiveProject (db w) (TicketController.project body) = Some p
       /\ (isAdmin req = true
           \/ Project.hasAccess p (User._id (user req)) CONTRIBUTOR = true)
       /\ (forall a,
             TicketController.assignedTo body = Some a ->
             findActiveUser (db w) a <> None
             /\ (isAdmin req = true
                 \/ Project.hasAccess p a VIEWER = true)))
  /\ (forall id u pt w',
        TicketController.updateTicket req id u w = (Ok pt, w') ->
        exists t p,
          findById Ticket._id (tickets (db w)) id = Some t
          /\ findById Project._id (projects (db w)) (Ticket.project t)
             = Some p
          /\ (isAdmin req = true
              \/ Project.hasAccess p (User._id (user req)) CONTRIBUTOR
                 = true)
          /\ (forall a,
                TicketController.u_assignedTo u = Some (Some a) ->
                findActiveUser (db w) a <> None
                /\ (isAdmin req = true
                    \/ Project.hasAccess p a VIEWER = true)))
  /\ (forall id userId pt w',
        TicketController.assignTicket req id userId w = (Ok pt, w') ->
        exists t p,
          findById Ticket._id (tickets (db w)) id = Some t
          /\ findById Project._id (projects (db w)) (Ticket.project t)
             = Some p
          /\ (isAdmin req = true
              \/ Project.hasAccess p (User._id (user req)) CONTRIBUTOR
                 = true)
          /\ findActiveUser (db w) userId <> None
          /\ (isAdmin req = true
              \/ Project.hasAccess p userId VIEWER = true))
  /\ (forall id pt w',
        TicketController.unassignTicket req id w = (Ok pt, w') ->
        exists t p,
          findById Ticket._id (tickets (db w)) id = Some t
          /\ findById Project._id (projects (db w)) (Ticket.project t)
             = Some p
          /\ (isAdmin req = true
              \/ Project.hasAccess p (User._id (user req)) CONTRIBUTOR
                 = true)).
Proof.
  split; [|split; [|split]].
  - intros body pt w' R. now apply createTicket_checked in R.
  - intros id u pt w' R.
    destruct (updateTicket_checked _ _ _ _ _ _ R)
      as (t & p & Ft & Fp & G & Ha & _). eauto 8.
  - intros id userId pt w' R. now apply assignTicket_checked in R.
  - intros id pt w' R. now apply unassignTicket_checked in R.
Qed.

Lemma ticket_writes_are_authorised_witness :
  match TicketController.updateTicket (Scenario.by_ Scenario.bob 3000) "t1"
          (Scenario.setStatus RESOLVED) Scenario.world with
  | (Ok _, _) => Project.hasAccess Scenario.website "u2" CONTRIBUTOR = true
  | (Throw _, _) => False
  end.
Proof.
  destruct (TicketController.updateTicket _ _ _ _) as [[pt|e] w'] eqn:R.
  - destruct (proj1 (proj2 (ticket_writes_are_authorised _ _)) _ _ _ _ R)
      as (t & p & Ft & Fp & G & _).
    vm_compute in Ft. injection Ft as <-.
    vm_compute in Fp. injection Fp as <-.
    destruct G as [G|G]; [discriminate G|exact G].
  - vm_compute in R. discriminate R.
Defined.

Ltac note_denied :=
  repeat match goal with
         | H : negb _ = true |- _ => apply negb_true_iff in H
         end.

Lemma updateTicket_succeeds req id u w t p :
  findById Ticket._id (tickets (db w)) id = Some t ->
  findById Project._id (projects (db w)) (Ticket.project t) = Some p ->
  isAdmin req = true
  \/ Project.hasAccess p (User._id (user req)) CONTRIBUTOR = true ->
  (forall a,
     TicketController.u_assignedTo u = Some (Some a) ->
     findActiveUser (db w) a <> None
     /\ (isAdmin req = true \/ Project.hasAccess p a VIEWER = true)) ->
  Ticket.validate (patched u t) = true ->
  exists pt w', TicketController.updateTicket req id u w = (Ok pt, w').
Proof.
  intros Ft Fp G Ha V.
  assert (Fp' : findById Project._id (projects (db w)) (Project._id p)
                = Some p).
  { destruct (findById_id _ _ _ _ Fp) as [E _]. now rewrite E. }
  pose proof (applyUpdates_loaded u t) as AU.
  unfold TicketController.updateTicket, TicketController.loadTicket.
  handler_unfold. cbn beta iota. rewrite Ft. cbn beta iota.
  rewrite Fp. cbn beta iota. rewrite Fp'. cbn beta iota.
  unfold Ticket_save, denies. rewrite AU.
  cbn [Ticket.fields Ticket.assign_modifiedBy]. rewrite V.
  handler_cases.
  all: try (do 2 eexists; reflexivity).
  all: exfalso; note_denied.
  all: try (destruct G; congruence).
  all: destruct (Ha _ eq_refl) as [? [?|?]]; congruence.
Qed.



Lemma deleteTicket_checked req id w r w' :
  TicketController.deleteTicket req id w = (Ok r, w') ->
  exists t p,
    findById Ticket._id (tickets (db w)) id = Some t
    /\ findById Project._id (projects (db w)) (Ticket.project t) = Some p
    /\ (isAdmin req = true
        \/ Project.createdBy p = User._id (user req)
        \/ Ticket.createdBy t = User._id (user req)).
Proof.
  unfold TicketController.deleteTicket. intros R.
  apply bind_loadTicket in R as (t & p & Ft & Fp & R).
  exists t, p. split; [exact Ft|]. split; [exact Fp|].
  revert R. handler_cases; intros R; try discriminate R.
  match goal with
  | H : _ && _ && _ = false |- _ =>
      apply andb_false_iff in H as [H|H];
      [apply andb_false_iff in H as [H|H]|];
      apply negb_false_iff in H
  end.
  - now left.
  - right; left. now apply String.eqb_eq.
  - right; right. now apply String.eqb_eq.
Qed.

Lemma deleteTicket_runs req id w t p :
  findById Ticket._id (tickets (db w)) id = Some t ->
  findById Project._id (projects (db w)) (Ticket.project t) = Some p ->
  TicketController.deleteTicket req id w =
  if negb (isAdmin req)
     && negb (String.eqb (Project.createdBy p) (User._id (user req)))
     && negb (String.eqb (Ticket.createdBy t) (User._id (user req)))
  then (Throw {| message :=
                   "Access denied. Only admin, project creator, or ticket creator can delete tickets";
                 statusCode := 403 |}, w)
  else (Ok tt,
        {| db := set_tickets (deleteById Ticket._id id (tickets (db w)))
                             (db w);
           outbox := outbox w |}).
Proof.
  intros Ft Fp.
  assert (Fp' : findById Project._id (projects (db w)) (Project._id p)
                = Some p).
  { destruct (findById_id _ _ _ _ Fp) as [E _]. now rewrite E. }
  unfold TicketController.deleteTicket, TicketController.loadTicket.
  handler_unfold. cbn beta iota. rewrite Ft. cbn beta iota.
  rewrite Fp. cbn beta iota. rewrite Fp'. cbn beta iota.
  destruct (negb (isAdmin req) && _ && _); reflexivity.
Qed.

(** X8. A ticket is deleted by an admin, by the creator of its project or
    by its own creator, and by nobody else: [deleteTicket] succeeds exactly
    for them, whatever role a member holds in the project; any other caller
    is answered 403 and nothing changes.  After the delete no ticket has
    the identifier, and every other ticket, the projects, the users and the
    outbox are as before. *)
Theorem deleteTicket_permission (req : Request) (id : ObjectId) (w : World) :
  ((exists w', TicketController.deleteTicket req id w = (Ok tt, w'))
   <->
   (exists t p,
      findById Ticket._id (tickets (db w)) id = Some t
      /\ findById Project._id (projects (db w)) (Ticket.project t) = Some p
      /\ (isAdmin req = true
          \/ Project.createdBy p = User._id (user req)
          \/ Ticket.createdBy t = User._id (user req))))
  /\ (forall t p,
        findById Ticket._id (tickets (db w)) id = Some t ->
        findById Project._id (projects (db w)) (Ticket.project t) = Some p ->
        isAdmin req = false ->
        Project.createdBy p <> User._id (user req) ->
        Ticket.createdBy t <> User._id (user req) ->
        TicketController.deleteTicket req id w =
        (Throw {| message :=
                    "Access denied. Only admin, project creator, or ticket creator can delete tickets";
                  statusCode := 403 |}, w))
  /\ (forall r w',
        TicketController.deleteTicket req id w = (Ok r, w') ->
        findById Ticket._id (tickets (db w')) id = None
        /\ (forall id',
              id' <> id ->
              findById Ticket._id (tickets (db w')) id'
              = findById Ticket._id (tickets (db w)) id')
        /\ projects (db w') = projects (db w)
        /\ users (db w') = users (db w)
        /\ outbox w' = outbox w).
Proof.
  split; [split|split].
  - intros (w' & R). now apply deleteTicket_checked in R.
  - intros (t & p & Ft & Fp & G).
    rewrite (deleteTicket_runs req id w t p Ft Fp).
    replace (negb (isAdmin req) && _ && _) with false; [eauto|].
    symmetry. destruct G as [->|[->| ->]]; cbn [negb andb];
      rewrite ?String.eqb_refl; cbn [negb];
      rewrite ?andb_false_r; reflexivity.
  - intros t p Ft Fp A Np Nt.
    rewrite (deleteTicket_runs req id w t p Ft Fp), A.
    apply String.eqb_neq in Np, Nt. now rewrite Np, Nt.
  - intros r w' R.
    pose proof (deleteTicket_effect req id w) as E. rewrite R in E.
    destruct E as [-> ->]. cbn [tickets set_tickets projects users].
    split; [apply findById_delete_same|].
    split; [intros id' N; now apply findById_delete_other|].
    now destruct (db w).
Qed.

Lemma deleteTicket_permission_witness :
  exists w',
    TicketController.deleteTicket (Scenario.by_ Scenario.bob 3000) "t1"
      Scenario.world = (Ok tt, w').
Proof.
  apply (proj1 (deleteTicket_permission _ _ _)).
  exists (Scenario.ticket "t1" "p1" (Some "u3")), Scenario.website.
  split; [reflexivity|]. split; [reflexivity|].
  right; right; reflexivity.
Defined.

(** ** Archived projects and deactivated users *)

Lemma findById_unique {A} (id_of : A -> ObjectId) (l : list A) (x : A) :
  uniqueIds id_of l -> In x l -> findById id_of l (id_of x) = Some x.
Proof.
  unfold uniqueIds, findById. induction l as [|a l IH]; cbn; [intros _ []|].
  intros U Hin. inversion U as [|? ? Hnot U']; subst.
  destruct Hin as [->|Hin]; [now rewrite String.eqb_refl|].
  destruct (String.eqb_spec (id_of a) (id_of x)) as [E|_]; [|auto].
  exfalso. apply Hnot. rewrite E. now apply in_map.
Qed.

Lemma findActiveProject_archived (p : Project.doc) (l : list Project.doc)
    (d : Database) :
  findActiveProject
    (set_projects (replaceById Project._id (archived p) l) d)
    (Project._id p) = None.
Proof.
  unfold findActiveProject, replaceById. cbn [projects set_projects].
  apply find_none_iff. intros x Hx.
  apply in_map_iff in Hx as (a & <- & _).
  change (Project._id (archived p)) with (Project._id p).
  destruct (String.eqb_spec (Project._id a) (Project._id p)) as [E|N].
  - apply andb_false_r.
  - apply String.eqb_neq in N. now rewrite N.
Qed.

Lemma findActiveUser_deactivated (u : User.doc) (l : list User.doc)
    (d : Database) :
  findActiveUser
    (set_users (replaceById User._id (User.set_isActive false u) l) d)
    (User._id u) = None.
Proof.
  unfold findActiveUser, replaceById. cbn [users set_users].
  apply find_none_iff. intros x Hx.
  apply in_map_iff in Hx as (a & <- & _).
  change (User._id (User.set_isActive false u)) with (User._id u).
  destruct (String.eqb_spec (User._id a) (User._id u)) as [E|N].
  - apply andb_false_r.
  - apply String.eqb_neq in N. now rewrite N.
Qed.

Lemma findActiveUser_deleted (id : ObjectId) (l : list User.doc)
    (d : Database) :
  findActiveUser (set_users (deleteById User._id id l) d) id = None.
Proof.
  unfold findActiveUser, deleteById. cbn [users set_users].
  apply find_none_iff. intros x Hx.
  apply filter_In in Hx as [_ Hx]. apply negb_true_iff in Hx.
  now rewrite Hx.
Qed.

Lemma hasAccess_ext (p p' : Project.doc) (u : ObjectId) (level : MemberRole) :
  Project.createdBy p' = Project.createdBy p ->
  Project.members p' = Project.members p ->
  Project.hasAccess p' u level = Project.hasAccess p u level.
Proof.
  intros Hc Hm. rewrite !hasAccess_members. now rewrite Hc, Hm.
Qed.

(** [updateTicket] reads the tickets, the users, and of the projects the
    creator and the members. *)
Lemma updateTicket_same_answer (w w' : World) req id u :
  tickets (db w') = tickets (db w) ->
  users (db w') = users (db w) ->
  (forall pid p,
     findById Project._id (projects (db w)) pid = Some p ->
     exists p',
       findById Project._id (projects (db w')) pid = Some p'
       /\ Project.createdBy p' = Project.createdBy p
       /\ Project.members p' = Project.members p) ->
  (exists pt w2, TicketController.updateTicket req id u w = (Ok pt, w2)) ->
  exists pt w2, TicketController.updateTicket req id u w' = (Ok pt, w2).
Proof.
  intros Ht Hu Hp (pt & w2 & R).
  destruct (updateTicket_checked _ _ _ _ _ _ R)
    as (t & p & Ft & Fp & G & Ha & V).
  destruct (Hp _ _ Fp) as (p' & Fp' & Hc & Hm).
  apply (updateTicket_succeeds req id u w' t p').
  - now rewrite Ht.
  - exact Fp'.
  - now rewrite (hasAccess_ext p p').
  - intros a E. destruct (Ha a E) as [Fa Ga]. split.
    + unfold findActiveUser in *. now rewrite Hu.
    + now rewrite (hasAccess_ext p p').
  - exact V.
Qed.

(** X9. An archived project takes no new work, but its tickets stay
    editable.  After [deleteProject] has archived a project (it had
    tickets), no active project has its identifier: creating a ticket in
    it, adding or removing a member, changing a member's role and deleting
    it again are all answered 404 "Project not found" and change
    nothing.  [updateTicket], which looks the project up without asking
    whether it is active, succeeds on every ticket for the same callers and
    updates as before the project was archived. *)
Theorem archived_project_is_closed (req : Request) (id : ObjectId)
    (w w' : World) (a : Project.doc) :
  uniqueIds Project._id (projects (db w)) ->
  ProjectController.deleteProject req id w = (Ok (Some a), w') ->
  findActiveProject (db w') id = None
  /\ (forall req' body,
        TicketController.project body = id ->
        TicketController.createTicket req' body w' = (projectNotFound, w'))
  /\ (forall req' userId role,
        ProjectController.addProjectMember req' id userId role w'
        = (projectNotFound, w'))
  /\ (forall req' userId,
        ProjectController.removeProjectMember req' id userId w'
        = (projectNotFound, w'))
  /\ (forall req' userId role,
        ProjectController.updateMemberRole req' id userId role w'
        = (projectNotFound, w'))
  /\ (forall req',
        ProjectController.deleteProject req' id w' = (projectNotFound, w'))
  /\ (forall req' tid u,
        (exists pt w2,
           TicketController.updateTicket req' tid u w' = (Ok pt, w2))
        <->
        (exists pt w2,
           TicketController.updateTicket req' tid u w = (Ok pt, w2))).
Proof.
  intros U R. unfold projectNotFound.
  pose proof (deleteProject_effect req id w) as E. rewrite R in E.
  destruct E as (p & F & _ & E).
  destruct (find _ _) as [t0|]; destruct E as (Ea & Hdb); [|discriminate Ea].
  injection Ea as ->.
  destruct (findActiveProject_in _ _ _ F) as (Hin & Hid & _).
  assert (N : findActiveProject (db w') id = None).
  { rewrite Hdb, <- Hid. apply findActiveProject_archived. }
  assert (Fp : findById Project._id (projects (db w)) id = Some p).
  { rewrite <- Hid. now apply findById_unique. }
  assert (Fp' : findById Project._id (projects (db w')) id
                = Some (archived p)).
  { rewrite Hdb. cbn [projects set_projects].
    rewrite <- Hid. apply (findById_replace_same Project._id (archived p)).
    change (Project._id (archived p)) with (Project._id p).
    rewrite Hid, Fp. discriminate. }
  assert (Fo : forall pid, pid <> id ->
                 findById Project._id (projects (db w')) pid
                 = findById Project._id (projects (db w)) pid).
  { intros pid Hne. rewrite Hdb. cbn [projects set_projects].
    apply findById_replace_other.
    change (Project._id (archived p)) with (Project._id p). congruence. }
  assert (Ht : tickets (db w') = tickets (db w))
    by (rewrite Hdb; now destruct (db w)).
  assert (Hu : users (db w') = users (db w))
    by (rewrite Hdb; now destruct (db w)).
  split; [exact N|]. split; [|split; [|split; [|split; [|split]]]].
  - intros req' body <-.
    unfold TicketController.createTicket. handler_unfold. cbn beta iota.
    now rewrite N.
  - intros req' userId role.
    unfold ProjectController.addProjectMember. handler_unfold.
    cbn beta iota. now rewrite N.
  - intros req' userId.
    unfold ProjectController.removeProjectMember. handler_unfold.
    cbn beta iota. now rewrite N.
  - intros req' userId role.
    unfold ProjectController.updateMemberRole. handler_unfold.
    cbn beta iota. now rewrite N.
  - intros req'.
    unfold ProjectController.deleteProject. handler_unfold.
    cbn beta iota. now rewrite N.
  - intros req' tid u. split; apply updateTicket_same_answer; auto.
    + intros pid q Fq. destruct (String.eqb_spec pid id) as [->|Hne].
      * rewrite Fp' in Fq. injection Fq as <-. exists p. auto.
      * rewrite (Fo pid Hne) in Fq. exists q. auto.
    + intros pid q Fq. destruct (String.eqb_spec pid id) as [->|Hne].
      * rewrite Fp in Fq. injection Fq as <-. exists (archived p). auto.
      * exists q. rewrite (Fo pid Hne). auto.
Qed.

Lemma archived_project_is_closed_witness :
  match ProjectController.deleteProject
          (Scenario.by_ Scenario.alice 3000) "p1" Scenario.world with
  | (Ok (Some _), w') =>
      findActiveProject (db w') "p1" = None
      /\ exists pt w2,
           TicketController.updateTicket
             (Scenario.by_ Scenario.bob 3001) "t1"
             (Scenario.setStatus RESOLVED) w' = (Ok pt, w2)
  | _ => False
  end.
Proof.
  destruct (ProjectController.deleteProject _ _ _) as [[[a|]|e] w'] eqn:R.
  - destruct (archived_project_is_closed _ _ _ _ _ scenario_uniqueIds R)
      as (N & _ & _ & _ & _ & _ & H).
    split; [exact N|]. apply H. vm_compute. eauto.
  - vm_compute in R. discriminate R.
  - vm_compute in R. discriminate R.
Defined.

(** ** Authentication *)

Lemma authenticate_next verify changedPasswordAfter header d u :
  Auth.authenticate verify changedPasswordAfter header d = Auth.Next u ->
  exists h iat,
    header = Some h
    /\ String.prefix "Bearer " h = true
    /\ verify (String.substring 7 (String.length h - 7) h)
       = Auth.Decoded (User._id u) iat
    /\ findById User._id (users d) (User._id u) = Some u
    /\ User.isActive u = true
    /\ changedPasswordAfter u iat = false.
Proof.
  unfold Auth.authenticate.
  destruct header as [h|]; [|discriminate].
  destruct (String.prefix "Bearer " h) eqn:P; cbn [negb]; [|discriminate].
  destruct (verify _) as [id iat| | |] eqn:V; try discriminate.
  destruct (findById User._id (users d) id) as [u0|] eqn:F; [|discriminate].
  destruct (User.isActive u0) eqn:A; cbn [negb]; [|discriminate].
  destruct (changedPasswordAfter u0 iat) eqn:C; [discriminate|].
  intros [= <-]. destruct (findById_id _ _ _ _ F) as [E _].
  exists h, iat. rewrite E. auto 6.
Qed.



(** X11. A deactivated or deleted user is locked out.  Once
    [updateUserStatus] has set a user inactive, or [deleteUser] has
    deactivated or removed the user, [authenticate] lets no request through
    as that user, whatever the token, and the user is accepted neither as
    the assignee of a ticket (by [createTicket], [updateTicket] or
    [assignTicket]) nor as a new project member. *)
Theorem deactivated_user_is_locked_out (req : Request) (userId : ObjectId)
    (w w' : World)
    (H : (exists u', UserController.updateUserStatus req userId false w
                     = (Ok u', w'))
         \/ (exists r, UserController.deleteUser req userId w = (Ok r, w'))) :
  (forall verify changedPasswordAfter header u,
     Auth.authenticate verify changedPasswordAfter header (db w')
     = Auth.Next u ->
     User._id u <> userId)
  /\ (forall req' id pt w2,
        TicketController.assignTicket req' id userId w' <> (Ok pt, w2))
  /\ (forall req' body pt w2,
        TicketController.assignedTo body = Some userId ->
        TicketController.createTicket req' body w' <> (Ok pt, w2))
  /\ (forall req' id u pt w2,
        TicketController.u_assignedTo u = Some (Some userId) ->
        TicketController.updateTicket req' id u w' <> (Ok pt, w2))
  /\ (forall req' id role p w2,
        ProjectController.addProjectMember req' id userId role w'
        <> (Ok p, w2)).
Proof.
  assert (S : findActiveUser (db w') userId = None
              /\ forall u, findById User._id (users (db w')) userId = Some u ->
                           User.isActive u = false).
  { destruct H as [(u' & R)|(r & R)].
    - pose proof (updateUserStatus_effect req userId false w) as E.
      rewrite R in E. destruct E as (u & F & -> & -> & _).
      destruct (findById_id _ _ _ _ F) as [Hid _]. split.
      + rewrite <- Hid. apply findActiveUser_deactivated.
      + cbn [users set_users]. intros v Fv. rewrite <- Hid in Fv.
        rewrite (findById_replace_same User._id (User.set_isActive false u))
          in Fv.
        * now injection Fv as <-.
        * change (User._id (User.set_isActive false u)) with (User._id u).
          rewrite Hid, F. discriminate.
    - pose proof (deleteUser_effect req userId w) as E.
      rewrite R in E. destruct E as (u & F & _ & _ & E).
      destruct (findById_id _ _ _ _ F) as [Hid _].
      destruct (hasAssociatedData _ _); destruct E as (_ & ->); split.
      + rewrite <- Hid. apply findActiveUser_deactivated.
      + cbn [users set_users]. intros v Fv. rewrite <- Hid in Fv.
        rewrite (findById_replace_same User._id (User.set_isActive false u))
          in Fv.
        * now injection Fv as <-.
        * change (User._id (User.set_isActive false u)) with (User._id u).
          rewrite Hid, F. discriminate.
      + apply findActiveUser_deleted.
      + cbn [users set_users]. intros v Fv.
        now rewrite findById_delete_same in Fv. }
  destruct S as [N Hin]. split; [|split; [|split; [|split]]].
  - intros verify cpa header u A <-.
    apply authenticate_next in A as (h & iat & _ & _ & _ & F & Act & _).
    rewrite (Hin u F) in Act. discriminate Act.
  - intros req' id pt w2 R.
    apply assignTicket_checked in R as (t & p & _ & _ & _ & Fa & _).
    now apply Fa.
  - intros req' body pt w2 Hb R.
    apply createTicket_checked in R as (p & _ & _ & Ha).
    now destruct (Ha _ Hb).
  - intros req' id u pt w2 Hb R.
    apply updateTicket_checked in R as (t & p & _ & _ & _ & Ha & _).
    now destruct (Ha _ Hb).
  - intros req' id role p w2 R.
    apply addProjectMember_ok in R as (p0 & i & _ & _ & Fa & _).
    rewrite N in Fa. discriminate Fa.
Qed.

Lemma deactivated_user_is_locked_out_witness :
  match UserController.updateUserStatus
          (Scenario.by_ Scenario.alice 3000) "u2" false Scenario.world with
  | (Ok _, w') =>
      forall pt w2,
        TicketController.assignTicket
          (Scenario.by_ Scenario.alice 3001) "t1" "u2" w' <> (Ok pt, w2)
  | (Throw _, _) => False
  end.
Proof.
  destruct (UserController.updateUserStatus _ _ _ _) as [[u'|e] w'] eqn:R.
  - destruct (deactivated_user_is_locked_out _ _ _ _
                (or_introl (ex_intro _ u' R))) as (_ & H & _).
    apply H.
  - vm_compute in R. discriminate R.
Defined.

(** ** Listing tickets *)

Lemma getAllTickets_runs regexTest sortDocs req q w :
  TicketController.getAllTickets regexTest sortDocs req q w =
  (Ok {| TicketController.page_tickets :=
           map (populateIn (db w))
               (firstn (TicketController.q_limit q)
                  (skipn ((TicketController.q_page q - 1)
                          * TicketController.q_limit q)%nat
                     (sortDocs (matchingTickets regexTest req q (db w)))));
         TicketController.page_total :=
           List.length (matchingTickets regexTest req q (db w));
         TicketController.page_page := TicketController.q_page q;
         TicketController.page_pages :=
           TicketController.ceilDiv
             (List.length (matchingTickets regexTest req q (db w)))
             (TicketController.q_limit q);
         TicketController.page_limit := TicketController.q_limit q |}, w).
Proof. reflexivity. Qed.

(** Any role reaches VIEWER: having access at all is being the creator or
    a member. *)
Lemma hasAccess_VIEWER (p : Project.doc) (u : ObjectId) :
  Project.hasAccess p u VIEWER
  = String.eqb (Project.createdBy p) u
    || existsb (fun m => String.eqb (Project.user m) u) (Project.members p).
Proof.
  rewrite hasAccess_members.
  destruct (String.eqb (Project.createdBy p) u); [reflexivity|]. cbn [orb].
  induction (Project.members p) as [|m l IH]; cbn; [reflexivity|].
  destruct (String.eqb (Project.user m) u); [|exact IH].
  now destruct (Project.role m).
Qed.

Lemma accessibleProjects_in (d : Database) (u id : ObjectId) :
  In id (accessibleProjects d u) <->
  exists p, In p (projects d) /\ Project._id p = id /\ accessibleTo u p.
Proof.
  unfold accessibleProjects, accessibleTo. rewrite in_map_iff. split.
  - intros (p & Hid & Hp). apply filter_In in Hp as [Hin Hp].
    apply andb_true_iff in Hp as [Ha Hact].
    exists p. rewrite hasAccess_VIEWER. auto.
  - intros (p & Hin & Hid & Hact & Ha). exists p. split; [exact Hid|].
    apply filter_In. split; [exact Hin|].
    rewrite hasAccess_VIEWER in Ha. now rewrite Ha, Hact.
Qed.

Lemma existsb_eqb_in (x : string) (l : list string) :
  existsb (String.eqb x) l = true <-> In x l.
Proof.
  rewrite existsb_exists. split.
  - intros (y & Hy & E). apply String.eqb_eq in E. now subst.
  - intros H. exists x. split; [exact H|apply String.eqb_refl].
Qed.

Lemma matchesFilter_project regexTest f t :
  TicketController.matchesFilter regexTest f t = true ->
  match TicketController.f_project f with
  | TicketController.AnyProject => True
  | TicketController.ProjectIn ids => In (Ticket.project t) ids
  | TicketController.ProjectIs id => Ticket.project t = id
  end.
Proof.
  unfold TicketController.matchesFilter. intros H.
  repeat (apply andb_true_iff in H as [H _]).
  destruct (TicketController.f_project f); [exact I| |].
  - now apply existsb_eqb_in.
  - now apply String.eqb_eq.
Qed.

Lemma in_firstn {A} (n : nat) (l : list A) (x : A) :
  In x (firstn n l) -> In x l.
Proof.
  intros H. rewrite <- (firstn_skipn n l). apply in_or_app. now left.
Qed.

Lemma in_skipn {A} (n : nat) (l : list A) (x : A) :
  In x (skipn n l) -> In x l.
Proof.
  intros H. rewrite <- (firstn_skipn n l). apply in_or_app. now right.
Qed.



Lemma matchesFilter_one_project regexTest f f' t id :
  TicketController.f_project f = TicketController.ProjectIn [id] ->
  TicketController.f_project f' = TicketController.ProjectIs id ->
  TicketController.f_status f = TicketController.f_status f' ->
  TicketController.f_priority f = TicketController.f_priority f' ->
  TicketController.f_type f = TicketController.f_type f' ->
  TicketController.f_assignedTo f = TicketController.f_assignedTo f' ->
  TicketController.f_search f = TicketController.f_search f' ->
  TicketController.matchesFilter regexTest f t
  = TicketController.matchesFilter regexTest f' t.
Proof.
  unfold TicketController.matchesFilter.
  intros -> -> -> -> -> -> ->. cbn [existsb]. now rewrite orb_false_r.
Qed.

Lemma matchingTickets_project regexTest req q d id :
  truthy (TicketController.q_project q) = Some id ->
  matchingTickets regexTest req q d =
  filter (TicketController.matchesFilter regexTest
            {| TicketController.f_project := TicketController.ProjectIs id;
               TicketController.f_status := TicketController.q_status q;
               TicketController.f_priority := TicketController.q_priority q;
               TicketController.f_type := TicketController.q_type q;
               TicketController.f_assignedTo :=
                 truthy (TicketController.q_assignedTo q);
               TicketController.f_search :=
                 truthy (TicketController.q_search q) |})
         (tickets d).
Proof.
  intros P. unfold matchingTickets. apply filter_ext. intros t.
  unfold TicketController.buildFilter. rewrite P.
  destruct (isAdmin req); [reflexivity|].
  now apply matchesFilter_one_project with (id := id).
Qed.

(** X13. A project in the query replaces the access filter.  When the
    query names a project, [getAllTickets] selects the tickets of that
    project that pass the other filters, whoever asks: the answer is the
    same for every caller, member of the project or not, admin or not;
    with no other filter, [total] is the number of tickets of the
    project.  ([getTicketById] answers 403 for a ticket of a project the
    caller has no access to.) *)
Theorem project_filter_replaces_access_filter
    (regexTest : string -> string -> bool)
    (sortDocs : list Ticket.doc -> list Ticket.doc)
    (req : Request) (q : TicketController.listQuery) (w : World)
    (id : ObjectId) :
  truthy (TicketController.q_project q) = Some id ->
  (forall req',
     TicketController.getAllTickets regexTest sortDocs req' q w
     = TicketController.getAllTickets regexTest sortDocs req q w)
  /\ (forall page limit,
        q = pageQuery (Some id) page limit ->
        exists answer,
          TicketController.getAllTickets regexTest sortDocs req q w
          = (Ok answer, w)
          /\ TicketController.page_total answer
             = List.length
                 (filter (fun t => String.eqb (Ticket.project t) id)
                         (tickets (db w))))
  /\ (forall t p,
        findById Ticket._id (tickets (db w)) (Ticket._id t) = Some t ->
        findById Project._id (projects (db w)) (Ticket.project t) = Some p ->
        isAdmin req = false ->
        Project.hasAccess p (User._id (user req)) VIEWER = false ->
        TicketController.getTicketById req (Ticket._id t) w
        = (Throw {| message := "Access denied to this ticket";
                    statusCode := 403 |}, w)).
Proof.
  intros P. split; [|split].
  - intros req'. rewrite !getAllTickets_runs.
    now rewrite (matchingTickets_project regexTest req q (db w) id P),
                (matchingTickets_project regexTest req' q (db w) id P).
  - intros page limit Hq. eexists. split; [apply getAllTickets_runs|].
    cbn [TicketController.page_total].
    rewrite (matchingTickets_project regexTest req q (db w) id P).
    f_equal. apply filter_ext. intros t. subst q.
    unfold TicketController.matchesFilter, pageQuery, truthy.
    cbn. now rewrite !andb_true_r.
  - intros t p Ft Fp A Hacc.
    assert (Fp' : findById Project._id (projects (db w)) (Project._id p)
                  = Some p).
    { destruct (findById_id _ _ _ _ Fp) as [E _]. now rewrite E. }
    unfold TicketController.getTicketById, TicketController.loadTicket,
      denies.
    handler_unfold. cbn beta iota. rewrite Ft. cbn beta iota.
    rewrite Fp. cbn beta iota. rewrite Fp'. cbn beta iota.
    rewrite A. cbn beta iota. now rewrite Hacc.
Qed.

Lemma project_filter_replaces_access_filter_witness :
  (exists answer,
     TicketController.getAllTickets (fun _ _ => true) (fun l => l)
       (Scenario.by_ Scenario.bob 3000) (pageQuery (Some "p2") 1 10)
       Scenario.world
     = (Ok answer, Scenario.world)
     /\ TicketController.page_total answer = 1%nat)
  /\ TicketController.getTicketById (Scenario.by_ Scenario.bob 3000) "t2"
       Scenario.world
     = (Throw {| message := "Access denied to this ticket";
                 statusCode := 403 |}, Scenario.world).
Proof.
  destruct (project_filter_replaces_access_filter
              (fun _ _ => true) (fun l => l)
              (Scenario.by_ Scenario.bob 3000) (pageQuery (Some "p2") 1 10)
              Scenario.world "p2" eq_refl) as (_ & T & D).
  split.
  - destruct (T 1%nat 10%nat eq_refl) as (answer & R & Ht).
    exists answer. split; [exact R|exact Ht].
  - apply (D (Scenario.ticket "t2" "p2" None) Scenario.legacy);
      reflexivity.
Defined.

Lemma firstn_skipn_add {A} (a b : nat) (l : list A) :
  firstn a l ++ firstn b (skipn a l) = firstn (a + b) l.
Proof.
  revert l. induction a as [|a IH]; intros l; [reflexivity|].
  destruct l as [|x l]; cbn.
  - now rewrite firstn_nil.
  - now rewrite IH.
Qed.

Lemma chunks_concat {A} (lim n : nat) (l : list A) :
  List.concat (map (fun k => firstn lim (skipn (k * lim) l)) (seq 0 n))
  = firstn (n * lim) l.
Proof.
  induction n as [|n IH]; [reflexivity|].
  rewrite seq_S, map_app, concat_app, IH. cbn [map List.concat plus].
  rewrite app_nil_r, firstn_skipn_add. f_equal. cbn. apply Nat.add_comm.
Qed.

Lemma ceilDiv_covers (total limit : nat) :
  (1 <= limit)%nat ->
  (total <= TicketController.ceilDiv total limit * limit)%nat.
Proof.
  intros L. unfold TicketController.ceilDiv.
  pose proof (Nat.div_mod_eq (total + limit - 1) limit) as E.
  pose proof (Nat.mod_upper_bound (total + limit - 1) limit) as B.
  nia.
Qed.

(** X14. The pages partition the result.  For a limit of at least 1, the
    pages 1 to [pages] that [getAllTickets] returns for a query, one after
    the other, are the matching tickets in the order of the sort, each
    once; every page reports the same [total] and [pages], and a page
    after the last is empty. *)
Theorem pages_partition_the_matches
    (regexTest : string -> string -> bool)
    (sortDocs : list Ticket.doc -> list Ticket.doc)
    (req : Request) (q : TicketController.listQuery) (w : World) :
  (forall l, List.length (sortDocs l) = List.length l) ->
  (1 <= TicketController.q_limit q)%nat ->
  exists answer : nat -> TicketController.ticketPage,
    (forall k,
       TicketController.getAllTickets regexTest sortDocs req (withPage k q) w
       = (Ok (answer k), w)
       /\ TicketController.page_total (answer k)
          = List.length (matchingTickets regexTest req q (db w))
       /\ TicketController.page_pages (answer k)
          = TicketController.page_pages (answer 1%nat))
    /\ List.concat (map (fun k => TicketController.page_tickets (answer k))
                   (seq 1 (TicketController.page_pages (answer 1%nat))))
       = map (populateIn (db w))
             (sortDocs (matchingTickets regexTest req q (db w)))
    /\ (forall k,
          (TicketController.page_pages (answer 1%nat) < k)%nat ->
          TicketController.page_tickets (answer k) = []).
Proof.
  intros S L.
  set (sorted := sortDocs (matchingTickets regexTest req q (db w))).
  set (lim := TicketController.q_limit q) in *.
  set (total := List.length (matchingTickets regexTest req q (db w))).
  exists (fun k =>
    {| TicketController.page_tickets :=
         map (populateIn (db w))
             (firstn lim (skipn ((k - 1) * lim)%nat sorted));
       TicketController.page_total := total;
       TicketController.page_page := k;
       TicketController.page_pages := TicketController.ceilDiv total lim;
       TicketController.page_limit := lim |}).
  cbn [TicketController.page_tickets TicketController.page_total
       TicketController.page_pages].
  assert (C : (List.length sorted
               <= TicketController.ceilDiv total lim * lim)%nat).
  { unfold sorted. rewrite S. now apply ceilDiv_covers. }
  split; [|split].
  - intros k. split; [|split; reflexivity].
    rewrite getAllTickets_runs. reflexivity.
  - rewrite <- seq_shift, map_map.
    transitivity
      (map (populateIn (db w))
           (firstn (TicketController.ceilDiv total lim * lim) sorted));
      [|now rewrite firstn_all2].
    rewrite <- chunks_concat, concat_map, map_map.
    f_equal. apply map_ext. intros k.
    now rewrite Nat.sub_succ, Nat.sub_0_r.
  - intros k Hk. rewrite skipn_all2; [now rewrite firstn_nil|].
    nia.
Qed.

Lemma pages_partition_the_matches_witness :
  exists answer : nat -> TicketController.ticketPage,
    (forall k,
       TicketController.getAllTickets (fun _ _ => true) (fun l => l)
         (Scenario.by_ Scenario.alice 3000)
         (withPage k (pageQuery None 1 1)) Scenario.world
       = (Ok (answer k), Scenario.world))
    /\ TicketController.page_pages (answer 1%nat) = 2%nat.
Proof.
  destruct (pages_partition_the_matches (fun _ _ => true) (fun l => l)
              (Scenario.by_ Scenario.alice 3000) (pageQuery None 1 1)
              Scenario.world (fun l => eq_refl) (le_n 1))
    as (answer & H & _).
  exists answer. split; [intros k; apply (H k)|].
  destruct (H 1%nat) as (R & _).
  rewrite getAllTickets_runs in R. injection R as <-. reflexivity.
Defined.

(** ** Statistics *)

Lemma countDocuments_le {A} (f g : A -> bool) (l : list A) :
  (forall x, f x = true -> g x = true) ->
  0 <= countDocuments f l <= countDocuments g l.
Proof.
  intros H. unfold countDocuments. split; [lia|].
  apply inj_le. induction l as [|a l IH]; cbn; [lia|].
  destruct (f a) eqn:Fa.
  - rewrite (H a Fa). cbn. lia.
  - destruct (g a); cbn; lia.
Qed.

Lemma countDocuments_ext {A} (f g : A -> bool) (l : list A) :
  (forall x, f x = g x) -> countDocuments f l = countDocuments g l.
Proof.
  intros H. unfold countDocuments. now rewrite (filter_ext f g H).
Qed.

Lemma countDocuments_filter {A} (f g : A -> bool) (l : list A) :
  countDocuments g (filter f l) = countDocuments (fun x => f x && g x) l.
Proof.
  unfold countDocuments. f_equal.
  induction l as [|a l IH]; cbn; [reflexivity|].
  destruct (f a); cbn; [|exact IH]. destruct (g a); cbn; now rewrite IH.
Qed.

Lemma countBy_count {K} (eqb : K -> K -> bool) (key : Ticket.doc -> K)
    (l : list Ticket.doc) (k : K) :
  or_else (countBy eqb key l k) 0
  = countDocuments (fun t => eqb (key t) k) l.
Proof.
  unfold countBy. cbv zeta.
  destruct (countDocuments (fun t => eqb (key t) k) l =? 0) eqn:E;
    cbn; [|reflexivity].
  apply Z.eqb_eq in E. congruence.
Qed.

Lemma count_by_status (f : Ticket.doc -> bool) (l : list Ticket.doc) :
  countDocuments f l
  = countDocuments (fun t => f t && TicketStatus_eqb (Ticket.status t) OPEN) l
    + countDocuments
        (fun t => f t && TicketStatus_eqb (Ticket.status t) IN_PROGRESS) l
    + countDocuments
        (fun t => f t && TicketStatus_eqb (Ticket.status t) RESOLVED) l
    + countDocuments
        (fun t => f t && TicketStatus_eqb (Ticket.status t) CLOSED) l.
Proof.
  unfold countDocuments. induction l as [|a l IH]; cbn [filter]; [reflexivity|].
  destruct (f a); cbn [andb]; [|exact IH].
  destruct (Ticket.status a); cbn [TicketStatus_eqb List.length];
    rewrite ?Nat2Z.inj_succ; lia.
Qed.

Lemma count_by_priority (f : Ticket.doc -> bool) (l : list Ticket.doc) :
  countDocuments f l
  = countDocuments
      (fun t => f t && TicketPriority_eqb (Ticket.priority t) LOW) l
    + countDocuments
        (fun t => f t && TicketPriority_eqb (Ticket.priority t) MEDIUM) l
    + countDocuments
        (fun t => f t && TicketPriority_eqb (Ticket.priority t) HIGH) l.
Proof.
  unfold countDocuments. induction l as [|a l IH]; cbn [filter]; [reflexivity|].
  destruct (f a); cbn [andb]; [|exact IH].
  destruct (Ticket.priority a); cbn [TicketPriority_eqb List.length];
    rewrite ?Nat2Z.inj_succ; lia.
Qed.

(** X15. The statistics of a project add up.  [getProjectStats] answers
    an admin or a user with access to the active project, and changes
    nothing; in its answer [total] is the sum of the four counts by
    status and the sum of the counts [byPriority] holds (a priority no
    ticket has is absent and counts 0), [highPriority] is the HIGH entry of
    [byPriority], [memberCount] is the number of member entries, and
    [recent] holds five tickets, or all of them when the project has
    fewer. *)
Theorem project_stats_add_up
    (newestFirst : list Ticket.doc -> list Ticket.doc)
    (req : Request) (id : ObjectId) (w w' : World)
    (s : ProjectController.projectStats) :
  (forall l, List.length (newestFirst l) = List.length l) ->
  ProjectController.getProjectStats newestFirst req id w = (Ok s, w') ->
  w' = w
  /\ (exists p,
        findActiveProject (db w) id = Some p
        /\ (isAdmin req = true
            \/ Project.hasAccess p (User._id (user req)) VIEWER = true)
        /\ ProjectController.ps_memberCount s
           = Z.of_nat (List.length (Project.members p)))
  /\ ProjectController.ps_total s
     = countDocuments (fun t => String.eqb (Ticket.project t) id)
                      (tickets (db w))
  /\ ProjectController.ps_total s
     = ProjectController.ps_open s + ProjectController.ps_inProgress s
       + ProjectController.ps_resolved s + ProjectController.ps_closed s
  /\ ProjectController.ps_total s
     = or_else (ProjectController.ps_byPriority s LOW) 0
       + or_else (ProjectController.ps_byPriority s MEDIUM) 0
       + or_else (ProjectController.ps_byPriority s HIGH) 0
  /\ ProjectController.ps_highPriority s
     = or_else (ProjectController.ps_byPriority s HIGH) 0
  /\ Z.of_nat (List.length (ProjectController.ps_recent s))
     = Z.min 5 (ProjectController.ps_total s).
Proof.
  intros S. unfold ProjectController.getProjectStats, denies.
  handler_cases; intros R; try discriminate R; note_access.
  all: injection R as <- <-.
  all: match goal with
       | H : findActiveProject _ _ = Some ?p |- _ =>
           destruct (findActiveProject_in _ _ _ H) as (_ & Hid & _)
       end.
  all: split; [reflexivity|].
  all: split; [eexists; split; [reflexivity|]; split; [now auto|reflexivity]|].
  all: cbn [ProjectController.ps_total ProjectController.ps_open
            ProjectController.ps_inProgress ProjectController.ps_resolved
            ProjectController.ps_closed ProjectController.ps_byPriority
            ProjectController.ps_highPriority ProjectController.ps_recent].
  all: rewrite !countBy_count, !countDocuments_filter, Hid.
  all: split; [reflexivity|].
  all: split; [apply count_by_status|].
  all: split; [apply count_by_priority|].
  all: split; [apply countDocuments_ext; intros t;
               now destruct (Ticket.priority t)|].
  all: match goal with
       | |- Z.of_nat (List.length (map _ ?m)) = _ =>
           lazymatch m with
           | match ?x with _ => _ end => change m with (firstn 5 x)
           end
       end.
  all: rewrite length_map, length_firstn, S; unfold countDocuments; lia.
Qed.

Lemma project_stats_add_up_witness :
  match ProjectController.getProjectStats (fun l => l)
          (Scenario.by_ Scenario.bob 3000) "p1" Scenario.world with
  | (Ok s, _) =>
      ProjectController.ps_total s
      = ProjectController.ps_open s + ProjectController.ps_inProgress s
        + ProjectController.ps_resolved s + ProjectController.ps_closed s
      /\ ProjectController.ps_total s = 1
  | (Throw _, _) => False
  end.
Proof.
  destruct (ProjectController.getProjectStats _ _ _ _) as [[s|e] w'] eqn:R.
  - destruct (project_stats_add_up _ _ _ _ _ _ (fun l => eq_refl) R)
      as (_ & _ & T & H & _).
    split; [exact H|]. rewrite T. reflexivity.
  - vm_compute in R. discriminate R.
Defined.

Lemma inProjectFilter_spec req d t :
  TicketController.inProjectFilter req d t = true <->
  isAdmin req = true
  \/ exists p, In p (projects d) /\ Project._id p = Ticket.project t
               /\ accessibleTo (User._id (user req)) p.
Proof.
  unfold TicketController.inProjectFilter.
  destruct (isAdmin req).
  - split; auto.
  - rewrite existsb_eqb_in, accessibleProjects_in. split; [auto|].
    intros [H|H]; [discriminate H|exact H].
Qed.

(** X16. The statistics of the tickets are consistent.  [getTicketStats]
    always answers and changes nothing.  It counts every ticket for an
    admin, and for another user the tickets of the active projects the user
    created or is a member of; [total] is the sum of the counts [byStatus]
    holds and the sum of the counts [byPriority] holds, [assigned],
    [created] and [overdue] are between 0 and [total], and [overdue]
    counts the tickets in scope that the model's [isOverdue] calls
    overdue at the time of the request. *)
Theorem ticket_stats_consistent (req : Request) (w : World) :
  exists s,
    TicketController.getTicketStats req w = (Ok s, w)
    /\ TicketController.s_total s
       = countDocuments (TicketController.inProjectFilter req (db w)) (tickets (db w))
    /\ (forall t,
          TicketController.inProjectFilter req (db w) t = true <->
          isAdmin req = true
          \/ exists p, In p (projects (db w))
                       /\ Project._id p = Ticket.project t
                       /\ accessibleTo (User._id (user req)) p)
    /\ TicketController.s_total s
       = or_else (TicketController.s_byStatus s OPEN) 0
         + or_else (TicketController.s_byStatus s IN_PROGRESS) 0
         + or_else (TicketController.s_byStatus s RESOLVED) 0
         + or_else (TicketController.s_byStatus s CLOSED) 0
    /\ TicketController.s_total s
       = or_else (TicketController.s_byPriority s LOW) 0
         + or_else (TicketController.s_byPriority s MEDIUM) 0
         + or_else (TicketController.s_byPriority s HIGH) 0
    /\ 0 <= TicketController.s_assigned s <= TicketController.s_total s
    /\ 0 <= TicketController.s_created s <= TicketController.s_total s
    /\ 0 <= TicketController.s_overdue s <= TicketController.s_total s
    /\ TicketController.s_overdue s
       = countDocuments
           (fun t => TicketController.inProjectFilter req (db w) t
                     && Ticket.isOverdue (now req) t)
           (tickets (db w)).
Proof.
  eexists. split; [reflexivity|].
  cbn [TicketController.s_total TicketController.s_assigned
       TicketController.s_created TicketController.s_overdue
       TicketController.s_byStatus TicketController.s_byPriority].
  rewrite !countBy_count, !countDocuments_filter.
  split; [reflexivity|].
  split; [intros t; apply inProjectFilter_spec|].
  split; [apply count_by_status|].
  split; [apply count_by_priority|].
  split; [apply countDocuments_le; intros t H;
          now apply andb_true_iff in H as [H _]|].
  split; [apply countDocuments_le; intros t H;
          now apply andb_true_iff in H as [H _]|].
  split; [apply countDocuments_le; intros t H;
          apply andb_true_iff in H as [H _];
          now apply andb_true_iff in H as [H _]|].
  apply countDocuments_ext. intros t. unfold Ticket.isOverdue.
  destruct (Ticket.dueDate t); [now rewrite andb_assoc|].
  now rewrite andb_false_r.
Qed.

Lemma ticket_stats_consistent_witness :
  exists s,
    TicketController.getTicketStats (Scenario.by_ Scenario.bob 3000)
      Scenario.world = (Ok s, Scenario.world)
    /\ TicketController.s_total s = 1.
Proof.
  destruct (ticket_stats_consistent (Scenario.by_ Scenario.bob 3000)
              Scenario.world) as (s & R & T & _).
  exists s. split; [exact R|]. rewrite T. reflexivity.
Defined.

(** ** What a caller who is not an admin can reach *)

Lemma authorize_denies {A} req (h : Handler A) w :
  isAdmin req = false ->
  (authorize [ADMIN] req ;;; h) w =
  (Throw {| message := "Access denied. Insufficient permissions.";
            statusCode := 403 |}, w).
Proof.
  unfold isAdmin, authorize. intros H. handler_unfold.
  cbn [existsb]. now rewrite orb_false_r, H.
Qed.

Lemma replaceById_ids {A} (id_of : A -> ObjectId) (x : A) (l : list A) :
  map id_of (replaceById id_of x l) = map id_of l.
Proof.
  unfold replaceById. rewrite map_map. apply map_ext. intros a.
  destruct (String.eqb_spec (id_of a) (id_of x)); congruence.
Qed.

Lemma replaceById_members (p : Project.doc) (ms : list Project.member)
    (l : list Project.doc) :
  uniqueIds Project._id l -> In p l ->
  map withoutMembers (replaceById Project._id (Project.set_members ms p) l)
  = map withoutMembers l.
Proof.
  intros U Hin. unfold replaceById. rewrite map_map.
  apply map_ext_in. intros a Ha.
  change (Project._id (Project.set_members ms p)) with (Project._id p).
  destruct (String.eqb_spec (Project._id a) (Project._id p)) as [E|_];
    [|reflexivity].
  assert (a = p); [|now subst].
  pose proof (findById_unique Project._id l a U Ha) as Fa.
  pose proof (findById_unique Project._id l p U Hin) as Fp.
  rewrite E in Fa. congruence.
Qed.

Lemma serve_non_admin w req call :
  uniqueIds Project._id (projects (db w)) ->
  isAdmin req = false ->
  users (db (serve w (req, call))) = users (db w)
  /\ map withoutMembers (projects (db (serve w (req, call))))
     = map withoutMembers (projects (db w))
  /\ uniqueIds Project._id (projects (db (serve w (req, call)))).
Proof.
  intros U A. unfold serve, route. cbn [fst snd].
  destruct call; rewrite ?(authorize_denies req _ w A); cbn [snd]; auto.
  - rewrite done_world.
    pose proof (createTicket_effect req body w) as E.
    destruct (TicketController.createTicket req body w) as [[pt|e] w'];
      cbn [snd]; [destruct E as (_ & _ & -> & _)|subst w']; auto.
  - rewrite done_world.
    pose proof (updateTicket_effect req id updates w) as E.
    destruct (TicketController.updateTicket req id updates w) as [[pt|e] w'];
      cbn [snd]; [destruct E as (t & _ & _ & _ & -> & _)|subst w']; auto.
  - pose proof (deleteTicket_effect req id w) as E.
    destruct (TicketController.deleteTicket req id w) as [[pt|e] w'];
      cbn [snd]; [destruct E as (-> & _)|subst w']; auto.
  - rewrite done_world.
    pose proof (assignTicket_effect req id userId w) as E.
    destruct (TicketController.assignTicket req id userId w) as [[pt|e] w'];
      cbn [snd]; [destruct E as (t & _ & _ & _ & -> & _)|subst w']; auto.
  - rewrite done_world.
    pose proof (unassignTicket_effect req id w) as E.
    destruct (TicketController.unassignTicket req id w) as [[pt|e] w'];
      cbn [snd]; [destruct E as (t & _ & _ & _ & -> & _)|subst w']; auto.
  - rewrite done_world.
    destruct (ProjectController.addProjectMember req id userId role w)
      as [[r|e] w'] eqn:R; cbn [snd].
    + destruct (addProjectMember_ok _ _ _ _ _ _ _ R)
        as (p & i & F & _ & _ & _ & -> & -> & _).
      apply findActiveProject_in in F as (Hin & _).
      cbn [users projects set_projects]. split; [reflexivity|]. split.
      * now apply replaceById_members.
      * unfold uniqueIds. now rewrite replaceById_ids.
    + pose proof (addProjectMember_effect req id userId role w) as E.
      rewrite R in E. subst w'. auto.
Qed.



(** ** Hours stay in range *)

Lemma validate_same_hours (t t' : Ticket.doc) :
  Ticket.estimatedHours t' = Ticket.estimatedHours t ->
  Ticket.actualHours t' = Ticket.actualHours t ->
  Ticket.validate t' = Ticket.validate t.
Proof. unfold Ticket.validate. now intros -> ->. Qed.

Lemma validate_preSave now this :
  Ticket.validate (Ticket.preSave now this)
  = Ticket.validate (Ticket.fields this).
Proof.
  pose proof (preSave_frame now this) as F. unfold same_but_derived in F.
  apply validate_same_hours; tauto.
Qed.

Lemma createTicket_valid req body w pt w' :
  TicketController.createTicket req body w = (Ok pt, w') ->
  Ticket.validate (TicketController.newTicket req body) = true.
Proof.
  unfold TicketController.createTicket, Ticket_create, denies.
  handler_cases; intros R; try discriminate R; note_access; assumption.
Qed.

Lemma serve_validTickets w rc :
  Forall validTicket (tickets (db w)) ->
  Forall validTicket (tickets (db (serve w rc))).
Proof.
  intros V. destruct rc as [req call]. unfold serve, route. cbn [fst snd].
  destruct call.
  - rewrite done_world.
    destruct (TicketController.createTicket req body w) as [[pt|e] w'] eqn:R;
      cbn [snd]; pose proof (createTicket_effect req body w) as E;
      rewrite R in E; [|now subst w'].
    destruct E as (_ & _ & -> & _). cbn [tickets set_tickets].
    apply Forall_app. split; [exact V|]. constructor; [|constructor].
    exact (createTicket_valid _ _ _ _ _ R).
  - rewrite done_world.
    pose proof (updateTicket_effect req id updates w) as E.
    destruct (TicketController.updateTicket req id updates w) as [[pt|e] w'];
      cbn [snd]; [|now subst w'].
    destruct E as (t & _ & Hv & _ & -> & _).
    unfold saveTicketIn. cbn [tickets set_tickets].
    apply Forall_replaceById; [|exact V].
    unfold validTicket, updatedTicket. now rewrite validate_preSave.
  - pose proof (deleteTicket_effect req id w) as E.
    destruct (TicketController.deleteTicket req id w) as [[pt|e] w'];
      cbn [snd]; [|now subst w'].
    destruct E as (-> & _). cbn [tickets set_tickets].
    now apply Forall_deleteById.
  - rewrite done_world.
    pose proof (assignTicket_effect req id userId w) as E.
    destruct (TicketController.assignTicket req id userId w) as [[pt|e] w'];
      cbn [snd]; [|now subst w'].
    destruct E as (t & _ & Hv & _ & -> & _).
    unfold saveTicketIn. cbn [tickets set_tickets].
    apply Forall_replaceById; [|exact V]. exact Hv.
  - rewrite done_world.
    pose proof (unassignTicket_effect req id w) as E.
    destruct (TicketController.unassignTicket req id w) as [[pt|e] w'];
      cbn [snd]; [|now subst w'].
    destruct E as (t & _ & Hv & _ & -> & _).
    unfold saveTicketIn. cbn [tickets set_tickets].
    apply Forall_replaceById; [|exact V]. exact Hv.
  - destruct (authorize_then [ADMIN] req
                (done (ProjectController.deleteProject req id)) w) as [->| ->];
      [exact V|].
    rewrite done_world.
    pose proof (deleteProject_effect req id w) as E.
    destruct (ProjectController.deleteProject req id w) as [[r|e] w'];
      cbn [snd]; [|destruct E as (-> & _); exact V].
    destruct E as (p & _ & _ & E).
    destruct (find _ _); destruct E as (_ & ->); exact V.
  - rewrite done_world.
    pose proof (addProjectMember_effect req id userId role w) as E.
    destruct (ProjectController.addProjectMember req id userId role w)
      as [[r|e] w']; cbn [snd]; [|now subst w'].
    destruct E as (p & i & _ & _ & _ & -> & _). exact V.
  - destruct (authorize_then [ADMIN] req
                (done (UserController.updateUserRole req userId role)) w)
      as [->| ->]; [exact V|].
    rewrite done_world.
    pose proof (updateUserRole_effect req userId role w) as E.
    destruct (UserController.updateUserRole req userId role w)
      as [[r|e] w']; cbn [snd];
      [destruct E as (u & _ & _ & -> & _)|subst w']; exact V.
  - destruct (authorize_then [ADMIN] req
                (done (UserController.updateUserStatus req userId isActive)) w)
      as [->| ->]; [exact V|].
    rewrite done_world.
    pose proof (updateUserStatus_effect req userId isActive w) as E.
    destruct (UserController.updateUserStatus req userId isActive w)
      as [[r|e] w']; cbn [snd];
      [destruct E as (u & _ & _ & -> & _)|subst w']; exact V.
  - destruct (authorize_then [ADMIN] req
                (done (UserController.deleteUser req userId)) w)
      as [->| ->]; [exact V|].
    rewrite done_world.
    pose proof (deleteUser_effect req userId w) as E.
    destruct (UserController.deleteUser req userId w)
      as [[r|e] w']; cbn [snd]; [|subst w'; exact V].
    destruct E as (u & _ & _ & _ & E).
    destruct (hasAssociatedData _ _); destruct E as (_ & ->); exact V.
Qed.

(** X18. Hours stay in range.  If the estimated and the actual hours of
    every stored ticket are between 0 and 1000, they still are after any
    sequence of requests: the validators run on every ticket that is
    created or saved, and the pre-save hook leaves the hours alone. *)
Theorem hours_stay_in_range (w : World) (calls : list (Request * ApiCall)) :
  Forall validTicket (tickets (db w)) ->
  Forall validTicket (tickets (db (run w calls))).
Proof.
  revert w. induction calls as [|rc calls IH]; intros w V; [exact V|].
  cbn. apply IH. now apply serve_validTickets.
Qed.

Lemma scenario_validTickets :
  Forall validTicket (tickets (db Scenario.world)).
Proof. repeat constructor. Defined.

Lemma hours_stay_in_range_witness :
  Forall validTicket
    (tickets (db (run Scenario.world
       [(Scenario.by_ Scenario.bob 3000,
         PUT_ticket "t1" (Scenario.setStatus RESOLVED));
        (Scenario.by_ Scenario.alice 3001,
         PUT_ticket_assign "t1" "u2")]))).
Proof.
  apply (hours_stay_in_range Scenario.world _ scenario_validTickets).
Defined.

(** ** Reading back what was written *)

Lemma getTicketById_runs req id w t p :
  findById Ticket._id (tickets (db w)) id = Some t ->
  findById Project._id (projects (db w)) (Ticket.project t) = Some p ->
  TicketController.getTicketById req id w =
  if isAdmin req || Project.hasAccess p (User._id (user req)) VIEWER
  then (Ok (populateIn (db w) t), w)
  else (Throw {| message := "Access denied to this ticket";
                 statusCode := 403 |}, w).
Proof.
  intros Ft Fp.
  assert (Fp' : findById Project._id (projects (db w)) (Project._id p)
                = Some p).
  { destruct (findById_id _ _ _ _ Fp) as [E _]. now rewrite E. }
  unfold TicketController.getTicketById, TicketController.loadTicket, denies.
  handler_unfold. cbn beta iota. rewrite Ft. cbn beta iota.
  rewrite Fp. cbn beta iota. rewrite Fp'. cbn beta iota.
  destruct (isAdmin req); [reflexivity|]. cbn beta iota.
  now destruct (Project.hasAccess p (User._id (user req)) VIEWER).
Qed.

Lemma hasAccess_weaken (p : Project.doc) (u : ObjectId) (level : MemberRole) :
  Project.hasAccess p u level = true -> Project.hasAccess p u VIEWER = true.
Proof.
  rewrite !hasAccess_members.
  destruct (String.eqb (Project.createdBy p) u); [reflexivity|].
  destruct (find _ _) as [m|]; [|discriminate].
  intros _. now destruct (Project.role m).
Qed.

Lemma may_read req p level :
  isAdmin req = true
  \/ Project.hasAccess p (User._id (user req)) level = true ->
  isAdmin req || Project.hasAccess p (User._id (user req)) VIEWER = true.
Proof.
  intros [->|H]; [reflexivity|].
  rewrite (hasAccess_weaken _ _ _ H). apply orb_true_r.
Qed.

Lemma updatedTicket_project req u t :
  Ticket.project (updatedTicket req u t) = Ticket.project t.
Proof.
  rewrite updatedTicket_eq.
  match goal with |- context [Ticket.preSave ?n ?i] =>
    pose proof (preSave_frame n i) as F end.
  unfold same_but_derived in F. cbn [Ticket.fields] in F.
  destruct F as (_ & _ & _ & _ & _ & _ & _ & -> & _). reflexivity.
Qed.

Lemma read_saved req id w t t' p :
  findById Ticket._id (tickets (db w)) id = Some t ->
  findById Project._id (projects (db w)) (Ticket.project t) = Some p ->
  isAdmin req = true
  \/ Project.hasAccess p (User._id (user req)) CONTRIBUTOR = true ->
  Ticket._id t' = Ticket._id t ->
  Ticket.project t' = Ticket.project t ->
  forall w',
    db w' = saveTicketIn t' (db w) ->
    TicketController.getTicketById req id w'
    = (Ok (populateIn (saveTicketIn t' (db w)) t'), w').
Proof.
  intros Ft Fp G Hid Hp w' Hdb.
  destruct (findById_id _ _ _ _ Ft) as [E _].
  rewrite (getTicketById_runs req id w' t' p).
  - now rewrite (may_read req p CONTRIBUTOR G), Hdb.
  - rewrite Hdb. unfold saveTicketIn. cbn [tickets set_tickets].
    rewrite <- E, <- Hid. apply findById_replace_same.
    rewrite Hid, E, Ft. discriminate.
  - rewrite Hdb, Hp. exact Fp.
Qed.



(** ** Users offered for assignment *)

Lemma assignTicket_succeeds req id userId w t p :
  findById Ticket._id (tickets (db w)) id = Some t ->
  findById Project._id (projects (db w)) (Ticket.project t) = Some p ->
  isAdmin req = true
  \/ Project.hasAccess p (User._id (user req)) CONTRIBUTOR = true ->
  findActiveUser (db w) userId <> None ->
  isAdmin req = true \/ Project.hasAccess p userId VIEWER = true ->
  Ticket.validate t = true ->
  exists pt w', TicketController.assignTicket req id userId w = (Ok pt, w').
Proof.
  intros Ft Fp G Fa Ga V.
  assert (Fp' : findById Project._id (projects (db w)) (Project._id p)
                = Some p).
  { destruct (findById_id _ _ _ _ Fp) as [E _]. now rewrite E. }
  assert (V' : Ticket.validate (Ticket.set_assignedTo (Some userId) t) = true)
    by exact V.
  unfold TicketController.assignTicket, TicketController.loadTicket.
  handler_unfold. cbn beta iota. rewrite Ft. cbn beta iota.
  rewrite Fp. cbn beta iota. rewrite Fp'. cbn beta iota.
  unfold Ticket_save, denies.
  cbn [Ticket.fields Ticket.assign_modifiedBy Ticket.assign Ticket.loaded].
  rewrite V'.
  handler_cases.
  all: try (do 2 eexists; reflexivity).
  all: exfalso; note_denied.
  all: try (destruct G; congruence).
  all: try (destruct Ga; congruence).
  all: congruence.
Qed.

Lemma getAssignableUsers_project regexTest sortByName req search projectId
    pid w l w' :
  truthy projectId = Some pid ->
  UserController.getAssignableUsers regexTest sortByName req search projectId w
  = (Ok l, w') ->
  w' = w
  /\ exists p,
       findById Project._id (projects (db w)) pid = Some p
       /\ (isAdmin req = true
           \/ Project.hasAccess p (User._id (user req)) VIEWER = true)
       /\ l = map UserController.selectAssignable
                (firstn 50
                   (sortByName
                      (filter
                         (fun u =>
                            User.isActive u
                            && match truthy search with
                               | Some s => regexTest s (User.name u)
                                           || regexTest s (User.email u)
                               | None => true
                               end
                            && existsb (String.eqb (User._id u))
                                 (Project.createdBy p
                                  :: map Project.user (Project.members p)))
                         (users (db w))))).
Proof.
  intros P. unfold UserController.getAssignableUsers, denies. rewrite P.
  handler_cases; intros R; try discriminate R; note_access.
  all: injection R as <- <-.
  all: split; [reflexivity|].
  all: eexists; split; [reflexivity|]; split; [now auto|reflexivity].
Qed.

(** X20. The users offered for a project can be assigned its tickets.
    With a project in the query, [getAssignableUsers] answers a caller who
    is an admin or has access to the project, changes nothing, and lists
    at most 50 users, each of them stored, active, and the creator or a
    member of the project: each passes the checks on an assignee, so that
    [assignTicket] by a caller with CONTRIBUTOR access (or an admin)
    succeeds for any ticket of the project whose hours are in range. *)
Theorem offered_users_are_assignable
    (regexTest : string -> string -> bool)
    (sortByName : list User.doc -> list User.doc)
    (req : Request) (search projectId : option string) (pid : ObjectId)
    (w w' : World) (l : list UserController.assignable) :
  (forall us u, In u (sortByName us) -> In u us) ->
  truthy projectId = Some pid ->
  UserController.getAssignableUsers regexTest sortByName req search projectId w
  = (Ok l, w') ->
  w' = w
  /\ (List.length l <= 50)%nat
  /\ exists p,
       findById Project._id (projects (db w)) pid = Some p
       /\ (isAdmin req = true
           \/ Project.hasAccess p (User._id (user req)) VIEWER = true)
       /\ forall a,
            In a l ->
            (exists u,
               In u (users (db w)) /\ User.isActive u = true
               /\ a = UserController.selectAssignable u)
            /\ findActiveUser (db w) (UserController.a_id a) <> None
            /\ Project.hasAccess p (UserController.a_id a) VIEWER = true
            /\ (forall req' id t,
                  findById Ticket._id (tickets (db w)) id = Some t ->
                  Ticket.project t = pid ->
                  isAdmin req' = true
                  \/ Project.hasAccess p (User._id (user req')) CONTRIBUTOR
                     = true ->
                  Ticket.validate t = true ->
                  exists pt w2,
                    TicketController.assignTicket req' id
                      (UserController.a_id a) w = (Ok pt, w2)).
Proof.
  intros S P R.
  destruct (getAssignableUsers_project _ _ _ _ _ _ _ _ _ P R)
    as (-> & p & Fp & G & ->).
  split; [reflexivity|].
  split; [rewrite length_map; apply firstn_le_length|].
  exists p. split; [exact Fp|]. split; [exact G|].
  intros a Ha. apply in_map_iff in Ha as (u & <- & Hu).
  apply in_firstn, S, filter_In in Hu as [Hin Hu].
  apply andb_true_iff in Hu as [Hu Hm].
  apply andb_true_iff in Hu as [Hact _].
  cbn [UserController.a_id UserController.selectAssignable].
  assert (Fa : findActiveUser (db w) (User._id u) <> None).
  { unfold findActiveUser. apply find_exists. exists u.
    split; [exact Hin|]. now rewrite String.eqb_refl, Hact. }
  assert (Acc : Project.hasAccess p (User._id u) VIEWER = true).
  { rewrite hasAccess_VIEWER. cbn [existsb] in Hm.
    apply orb_true_iff in Hm as [Hm|Hm].
    - rewrite String_eqb_sym in Hm. now rewrite Hm.
    - apply orb_true_iff. right. rewrite existsb_exists in *.
      destruct Hm as (x & Hx & Ex). apply in_map_iff in Hx as (m & <- & Hm).
      exists m. split; [exact Hm|]. now rewrite String_eqb_sym. }
  split; [eauto|]. split; [exact Fa|]. split; [exact Acc|].
  intros req' id t Ft Hp G' V.
  apply (assignTicket_succeeds req' id (User._id u) w t p); auto.
  now rewrite Hp.
Qed.

Lemma offered_users_are_assignable_witness :
  match UserController.getAssignableUsers (fun _ _ => true) (fun l => l)
          (Scenario.by_ Scenario.bob 3000) None (Some "p1")
          Scenario.world with
  | (Ok l, _) =>
      forall a, In a l ->
        exists pt w2,
          TicketController.assignTicket (Scenario.by_ Scenario.carol 3001)
            "t1" (UserController.a_id a) Scenario.world = (Ok pt, w2)
  | (Throw _, _) => False
  end.
Proof.
  destruct (UserController.getAssignableUsers _ _ _ _ _ _)
    as [[l|e] w'] eqn:R.
  - destruct (offered_users_are_assignable (fun _ _ => true) (fun l => l)
                (Scenario.by_ Scenario.bob 3000) None (Some "p1") "p1"
                Scenario.world w' l (fun us u H => H) eq_refl R)
      as (_ & _ & p & Fp & _ & H).
    vm_compute in Fp. injection Fp as <-.
    intros a Ha. destruct (H a Ha) as (_ & _ & _ & K).
    apply (K (Scenario.by_ Scenario.carol 3001) "t1"
             (Scenario.ticket "t1" "p1" (Some "u3")));
      try reflexivity. now right.
  - vm_compute in R. discriminate R.
Defined.

(** ** References between the collections *)

Lemma refsOf_ext (d d' : Database) (t : Ticket.doc) :
  (forall id, findById Project._id (projects d) id <> None ->
              findById Project._id (projects d') id <> None) ->
  (forall id, findById User._id (users d) id <> None ->
              findById User._id (users d') id <> None) ->
  refsOf d t -> refsOf d' t.
Proof.
  intros Hp Hu [Rp Ra]. split; [now apply Hp|].
  intros a Ha. apply Hu. now apply Ra.
Qed.

Lemma findById_replaced_some {A} (id_of : A -> ObjectId) (x : A)
    (l : list A) (id : ObjectId) :
  findById id_of l id <> None ->
  findById id_of (replaceById id_of x l) id <> None.
Proof.
  intros H. destruct (String.eqb_spec id (id_of x)) as [->|N].
  - rewrite findById_replace_same; [discriminate|exact H].
  - now rewrite findById_replace_other.
Qed.

Lemma findActiveUser_stored d a :
  findActiveUser d a <> None -> findById User._id (users d) a <> None.
Proof.
  unfold findActiveUser, findById. rewrite !find_exists.
  intros (u & Hin & H). apply andb_true_iff in H as [H _]. eauto.
Qed.

Lemma updatedTicket_assignedTo req u t :
  Ticket.assignedTo (updatedTicket req u t)
  = or_else (TicketController.u_assignedTo u) (Ticket.assignedTo t).
Proof.
  rewrite updatedTicket_eq.
  match goal with |- context [Ticket.preSave ?n ?i] =>
    pose proof (preSave_frame n i) as F end.
  unfold same_but_derived in F. cbn [Ticket.fields] in F.
  destruct F as (_ & _ & _ & _ & _ & _ & -> & _). reflexivity.
Qed.

Lemma refsResolve_saved d t t' id :
  refsResolve d ->
  findById Ticket._id (tickets d) id = Some t ->
  Ticket.project t' = Ticket.project t ->
  (forall a, Ticket.assignedTo t' = Some a ->
             Ticket.assignedTo t = Some a
             \/ findById User._id (users d) a <> None) ->
  refsResolve (saveTicketIn t' d).
Proof.
  unfold refsResolve, saveTicketIn. cbn [tickets set_tickets].
  intros R Ft Hp Ha.
  destruct (findById_id _ _ _ _ Ft) as [_ Hin].
  destruct (proj1 (Forall_forall _ _) R t Hin) as [Rp Ra].
  apply Forall_replaceById.
  - split; [now rewrite Hp|]. intros a E.
    destruct (Ha a E) as [E'|F]; [now apply Ra|exact F].
  - exact R.
Qed.

Lemma serve_refsResolve w rc :
  refsResolve (db w) -> refsResolve (db (serve w rc)).
Proof.
  intros R. destruct rc as [req call]. unfold serve, route. cbn [fst snd].
  destruct call.
  - rewrite done_world.
    destruct (TicketController.createTicket req body w) as [[pt|e] w'] eqn:C;
      cbn [snd]; pose proof (createTicket_effect req body w) as E;
      rewrite C in E; [|now subst w'].
    destruct E as (_ & _ & -> & _).
    destruct (createTicket_checked _ _ _ _ _ C) as (p & F & _ & Ha).
    unfold refsResolve. cbn [tickets set_tickets].
    apply Forall_app. split; [exact R|]. constructor; [|constructor].
    split.
    + now apply findActiveProject_id in F as (_ & _ & F).
    + intros a E. apply (findActiveUser_stored (db w)). now apply Ha.
  - rewrite done_world.
    destruct (TicketController.updateTicket req id updates w)
      as [[pt|e] w'] eqn:C;
      cbn [snd]; pose proof (updateTicket_effect req id updates w) as E;
      rewrite C in E; [|now subst w'].
    destruct E as (t & Ft & _ & _ & -> & _).
    destruct (updateTicket_checked _ _ _ _ _ _ C)
      as (t0 & p & Ft0 & _ & _ & Ha & _).
    apply (refsResolve_saved _ t _ id R Ft).
    + apply updatedTicket_project.
    + intros a. rewrite updatedTicket_assignedTo.
      destruct (TicketController.u_assignedTo updates) as [[b|]|] eqn:U;
        cbn [or_else]; try discriminate; [|now left].
      intros [= <-]. right. apply findActiveUser_stored.
      now apply (Ha b).
  - pose proof (deleteTicket_effect req id w) as E.
    destruct (TicketController.deleteTicket req id w) as [[pt|e] w'];
      cbn [snd]; [|now subst w'].
    destruct E as (-> & _). unfold refsResolve. cbn [tickets set_tickets].
    now apply Forall_deleteById.
  - rewrite done_world.
    destruct (TicketController.assignTicket req id userId w)
      as [[pt|e] w'] eqn:C;
      cbn [snd]; pose proof (assignTicket_effect req id userId w) as E;
      rewrite C in E; [|now subst w'].
    destruct E as (t & Ft & _ & _ & -> & _).
    destruct (assignTicket_checked _ _ _ _ _ _ C)
      as (t0 & p & _ & _ & _ & Fa & _).
    apply (refsResolve_saved _ t _ id R Ft); [reflexivity|].
    intros a [= <-]. right. now apply findActiveUser_stored.
  - rewrite done_world.
    pose proof (unassignTicket_effect req id w) as E.
    destruct (TicketController.unassignTicket req id w) as [[pt|e] w'];
      cbn [snd]; [|now subst w'].
    destruct E as (t & Ft & _ & _ & -> & _).
    apply (refsResolve_saved _ t _ id R Ft); [reflexivity|].
    intros a E. discriminate E.
  - destruct (authorize_then [ADMIN] req
                (done (ProjectController.deleteProject req id)) w) as [->| ->];
      [exact R|].
    rewrite done_world.
    pose proof (deleteProject_effect req id w) as E.
    destruct (ProjectController.deleteProject req id w) as [[r|e] w'];
      cbn [snd]; [|destruct E as (-> & _); exact R].
    destruct E as (p & _ & _ & E).
    destruct (find _ _) eqn:Ft; destruct E as (_ & ->);
      unfold refsResolve; cbn [tickets set_projects].
    + eapply Forall_impl; [|exact R]. intros t. apply refsOf_ext; auto.
      intros i. cbn [projects set_projects].
      apply findById_replaced_some.
    + apply Forall_forall. intros t Hin.
      pose proof (proj1 (Forall_forall _ _) R t Hin) as [Rp Ra].
      split; [|exact Ra]. cbn [projects set_projects].
      rewrite findById_delete_other; [exact Rp|].
      pose proof (proj1 (find_none_iff _ _) Ft t Hin) as N. cbn in N.
      now apply String.eqb_neq in N.
  - rewrite done_world.
    pose proof (addProjectMember_effect req id userId role w) as E.
    destruct (ProjectController.addProjectMember req id userId role w)
      as [[r|e] w']; cbn [snd]; [|now subst w'].
    destruct E as (p & i & _ & _ & _ & -> & _).
    unfold refsResolve. cbn [tickets set_projects].
    eapply Forall_impl; [|exact R]. intros t. apply refsOf_ext; auto.
    intros j. cbn [projects set_projects]. apply findById_replaced_some.
  - destruct (authorize_then [ADMIN] req
                (done (UserController.updateUserRole req userId role)) w)
      as [->| ->]; [exact R|].
    rewrite done_world.
    pose proof (updateUserRole_effect req userId role w) as E.
    destruct (UserController.updateUserRole req userId role w)
      as [[r|e] w']; cbn [snd]; [|now subst w'].
    destruct E as (u & _ & _ & -> & _).
    unfold refsResolve. cbn [tickets set_users].
    eapply Forall_impl; [|exact R]. intros t. apply refsOf_ext; auto.
    intros j. cbn [users set_users]. apply findById_replaced_some.
  - destruct (authorize_then [ADMIN] req
                (done (UserController.updateUserStatus req userId isActive)) w)
      as [->| ->]; [exact R|].
    rewrite done_world.
    pose proof (updateUserStatus_effect req userId isActive w) as E.
    destruct (UserController.updateUserStatus req userId isActive w)
      as [[r|e] w']; cbn [snd]; [|now subst w'].
    destruct E as (u & _ & _ & -> & _).
    unfold refsResolve. cbn [tickets set_users].
    eapply Forall_impl; [|exact R]. intros t. apply refsOf_ext; auto.
    intros j. cbn [users set_users]. apply findById_replaced_some.
  - destruct (authorize_then [ADMIN] req
                (done (UserController.deleteUser req userId)) w)
      as [->| ->]; [exact R|].
    rewrite done_world.
    pose proof (deleteUser_effect req userId w) as E.
    destruct (UserController.deleteUser req userId w)
      as [[r|e] w']; cbn [snd]; [|subst w'; exact R].
    destruct E as (u & _ & _ & _ & E).
    destruct (hasAssociatedData (db w) userId) eqn:D;
      destruct E as (_ & ->); unfold refsResolve; cbn [tickets set_users].
    + eapply Forall_impl; [|exact R]. intros t. apply refsOf_ext; auto.
      intros j. cbn [users set_users]. apply findById_replaced_some.
    + apply Forall_forall. intros t Hin.
      pose proof (proj1 (Forall_forall _ _) R t Hin) as [Rp Ra].
      split; [exact Rp|]. intros a Ea. cbn [users set_users].
      rewrite findById_delete_other; [now apply Ra|].
      unfold hasAssociatedData in D. apply orb_false_iff in D as [_ D].
      destruct (find _ (tickets (db w))) eqn:Ft; [discriminate D|].
      pose proof (proj1 (find_none_iff _ _) Ft t Hin) as N. cbn in N.
      rewrite Ea in N. apply orb_false_iff in N as [_ N].
      now apply String.eqb_neq in N.
Qed.

Lemma loadTicket_refs id msg w e w' :
  refsResolve (db w) ->
  TicketController.loadTicket id msg w = (Throw e, w') ->
  statusCode e = 404.
Proof.
  intros R. unfold TicketController.loadTicket.
  handler_cases; intros [= <- _]; try reflexivity; exfalso.
  - match goal with
    | H : findById Ticket._id _ _ = Some ?t |- _ =>
        destruct (findById_id _ _ _ _ H) as [_ Hin];
        destruct (proj1 (Forall_forall _ _) R t Hin) as [Rp _]
    end.
    congruence.
Qed.

Lemma bind_loadTicket_throw {A} id msg (k : _ -> Handler A) w e w' :
  refsResolve (db w) ->
  bind (TicketController.loadTicket id msg) k w = (Throw e, w') ->
  statusCode e = 404
  \/ exists t p,
       findById Ticket._id (tickets (db w)) id = Some t
       /\ findById Project._id (projects (db w)) (Ticket.project t) = Some p
       /\ k (t, Some p) w = (Throw e, w').
Proof.
  intros R. unfold bind at 1.
  destruct (TicketController.loadTicket id msg w) as [[[t po]|e0] w0] eqn:L.
  - destruct (loadTicket_ok _ _ _ _ _ _ L) as (-> & Ft & p & -> & Fp).
    intros K. right. eauto.
  - intros [= <- <-]. left. now apply (loadTicket_refs id msg w e0 w0).
Qed.

Ltac refusal_cases :=
  handler_cases;
  intros Hthrow; try discriminate Hthrow;
  injection Hthrow as <- _; unfold refusal; cbn [statusCode]; auto.

(** X21. References stay resolvable, and no request on a ticket is
    answered 500.  If the project of every ticket is stored and so is its
    assignee, the same holds after any sequence of requests: a project or a
    user that a ticket refers to is archived or deactivated rather than
    removed, and a new assignee is looked up first.  In such a database the
    handlers that load a ticket never run into a missing project: when
    [getTicketById], [updateTicket], [deleteTicket], [assignTicket] or
    [unassignTicket] fails, the status is 400, 403 or 404. *)
Theorem references_stay_resolvable (w : World) :
  refsResolve (db w) ->
  (forall calls, refsResolve (db (run w calls)))
  /\ (forall req id e w',
        TicketController.getTicketById req id w = (Throw e, w') ->
        refusal (statusCode e))
  /\ (forall req id u e w',
        TicketController.updateTicket req id u w = (Throw e, w') ->
        refusal (statusCode e))
  /\ (forall req id e w',
        TicketController.deleteTicket req id w = (Throw e, w') ->
        refusal (statusCode e))
  /\ (forall req id userId e w',
        TicketController.assignTicket req id userId w = (Throw e, w') ->
        refusal (statusCode e))
  /\ (forall req id e w',
        TicketController.unassignTicket req id w = (Throw e, w') ->
        refusal (statusCode e)).
Proof.
  intros R. split; [|split; [|split; [|split; [|split]]]].
  - intros calls. revert w R.
    induction calls as [|rc calls IH]; intros w R; [exact R|].
    cbn. apply IH. now apply serve_refsResolve.
  - intros req id e w'. unfold TicketController.getTicketById. intros T.
    apply (bind_loadTicket_throw _ _ _ _ _ _ R) in T
      as [->|(t & p & _ & _ & T)]; [unfold refusal; auto|].
    revert T. unfold denies. refusal_cases.
  - intros req id u e w'. unfold TicketController.updateTicket. intros T.
    apply (bind_loadTicket_throw _ _ _ _ _ _ R) in T
      as [->|(t & p & _ & _ & T)]; [unfold refusal; auto|].
    revert T. unfold Ticket_save, denies. refusal_cases.
  - intros req id e w'. unfold TicketController.deleteTicket. intros T.
    apply (bind_loadTicket_throw _ _ _ _ _ _ R) in T
      as [->|(t & p & _ & _ & T)]; [unfold refusal; auto|].
    revert T. refusal_cases.
  - intros req id userId e w'. unfold TicketController.assignTicket.
    intros T.
    apply (bind_loadTicket_throw _ _ _ _ _ _ R) in T
      as [->|(t & p & _ & _ & T)]; [unfold refusal; auto|].
    revert T. unfold Ticket_save, denies. refusal_cases.
  - intros req id e w'. unfold TicketController.unassignTicket. intros T.
    apply (bind_loadTicket_throw _ _ _ _ _ _ R) in T
      as [->|(t & p & _ & _ & T)]; [unfold refusal; auto|].
    revert T. unfold Ticket_save, denies. refusal_cases.
Qed.

Lemma scenario_refsResolve : refsResolve (db Scenario.world).
Proof.
  repeat constructor; cbn; try discriminate.
  intros a [= <-]. discriminate.
Defined.

Lemma references_stay_resolvable_witness :
  refsResolve
    (db (run Scenario.world
       [(Scenario.by_ Scenario.alice 3000, DELETE_project "p1");
        (Scenario.by_ Scenario.alice 3001, DELETE_user "u3")])).
Proof.
  apply (references_stay_resolvable Scenario.world scenario_refsResolve).
Defined.

(** ** The caller's own tickets *)

Lemma countDocuments_split {A} (f g : A -> bool) (l : list A) :
  countDocuments f l
  = countDocuments (fun x => g x && f x) l
    + countDocuments (fun x => f x && negb (g x)) l.
Proof.
  unfold countDocuments. induction l as [|a l IH]; cbn [filter]; [reflexivity|].
  destruct (f a), (g a); cbn [andb negb List.length];
    rewrite ?Nat2Z.inj_succ; lia.
Qed.



(** ** Creating and updating projects *)

Lemma createProject_effect req body w :
  match ProjectController.createProject req body w with
  | (Throw _, w') => w' = w
  | (Ok p', w') =>
      p' = ProjectController.newProject req body
      /\ find (fun q => String.eqb (Project.name q)
                                   (ProjectController.pb_name body))
              (projects (db w)) = None
      /\ findById Project._id (projects (db w)) (freshId req) = None
      /\ ProjectController.Project_validate p' = true
      /\ db w' = set_projects (projects (db w) ++ [p']) (db w)
      /\ outbox w' = outbox w
  end.
Proof.
  unfold ProjectController.createProject, ProjectController.Project_create.
  handler_cases.
  all: repeat match goal with
       | H : is_some ?x = false |- _ =>
           assert (x = None) by (destruct x; [discriminate H|reflexivity]);
           clear H
       | H : negb _ = false |- _ => apply negb_false_iff in H
       end.
  all: repeat split; auto.
Qed.

Lemma updateProject_effect req id u w :
  match ProjectController.updateProject req id u w with
  | (Throw _, w') => w' = w
  | (Ok p', w') =>
      exists p,
        findActiveProject (db w) id = Some p
        /\ (isAdmin req = true \/ Project.createdBy p = User._id (user req))
        /\ p' = ProjectController.applyProjectUpdates u p
        /\ ProjectController.Project_validate p' = true
        /\ (Project.name p' = Project.name p
            \/ ProjectController.nameTaken (db w) p' = false)
        /\ db w' = set_projects (replaceById Project._id p' (projects (db w)))
                                (db w)
        /\ outbox w' = outbox w
  end.
Proof.
  unfold ProjectController.updateProject, ProjectController.Project_save.
  handler_cases.
  all: match goal with
       | H : findActiveProject _ _ = Some ?p |- _ => exists p
       end.
  all: split; [reflexivity|].
  all: split; [now apply mayManageMembers|].
  all: split; [reflexivity|].
  all: repeat match goal with
       | H : negb (ProjectController.Project_validate _) = false |- _ =>
           apply negb_false_iff in H
       end.
  all: split; [assumption|].
  all: split; [|split; reflexivity].
  all: match goal with
       | H : negb (String.eqb ?a ?b) && ?t = false |- _ =>
           apply andb_false_iff in H as [H|H];
           [apply negb_false_iff, String.eqb_eq in H; now left
           |right; exact H]
       end.
Qed.

Lemma unique_split {A} (id_of : A -> ObjectId) (l : list A) (p : A) :
  uniqueIds id_of l -> In p l ->
  exists l1 l2,
    l = l1 ++ p :: l2
    /\ forall q, In q (l1 ++ l2) -> id_of q <> id_of p.
Proof.
  unfold uniqueIds. intros U Hin.
  apply in_split in Hin as (l1 & l2 & ->). exists l1, l2.
  split; [reflexivity|]. intros q Hq E.
  rewrite map_app in U. cbn [map] in U. apply NoDup_remove_2 in U.
  apply U. rewrite <- map_app, <- E. now apply in_map.
Qed.

Lemma replaceById_split {A} (id_of : A -> ObjectId) (l1 l2 : list A)
    (p p' : A) :
  id_of p' = id_of p ->
  (forall q, In q (l1 ++ l2) -> id_of q <> id_of p) ->
  replaceById id_of p' (l1 ++ p :: l2) = l1 ++ p' :: l2.
Proof.
  intros E H. unfold replaceById. rewrite map_app. cbn [map].
  rewrite E, String.eqb_refl. f_equal; [|f_equal].
  - rewrite <- (map_id l1) at 2. apply map_ext_in. intros q Hq.
    destruct (String.eqb_spec (id_of q) (id_of p)) as [Eq|_]; [|reflexivity].
    exfalso. apply (H q); [apply in_or_app; now left|exact Eq].
  - rewrite <- (map_id l2) at 2. apply map_ext_in. intros q Hq.
    destruct (String.eqb_spec (id_of q) (id_of p)) as [Eq|_]; [|reflexivity].
    exfalso. apply (H q); [apply in_or_app; now right|exact Eq].
Qed.

Lemma NoDup_insert {A} (x : A) (l1 l2 : list A) :
  NoDup (l1 ++ l2) -> ~ In x (l1 ++ l2) -> NoDup (l1 ++ x :: l2).
Proof.
  induction l1 as [|a l1 IH]; cbn; intros N Hx.
  - now constructor.
  - inversion N as [|? ? Ha N']; subst. constructor.
    + intros Hin. apply in_app_or in Hin as [Hin|[->|Hin]].
      * apply Ha, in_or_app. now left.
      * apply Hx. now left.
      * apply Ha, in_or_app. now right.
    + apply IH; [exact N'|]. intros Hin. apply Hx. now right.
Qed.

Lemma NoDup_map_filter {A B} (f : A -> B) (g : A -> bool) (l : list A) :
  NoDup (map f l) -> NoDup (map f (filter g l)).
Proof.
  induction l as [|a l IH]; cbn; intros N; [constructor|].
  inversion N as [|? ? Ha N']; subst.
  destruct (g a); cbn; [|auto]. constructor; [|auto].
  intros Hin. apply Ha. apply in_map_iff in Hin as (q & E & Hq).
  apply filter_In in Hq as [Hq _]. rewrite <- E. now apply in_map.
Qed.

Lemma keyed_replaced d p p' :
  keyedProjects d ->
  In p (projects d) ->
  Project._id p' = Project._id p ->
  Project.name p' = Project.name p
  \/ ProjectController.nameTaken d p' = false ->
  keyedProjects (set_projects (replaceById Project._id p' (projects d)) d).
Proof.
  unfold keyedProjects, uniqueNames. cbn [projects set_projects].
  intros [U N] Hin Hid Hn. split.
  - unfold uniqueIds. now rewrite replaceById_ids.
  - destruct (unique_split Project._id _ p U Hin) as (l1 & l2 & E & Hq).
    rewrite E in *. rewrite (replaceById_split Project._id l1 l2 p p' Hid Hq).
    rewrite map_app in *. cbn [map] in *.
    destruct Hn as [->|T]; [exact N|].
    apply NoDup_insert; [now apply NoDup_remove_1 in N|].
    rewrite <- map_app. intros Hx. apply in_map_iff in Hx as (q & Eq & Hin').
    unfold ProjectController.nameTaken in T.
    assert (Hq' : In q (projects d)).
    { rewrite E. apply in_app_or in Hin' as [H|H]; apply in_or_app;
        [now left|right; now right]. }
    apply Bool.not_true_iff_false in T. apply T.
    apply existsb_exists. exists q. split; [exact Hq'|].
    rewrite Eq, String.eqb_refl. cbn [andb]. apply negb_true_iff.
    apply String.eqb_neq. rewrite Hid. now apply Hq.
Qed.

Lemma keyed_deleted d id :
  keyedProjects d ->
  keyedProjects (set_projects (deleteById Project._id id (projects d)) d).
Proof.
  unfold keyedProjects, uniqueNames, uniqueIds, deleteById.
  cbn [projects set_projects]. intros [U N].
  split; now apply NoDup_map_filter.
Qed.

(** How one request the server answers may change the projects. *)
Lemma serve_projects w rc :
  projects (db (serve w rc)) = projects (db w)
  \/ (exists p p',
        In p (projects (db w))
        /\ Project._id p' = Project._id p
        /\ Project.name p' = Project.name p
        /\ db (serve w rc)
           = set_projects (replaceById Project._id p' (projects (db w)))
                          (db w))
  \/ (exists id,
        db (serve w rc)
        = set_projects (deleteById Project._id id (projects (db w))) (db w)).
Proof.
  destruct rc as [req call]. unfold serve, route. cbn [fst snd].
  destruct call.
  - rewrite done_world.
    pose proof (createTicket_effect req body w) as E.
    destruct (TicketController.createTicket req body w) as [[pt|e] w'];
      cbn [snd]; [destruct E as (_ & _ & -> & _)|subst w']; now left.
  - rewrite done_world.
    pose proof (updateTicket_effect req id updates w) as E.
    destruct (TicketController.updateTicket req id updates w) as [[pt|e] w'];
      cbn [snd]; [destruct E as (t & _ & _ & _ & -> & _)|subst w']; now left.
  - pose proof (deleteTicket_effect req id w) as E.
    destruct (TicketController.deleteTicket req id w) as [[pt|e] w'];
      cbn [snd]; [destruct E as (-> & _)|subst w']; now left.
  - rewrite done_world.
    pose proof (assignTicket_effect req id userId w) as E.
    destruct (TicketController.assignTicket req id userId w) as [[pt|e] w'];
      cbn [snd]; [destruct E as (t & _ & _ & _ & -> & _)|subst w']; now left.
  - rewrite done_world.
    pose proof (unassignTicket_effect req id w) as E.
    destruct (TicketController.unassignTicket req id w) as [[pt|e] w'];
      cbn [snd]; [destruct E as (t & _ & _ & _ & -> & _)|subst w']; now left.
  - destruct (authorize_then [ADMIN] req
                (done (ProjectController.deleteProject req id)) w) as [->| ->];
      [now left|].
    rewrite done_world.
    pose proof (deleteProject_effect req id w) as E.
    destruct (ProjectController.deleteProject req id w) as [[r|e] w'];
      cbn [snd]; [|destruct E as (-> & _); now left].
    destruct E as (p & F & _ & E).
    apply findActiveProject_in in F as (Hin & _).
    destruct (find _ _); destruct E as (_ & ->).
    + right; left. exists p, (archived p). auto.
    + right; right. now exists id.
  - rewrite done_world.
    destruct (ProjectController.addProjectMember req id userId role w)
      as [[r|e] w'] eqn:R; cbn [snd].
    + destruct (addProjectMember_ok _ _ _ _ _ _ _ R)
        as (p & i & F & _ & _ & _ & -> & -> & _).
      apply findActiveProject_in in F as (Hin & _).
      right; left. exists p. eexists. split; [exact Hin|].
      refine (conj _ (conj _ eq_refl)); reflexivity.
    + pose proof (addProjectMember_effect req id userId role w) as E.
      rewrite R in E. subst w'. now left.
  - destruct (authorize_then [ADMIN] req
                (done (UserController.updateUserRole req userId role)) w)
      as [->| ->]; [now left|].
    rewrite done_world.
    pose proof (updateUserRole_effect req userId role w) as E.
    destruct (UserController.updateUserRole req userId role w)
      as [[r|e] w']; cbn [snd];
      [destruct E as (u & _ & _ & -> & _)|subst w']; now left.
  - destruct (authorize_then [ADMIN] req
                (done (UserController.updateUserStatus req userId isActive)) w)
      as [->| ->]; [now left|].
    rewrite done_world.
    pose proof (updateUserStatus_effect req userId isActive w) as E.
    destruct (UserController.updateUserStatus req userId isActive w)
      as [[r|e] w']; cbn [snd];
      [destruct E as (u & _ & _ & -> & _)|subst w']; now left.
  - destruct (authorize_then [ADMIN] req
                (done (UserController.deleteUser req userId)) w)
      as [->| ->]; [now left|].
    rewrite done_world.
    pose proof (deleteUser_effect req userId w) as E.
    destruct (UserController.deleteUser req userId w)
      as [[r|e] w']; cbn [snd]; [|subst w'; now left].
    destruct E as (u & _ & _ & _ & E).
    destruct (hasAssociatedData _ _); destruct E as (_ & ->); now left.
Qed.

Lemma keyed_same d d' :
  projects d' = projects d -> keyedProjects d -> keyedProjects d'.
Proof.
  unfold keyedProjects, uniqueNames. now intros ->.
Qed.

Lemma serve_keyed w rc :
  keyedProjects (db w) -> keyedProjects (db (serve w rc)).
Proof.
  intros K.
  destruct (serve_projects w rc)
    as [E|[(p & p' & Hin & Hid & Hn & ->)|(id & ->)]].
  - now apply (keyed_same (db w)).
  - apply (keyed_replaced _ p); auto.
  - now apply keyed_deleted.
Qed.

(** X23. Project names and identifiers stay unique.  If no two stored
    projects share an identifier or a name, none do after [createProject]
    or [updateProject], whatever they answer, nor after any sequence of
    requests the server answers, nor after a member is removed or given
    another role: a name in use is refused with 400, and the other
    handlers leave names and identifiers alone. *)
Theorem project_keys_stay_unique (w : World) :
  keyedProjects (db w) ->
  (forall req body,
     keyedProjects (db (snd (ProjectController.createProject req body w))))
  /\ (forall req id u,
        keyedProjects
          (db (snd (ProjectController.updateProject req id u w))))
  /\ (forall calls, keyedProjects (db (run w calls)))
  /\ (forall req id userId,
        keyedProjects
          (db (snd (ProjectController.removeProjectMember req id userId w))))
  /\ (forall req id userId role,
        keyedProjects
          (db (snd (ProjectController.updateMemberRole
                      req id userId role w)))).
Proof.
  intros K. split; [|split; [|split; [|split]]].
  - intros req body.
    pose proof (createProject_effect req body w) as E.
    destruct (ProjectController.createProject req body w) as [[p'|e] w'];
      cbn [snd]; [|now subst w'].
    destruct E as (-> & Fn & Fi & _ & -> & _). destruct K as [U N].
    unfold keyedProjects, uniqueNames, uniqueIds in *.
    cbn [projects set_projects]. rewrite !map_app. cbn [map].
    split.
    + apply NoDup_insert; rewrite app_nil_r; [exact U|].
      intros Hin. apply in_map_iff in Hin as (q & E & Hq).
      pose proof (proj1 (find_none_iff _ _) Fi q Hq) as X. cbn in X.
      cbn in E. rewrite E, String.eqb_refl in X. discriminate X.
    + apply NoDup_insert; rewrite app_nil_r; [exact N|].
      intros Hin. apply in_map_iff in Hin as (q & E & Hq).
      pose proof (proj1 (find_none_iff _ _) Fn q Hq) as X. cbn in X.
      cbn in E. rewrite E, String.eqb_refl in X. discriminate X.
  - intros req id u.
    pose proof (updateProject_effect req id u w) as E.
    destruct (ProjectController.updateProject req id u w) as [[p'|e] w'];
      cbn [snd]; [|now subst w'].
    destruct E as (p & F & _ & Hp & _ & Hn & -> & _).
    apply findActiveProject_in in F as (Hin & _).
    apply (keyed_replaced _ p); auto. now rewrite Hp.
  - intros calls. revert w K.
    induction calls as [|rc calls IH]; intros w K; [exact K|].
    cbn. apply IH. now apply serve_keyed.
  - intros req id userId.
    pose proof (removeProjectMember_effect req id userId w) as E.
    destruct (ProjectController.removeProjectMember req id userId w)
      as [[r|e] w']; cbn [snd]; [|now subst w'].
    destruct E as (p & i & F & _ & _ & -> & _).
    apply findActiveProject_in in F as (Hin & _).
    apply (keyed_replaced _ p); auto.
  - intros req id userId role.
    pose proof (updateMemberRole_effect req id userId role w) as E.
    destruct (ProjectController.updateMemberRole req id userId role w)
      as [[r|e] w']; cbn [snd]; [|now subst w'].
    destruct E as (p & m & F & _ & _ & -> & -> & _).
    apply findActiveProject_in in F as (Hin & _).
    apply (keyed_replaced _ p); auto.
Qed.

Lemma scenario_keyedProjects : keyedProjects (db Scenario.world).
Proof.
  split; [exact scenario_uniqueIds|].
  unfold uniqueNames. cbn. repeat constructor; cbn; intuition discriminate.
Defined.

Lemma project_keys_stay_unique_witness :
  keyedProjects
    (db (snd (ProjectController.createProject
                (Scenario.by_ Scenario.alice 3000)
                (projectNamed "Mobile App" "The companion application")
                Scenario.world))).
Proof.
  apply (project_keys_stay_unique Scenario.world scenario_keyedProjects).
Defined.

(** X24. Updating a project changes neither who has access nor whether it
    is active.  A successful [updateProject] is by an admin or the creator;
    the stored project keeps its identifier, creator, members and start
    date, so every user's access is what it was, and it is still active
    with the status asked for: setting the status to ARCHIVED does not
    archive the project the way [deleteProject] does, and [createTicket]
    still finds it.  Tickets, users and the outbox are untouched; for any
    other caller the answer is 403 and nothing changes. *)
Theorem updateProject_keeps_access (req : Request) (id : ObjectId)
    (u : ProjectController.projectUpdates) (w : World) :
  (forall p' w',
     ProjectController.updateProject req id u w = (Ok p', w') ->
     exists p,
       findActiveProject (db w) id = Some p
       /\ (isAdmin req = true \/ Project.createdBy p = User._id (user req))
       /\ findActiveProject (db w') id = Some p'
       /\ Project.status p' = or_else (ProjectController.pu_status u)
                                      (Project.status p)
       /\ Project.members p' = Project.members p
       /\ Project.createdBy p' = Project.createdBy p
       /\ (forall user level,
             Project.hasAccess p' user level = Project.hasAccess p user level)
       /\ tickets (db w') = tickets (db w)
       /\ users (db w') = users (db w)
       /\ outbox w' = outbox w)
  /\ (forall p,
        findActiveProject (db w) id = Some p ->
        isAdmin req = false ->
        Project.createdBy p <> User._id (user req) ->
        ProjectController.updateProject req id u w =
        (Throw {| message :=
                    "Access denied. Only admin or project creator can update project";
                  statusCode := 403 |}, w)).
Proof.
  split.
  - intros p' w' R.
    pose proof (updateProject_effect req id u w) as E. rewrite R in E.
    destruct E as (p & F & G & -> & _ & _ & Hdb & Ho).
    exists p. split; [exact F|]. split; [exact G|].
    destruct (findActiveProject_in _ _ _ F) as (Hin & Hid & Hact).
    split; [|split; [reflexivity|]; split; [reflexivity|];
             split; [reflexivity|]; split; [reflexivity|]].
    + rewrite Hdb. apply (findActiveProject_replaced _ _ p); auto.
    + rewrite Hdb. split; [now destruct (db w)|].
      split; [now destruct (db w)|exact Ho].
  - intros p F A N.
    unfold ProjectController.updateProject. handler_unfold.
    cbn beta iota. rewrite F. cbn beta iota. rewrite A.
    apply String.eqb_neq in N. now rewrite N.
Qed.

Lemma updateProject_keeps_access_witness :
  match ProjectController.updateProject (Scenario.by_ Scenario.alice 3000)
          "p1" (setProjectStatus ARCHIVED) Scenario.world with
  | (Ok p', w') =>
      findActiveProject (db w') "p1" = Some p'
      /\ Project.status p' = ARCHIVED
      /\ Project.hasAccess p' "u2" CONTRIBUTOR = true
  | (Throw _, _) => False
  end.
Proof.
  destruct (ProjectController.updateProject _ _ _ _) as [[p'|e] w'] eqn:R.
  - destruct (proj1 (updateProject_keeps_access _ _ _ _) _ _ R)
      as (p & F & _ & F' & Hs & _ & _ & Ha & _).
    vm_compute in F. injection F as <-.
    split; [exact F'|]. split; [exact Hs|]. now rewrite Ha.
  - vm_compute in R. discriminate R.
Defined.

Lemma filter_all {A} (g : A -> bool) (l : list A) :
  (forall q, In q l -> g q = true) -> filter g l = l.
Proof.
  induction l as [|a l IH]; cbn; intros H; [reflexivity|].
  rewrite (H a (or_introl eq_refl)). f_equal. apply IH.
  intros q Hq. apply H. now right.
Qed.

Lemma deleteById_fresh {A} (id_of : A -> ObjectId) (l : list A) (x : A) :
  findById id_of l (id_of x) = None ->
  deleteById id_of (id_of x) (l ++ [x]) = l.
Proof.
  unfold findById, deleteById. intros F.
  rewrite filter_app. cbn. rewrite String.eqb_refl. cbn [negb].
  rewrite app_nil_r. apply filter_all. intros q Hq.
  now rewrite (proj1 (find_none_iff _ _) F q Hq).
Qed.

(** X25. A project that was just created belongs to its creator alone and
    can be deleted without a trace.  After a successful [createProject] the
    projects are the ones before followed by the new project, which is
    active, has no members and grants access, at every level, to the caller
    and to nobody else.  When the tickets' projects are all stored, no
    ticket refers to the new project yet, so [deleteProject] removes it
    for good and the database is as it was before the two requests. *)
Theorem created_project_is_the_creators (req : Request)
    (body : ProjectController.projectBody) (w w1 : World)
    (p' : Project.doc) :
  ProjectController.createProject req body w = (Ok p', w1) ->
  projects (db w1) = projects (db w) ++ [p']
  /\ Project._id p' = freshId req
  /\ Project.name p' = ProjectController.pb_name body
  /\ Project.members p' = []
  /\ findActiveProject (db w1) (freshId req) = Some p'
  /\ (forall userId level,
        Project.hasAccess p' userId level
        = String.eqb (User._id (user req)) userId)
  /\ (refsResolve (db w) ->
      forall req',
        exists w2,
          ProjectController.deleteProject req' (freshId req) w1
          = (Ok None, w2)
          /\ db w2 = db w
          /\ outbox w2 = outbox w).
Proof.
  intros R.
  pose proof (createProject_effect req body w) as E. rewrite R in E.
  destruct E as (-> & _ & Fi & _ & Hdb & Ho).
  assert (Fa : findActiveProject (db w1) (freshId req)
               = Some (ProjectController.newProject req body)).
  { rewrite Hdb. unfold findActiveProject. cbn [projects set_projects].
    rewrite find_app_none.
    - cbn. now rewrite String.eqb_refl.
    - apply find_none_iff. intros q Hq.
      now rewrite (proj1 (find_none_iff _ _) Fi q Hq). }
  split; [now rewrite Hdb|]. split; [reflexivity|]. split; [reflexivity|].
  split; [reflexivity|]. split; [exact Fa|]. split.
  - intros userId level. rewrite hasAccess_members. cbn.
    now destruct (String.eqb (User._id (user req)) userId).
  - intros Refs req'.
    assert (Ft : find (fun t => String.eqb (Ticket.project t) (freshId req))
                      (tickets (db w1)) = None).
    { rewrite Hdb. cbn [tickets set_projects]. apply find_none_iff.
      intros t Ht. apply String.eqb_neq. intros Et.
      destruct (proj1 (Forall_forall _ _) Refs t Ht) as [Rp _].
      apply Rp. now rewrite Et. }
    unfold ProjectController.deleteProject. handler_unfold.
    cbn beta iota. rewrite Fa. cbn beta iota. rewrite Ft. cbn beta iota.
    eexists. split; [reflexivity|]. cbn [db outbox].
    split; [|exact Ho]. rewrite Hdb. cbn [projects set_projects].
    change (freshId req)
      with (Project._id (ProjectController.newProject req body)).
    rewrite deleteById_fresh; [now destruct (db w)|exact Fi].
Qed.

Lemma created_project_is_the_creators_witness :
  match ProjectController.createProject (Scenario.by_ Scenario.alice 3000)
          (projectNamed "Mobile App" "The companion application")
          Scenario.world with
  | (Ok p', w1) =>
      Project.hasAccess p' "u1" MANAGER = true
      /\ Project.hasAccess p' "u2" VIEWER = false
      /\ exists w2,
           ProjectController.deleteProject (Scenario.by_ Scenario.alice 3001)
             "t9" w1 = (Ok None, w2)
           /\ db w2 = db Scenario.world
  | (Throw _, _) => False
  end.
Proof.
  destruct (ProjectController.createProject _ _ _) as [[p'|e] w1] eqn:R.
  - destruct (created_project_is_the_creators _ _ _ _ _ R)
      as (_ & _ & _ & _ & _ & Ha & Hd).
    split; [now rewrite Ha|]. split; [now rewrite Ha|].
    destruct (Hd scenario_refsResolve (Scenario.by_ Scenario.alice 3001))
      as (w2 & R2 & Hdb & _).
    exists w2. split; [exact R2|exact Hdb].
  - vm_compute in R. discriminate R.
Defined.

(** ** Listing projects *)

Lemma getAllProjects_runs regexTest sortDocs req q w :
  ProjectController.getAllProjects regexTest sortDocs req q w =
  (Ok {| TicketController.l_items :=
           map (fun p =>
                  {| ProjectController.lp_project := p;
                     ProjectController.lp_ticketCount :=
                       countDocuments
                         (fun t => String.eqb (Ticket.project t)
                                              (Project._id p))
                         (tickets (db w)) |})
               (firstn (ProjectController.pq_limit q)
                  (skipn ((ProjectController.pq_page q - 1)
                          * ProjectController.pq_limit q)%nat
                     (sortDocs
                        (filter (ProjectController.matchesProjectQuery
                                   regexTest req q)
                                (projects (db w))))));
         TicketController.l_total :=
           List.length
             (filter (ProjectController.matchesProjectQuery regexTest req q)
                     (projects (db w)));
         TicketController.l_page := ProjectController.pq_page q;
         TicketController.l_pages :=
           TicketController.ceilDiv
             (List.length
                (filter (ProjectController.matchesProjectQuery regexTest req q)
                        (projects (db w))))
             (ProjectController.pq_limit q);
         TicketController.l_limit := ProjectController.pq_limit q |}, w).
Proof. reflexivity. Qed.

Lemma matchesProjectQuery_access regexTest req q p :
  ProjectController.matchesProjectQuery regexTest req q p = true ->
  Project.isActive p = true
  /\ (isAdmin req = true
      \/ Project.hasAccess p (User._id (user req)) VIEWER = true).
Proof.
  unfold ProjectController.matchesProjectQuery. intros H.
  do 3 (apply andb_true_iff in H as [H _]).
  apply andb_true_iff in H as [Hact H]. split; [exact Hact|].
  rewrite hasAccess_VIEWER. rewrite <- orb_assoc in H.
  now apply orb_true_iff in H.
Qed.

Lemma matchesProjectQuery_plain regexTest req page limit p :
  ProjectController.matchesProjectQuery regexTest req
    (projectPageQuery page limit) p
  = Project.isActive p
    && (isAdmin req || Project.hasAccess p (User._id (user req)) VIEWER).
Proof.
  unfold ProjectController.matchesProjectQuery. cbn.
  now rewrite !andb_true_r, hasAccess_VIEWER, orb_assoc.
Qed.


